(** * Brewery Planner: calculation and scenario-data engine

    A shallow embedding of the computational core of [breweryplanner.py]:
    recipe costing, distribution normalisation, the monthly P&L (DRE), the
    payback projections, the store loader with its migrations and the
    spreadsheet export/import contract.

    Conventions of the embedding.
    - In the monthly P&L, the payroll and the financing block a Python
      [float] is an exact rational ([Q]) and results are compared with [==]
      ([Qeq]): what is stated there is which operations are carried out.
    - Where rounding or overflow decides the result (distribution
      normalisation, recipe costing, the payback series) the function is
      embedded over IEEE 754 binary64 as well (modules [Mix64],
      [Costing64], [Payback64]), and the properties are stated there.
    - A Python exception is a value: functions that can raise return an
      [outcome].  Division by a divisor that is not a literal goes through
      [py_div], which raises [ZeroDivisionError] on a zero divisor.
    - A [dict] is an association list in insertion order; a pandas
      [DataFrame] is the list of its rows, each row a record of the columns
      the code reads. *)

From Stdlib Require Import QArith Qminmax Qpower ZArith List String Ascii Bool.
From Stdlib Require Import DecimalString DecimalNat.
From Stdlib Require Import Floats.SpecFloat.
From Stdlib.Strings Require Import Byte.
From Stdlib Require Import Lia Lqa Permutation Setoid.
Import ListNotations.

Local Open Scope Q_scope.

(* ================================================================= *)
(** ** Python prelude *)

Module Py.

Inductive exn : Type :=
| ZeroDivisionError
| TypeError
| AttributeError
| ValueError
| IndexError.

Inductive outcome (A : Type) : Type :=
| Ok (a : A)
| Raise (e : exn).

Arguments Ok {A} a.
Arguments Raise {A} e.

Definition bind {A B : Type} (m : outcome A) (k : A -> outcome B) : outcome B :=
  match m with
  | Ok a => k a
  | Raise e => Raise e
  end.

Definition is_ok {A : Type} (m : outcome A) : bool :=
  match m with
  | Ok _ => true
  | Raise _ => false
  end.

(** [for x in xs: acc = body(acc, x)] with a body that may raise. *)
Fixpoint for_each {A S : Type} (body : S -> A -> outcome S) (xs : list A) (acc : S)
  : outcome S :=
  match xs with
  | [] => Ok acc
  | x :: rest => bind (body acc x) (for_each body rest)
  end.

(** A comprehension [[f(x) for x in xs]] whose element expression may raise. *)
Fixpoint comprehension {A B : Type} (f : A -> outcome B) (xs : list A)
  : outcome (list B) :=
  match xs with
  | [] => Ok []
  | x :: rest =>
      bind (f x) (fun y => bind (comprehension f rest) (fun ys => Ok (y :: ys)))
  end.

Definition Qlt_bool (x y : Q) : bool := negb (Qle_bool y x).

(** [max(a, b)]: the first argument unless the second is strictly greater. *)
Definition py_max (a b : Q) : Q := if Qlt_bool a b then b else a.

(** [x or d] on floats: [d] when [x] is falsy, that is zero. *)
Definition py_or (x d : Q) : Q := if Qeq_bool x 0 then d else x.

(** [x / y] with a variable divisor. *)
Definition py_div (x y : Q) : outcome Q :=
  if Qeq_bool y 0 then Raise ZeroDivisionError else Ok (x / y).

(** [sum(xs)] of floats. *)
Definition py_sum (xs : list Q) : Q := fold_left Qplus xs 0.

(** Two float results are the same: the same number, or the same exception. *)
Definition same_result (a b : outcome Q) : Prop :=
  match a, b with
  | Ok x, Ok y => x == y
  | Raise e, Raise e' => e = e'
  | _, _ => False
  end.

End Py.

Import Py.

Notation "x <- m ;; k" := (bind m (fun x => k))
  (at level 61, m at next level, right associativity).

(** A dict in insertion order. *)
Definition dict (V : Type) : Type := list (string * V).

Fixpoint dict_get {V : Type} (d : dict V) (k : string) : option V :=
  match d with
  | [] => None
  | (k', v) :: rest => if String.eqb k' k then Some v else dict_get rest k
  end.

Definition dict_mem {V : Type} (d : dict V) (k : string) : bool :=
  match dict_get d k with
  | Some _ => true
  | None => false
  end.

Definition dict_values {V : Type} (d : dict V) : list V := map snd d.
Definition dict_keys {V : Type} (d : dict V) : list string := map fst d.

(* ================================================================= *)
(** ** MixAllocator: [normalize_dist] *)

Module Mix.

(** A percentage as it may reach the function: [None] (a missing value),
    the float NaN (an invalid one) or a number. *)
Inductive percent : Type :=
| PNone
| PNaN
| PNum (q : Q).

(** [max(0.0, float(v or 0.0))]: [None or 0.0] is [0.0]; NaN is truthy and
    [max(0.0, nan)] keeps [0.0] because [nan > 0.0] is false. *)
Definition clean_value (v : percent) : Q :=
  match v with
  | PNone => py_max 0 0
  | PNaN => 0
  | PNum q => py_max 0 (py_or q 0)
  end.

(** [{k: max(0.0, float(v or 0.0)) for k, v in (dist or {}).items()}] *)
Definition clean_dist (dist : dict percent) : dict Q :=
  map (fun kv => (fst kv, clean_value (snd kv))) dist.

Definition normalize_dist (dist : dict percent) : outcome (dict Q) :=
  let clean := clean_dist dist in
  let s := py_sum (dict_values clean) in
  if Qle_bool s 0 then Ok clean
  else comprehension
         (fun kv => q <- py_div (snd kv) s ;; Ok (fst kv, q * 100)) clean.

End Mix.

(* ================================================================= *)
(** ** Tables read by the calculation engine *)

Module Frames.

(** A row of [receitas_header]. *)
Record header_row : Type := {
  ID : Z;                      (* "ID" *)
  Nome : string;               (* "Nome" *)
  Volume_Batelada : Q          (* "Volume Batelada (L)" *)
}.

(** A row of [receitas_detalhe]. *)
Record detail_row : Type := {
  Receita_ID : Z;
  Insumo : string;
  Qtd : Q;
  Custo_Unit : Q;
  Custo_Total : Q
}.

(** The recipe-line frame: whether it carries a "Custo_Total" column, and
    its rows ([Custo_Total] of a row is read only when the column exists). *)
Record detail_frame : Type := {
  has_Custo_Total : bool;
  det_rows : list detail_row
}.

(** A row of [embalagens_db]. *)
Record pack_row : Type := {
  Embalagem : string;          (* "Embalagem" *)
  Volume_L : Q;                (* "Volume (L)" *)
  Custo_Unit_RS : Q            (* "Custo Unit (R$)" *)
}.

(** A row of [precos_sku]. *)
Record price_row : Type := {
  SKU : string;
  Canal : string;
  Preco_Unit : Q               (* "Preço Unit (R$)" *)
}.

(** [prem.get(key, 0.0)] on the premises dict. *)
Definition prem_get (prem : dict Q) (key : string) : Q :=
  match dict_get prem key with
  | Some v => v
  | None => 0
  end.

End Frames.

Import Frames.

Local Open Scope string_scope.

(* ================================================================= *)
(** ** CostingEngine *)

Module Costing.

Definition calc_gip_total (prem : dict Q) : Q :=
  prem_get prem "GIP Químicos (R$/L)"
  + prem_get prem "GIP Energia (R$/L)"
  + prem_get prem "GIP Água (R$/L)"
  + prem_get prem "GIP CO2 (R$/L)".

(** [not recipe_name]: [None] and the empty string are falsy. *)
Definition name_falsy (recipe_name : option string) : bool :=
  match recipe_name with
  | None => true
  | Some s => String.eqb s ""
  end.

(** [recipe_name not in names] *)
Definition name_missing (recipe_name : option string) (names : list string) : bool :=
  match recipe_name with
  | None => true
  | Some s => negb (existsb (String.eqb s) names)
  end.

(** The "Custo_Total" column of the selected lines, computed from quantity
    and unit cost when the frame has no such column. *)
Definition line_totals (has_total : bool) (det : list detail_row) : list Q :=
  if has_total then map Custo_Total det
  else map (fun l => Qtd l * Custo_Unit l) det.

Definition recipe_cost_per_liter
  (receitas_header_df : list header_row) (receitas_det_df : detail_frame)
  (prem : dict Q) (recipe_name : option string) : outcome Q :=
  let gip := calc_gip_total prem in
  match receitas_header_df with
  | [] => Ok gip
  | first :: _ =>
      let names := map Nome receitas_header_df in
      let recipe_name :=
        if name_falsy recipe_name || name_missing recipe_name names
        then Nome first
        else match recipe_name with Some s => s | None => Nome first end in
      match filter (fun r => String.eqb (Nome r) recipe_name) receitas_header_df with
      | [] => Raise IndexError
      | row :: _ =>
          let rid := ID row in
          let vol := py_or (Volume_Batelada row) 0 in
          let det := filter (fun l => Z.eqb (Receita_ID l) rid) (det_rows receitas_det_df) in
          if match det with [] => true | _ => false end || Qle_bool vol 0
          then Ok gip
          else
            let custo_total := py_sum (line_totals (has_Custo_Total receitas_det_df) det) in
            q <- py_div custo_total vol ;; Ok (q + gip)
      end
  end.

Definition get_price (precos_df : list price_row) (sku canal : string) : Q :=
  match filter (fun r => String.eqb (SKU r) sku && String.eqb (Canal r) canal) precos_df with
  | [] => 0
  | r :: _ => Preco_Unit r
  end.

Definition get_pack_cost (emb_df : list pack_row) (embalagem : string) : Q * Q :=
  match filter (fun r => String.eqb (Embalagem r) embalagem) emb_df with
  | [] => (0, 0)
  | r :: _ => (Volume_L r, Custo_Unit_RS r)
  end.

End Costing.

Import Costing.

(* ================================================================= *)
(** ** FinancialProjector: monthly P&L *)

Module Dre.

(** The dict returned by [compute_monthly_dre], one field per key. *)
Record dre : Type := {
  receita_bruta : Q;           (* "Receita bruta" *)
  impostos : Q;                (* "Impostos" *)
  cmv_liquido : Q;             (* "CMV líquido" *)
  custo_embalagens : Q;        (* "Custo embalagens" *)
  custo_copos : Q;             (* "Custo copos" *)
  cmv_total : Q;               (* "CMV total" *)
  margem : Q;                  (* "Margem de contribuição" *)
  taproom_copos : Q;           (* "Taproom (copos/mês)" *)
  varejo_chope_l : Q;          (* "Varejo chope (L/mês)" *)
  varejo_embalado_l : Q        (* "Varejo embalado (L/mês)" *)
}.

(** [volume_mes_l = max(0.0, float(volume_mes_l))] *)
Definition clamp_volume (volume_mes_l : Q) : Q := py_max 0 volume_mes_l.

(** The Taproom cup: volume per cup after [copo_vol_l or 0.473], and the
    cup count [vol_tap / copo_vol_l if copo_vol_l > 0 else 0.0]. *)
Definition cup_volume (copo_vol_l : Q) : Q := py_or copo_vol_l 0.473.

Definition cup_count (vol_tap copo_vol_l : Q) : outcome Q :=
  if Qlt_bool 0 copo_vol_l then py_div vol_tap copo_vol_l else Ok 0.

(** One turn of the loop over [dist_emb.items()]; the accumulator is
    [(receita_emb, custo_embalagem_total)]. *)
Definition alloc_step (emb_df : list pack_row) (precos_df : list price_row)
  (vol_vemb : Q) (acc : Q * Q) (item : string * Q) : outcome (Q * Q) :=
  let '(emb_name, pct) := item in
  let vol_ := vol_vemb * (pct / 100) in
  let '(v_l, c_u) := get_pack_cost emb_df emb_name in
  if Qle_bool v_l 0 then Ok acc
  else
    unidades <- py_div vol_ v_l ;;
    let preco_u := get_price precos_df emb_name "Varejo" in
    Ok (fst acc + unidades * preco_u, snd acc + unidades * c_u).

Definition compute_monthly_dre
  (volume_mes_l mix_taproom mix_varejo_chope mix_varejo_emb : Q)
  (dist_emb_percent : dict Mix.percent) (receita_base_nome : option string)
  (receitas_header_df : list header_row) (receitas_det_df : detail_frame)
  (emb_df : list pack_row) (precos_df : list price_row) (prem : dict Q)
  : outcome dre :=
  let volume_mes_l := clamp_volume volume_mes_l in
  let impostos_pct := py_or (prem_get prem "Impostos s/ venda (%)") 0 / 100 in
  custo_liquido_l <-
    recipe_cost_per_liter receitas_header_df receitas_det_df prem receita_base_nome ;;
  let vol_tap := volume_mes_l * (mix_taproom / 100) in
  let vol_vch := volume_mes_l * (mix_varejo_chope / 100) in
  let vol_vemb := volume_mes_l * (mix_varejo_emb / 100) in
  let preco_chope_l := get_price precos_df "Chope (R$/L)" "Varejo" in
  let preco_copo := get_price precos_df "Copo Taproom" "Taproom" in
  let '(copo_vol_l, copo_custo) := get_pack_cost emb_df "Copo Taproom" in
  let copo_vol_l := cup_volume copo_vol_l in
  cups <- cup_count vol_tap copo_vol_l ;;
  let receita_tap := cups * preco_copo in
  let custo_copo_total := cups * copo_custo in
  let receita_vch := vol_vch * preco_chope_l in
  dist_emb <- Mix.normalize_dist dist_emb_percent ;;
  totals <- for_each (alloc_step emb_df precos_df vol_vemb) dist_emb (0, 0) ;;
  let '(receita_emb, custo_embalagem_total) := totals in
  let receita_bruta := receita_tap + receita_vch + receita_emb in
  let impostos := receita_bruta * impostos_pct in
  let cmv_liquido := volume_mes_l * custo_liquido_l in
  let cmv := cmv_liquido + custo_embalagem_total + custo_copo_total in
  let margem := receita_bruta - impostos - cmv in
  Ok {| receita_bruta := receita_bruta;
        impostos := impostos;
        cmv_liquido := cmv_liquido;
        custo_embalagens := custo_embalagem_total;
        custo_copos := custo_copo_total;
        cmv_total := cmv;
        margem := margem;
        taproom_copos := cups;
        varejo_chope_l := vol_vch;
        varejo_embalado_l := vol_vemb |}.

End Dre.

(* ================================================================= *)
(** ** FinancialProjector: amortisation and payback *)

Module Payback.

(** [max(a, b)] on ints. *)
Definition py_max_int (a b : Z) : Z := if (a <? b)%Z then b else a.

Definition pmt_price (pv rate_month : Q) (nper : Z) : outcome Q :=
  if (nper <=? 0)%Z then Ok 0
  else if Qle_bool rate_month 0 then py_div pv (inject_Z nper)
  else py_div (pv * rate_month) (1 - Qpower (1 + rate_month) (- nper)).

(** The loop of [build_payback_series] with a per-month net cash [cash m]:
    state is [(acc, pay_m, saldo)], [saldo] in reverse order. *)
Fixpoint payback_loop (cash : nat -> Q) (ms : list nat)
  (acc : Q) (pay_m : option nat) (saldo : list Q) : list Q * option nat :=
  match ms with
  | [] => (rev saldo, pay_m)
  | m :: rest =>
      let acc := acc + cash m in
      let saldo := acc :: saldo in
      let pay_m :=
        if Qle_bool 0 acc && match pay_m with None => true | Some _ => false end
        then Some m else pay_m in
      payback_loop cash rest acc pay_m saldo
  end.

(** The frame [{"Mês": 0..months, "Saldo": saldo}] as its rows, and [pay_m].
    The horizon [months] is a count of months. *)
Definition build_payback_series (invest monthly_cash : Q) (months : nat)
  : list (nat * Q) * option nat :=
  let '(saldo, pay_m) :=
    payback_loop (fun _ => monthly_cash) (seq 1 months) (- invest) None [- invest] in
  (combine (seq 0 (months + 1)) saldo, pay_m).

Definition default_months : nat := 84.

(** The balances the loop appends to [saldo], month by month. *)
Fixpoint running (cash : nat -> Q) (ms : list nat) (acc : Q) : list Q :=
  match ms with
  | [] => []
  | m :: rest => (acc + cash m) :: running cash rest (acc + cash m)
  end.

(** The financing block of the payback tab: the fixed instalment
    [parcela] and the interest-only payment [juros_only]. *)
Definition parcela (valor_fin i_m : Q) (prazo carencia : Z) : outcome Q :=
  pmt_price valor_fin i_m (py_max_int 1 (prazo - carencia)).

Definition juros_only (valor_fin i_m : Q) : Q := valor_fin * i_m.

(** [pay = juros_only if m <= carencia else parcela] *)
Definition pay (juros_only parcela : Q) (carencia : Z) (m : nat) : Q :=
  if (Z.of_nat m <=? carencia)%Z then juros_only else parcela.

(** The financed series: [for m in range(1, 85): acc += lucro - pay]. *)
Definition financed_payback_series
  (invest_inicial lucro_operacional valor_fin i_m : Q) (prazo carencia : Z)
  : outcome (list (nat * Q) * option nat) :=
  parcela <- parcela valor_fin i_m prazo carencia ;;
  let juros_only := juros_only valor_fin i_m in
  let '(saldo, m_pay) :=
    payback_loop (fun m => lucro_operacional - pay juros_only parcela carencia m)
                 (seq 1 84) (- invest_inicial) None [- invest_inicial] in
  Ok (combine (seq 0 85) saldo, m_pay).

End Payback.

(* ================================================================= *)
(** ** JSON-like values and dict mutation *)

Module Json.

(** What [json.load] yields, and what a spreadsheet cell holds. *)
#[local] Set Warnings "-register-all".
Inductive json : Type :=
| JNull
| JBool (b : bool)
| JNum (q : Q)
| JStr (s : string)
| JArr (items : list json)
| JObj (fields : list (string * json)).

(** [d[k] = v]: in place when the key exists, appended otherwise. *)
Fixpoint dict_set {V : Type} (d : dict V) (k : string) (v : V) : dict V :=
  match d with
  | [] => [(k, v)]
  | (k', v') :: rest =>
      if String.eqb k' k then (k', v) :: rest else (k', v') :: dict_set rest k v
  end.

(** [del d[k]] *)
Fixpoint dict_remove {V : Type} (d : dict V) (k : string) : dict V :=
  match d with
  | [] => []
  | (k', v') :: rest =>
      if String.eqb k' k then dict_remove rest k else (k', v') :: dict_remove rest k
  end.

(** [d.update(other)] *)
Definition dict_update {V : Type} (d other : dict V) : dict V :=
  fold_left (fun acc kv => dict_set acc (fst kv) (snd kv)) other d.

(** [d[k2] = d.pop(k1)] for a key [k1] of [d]. *)
Definition dict_move {V : Type} (d : dict V) (k1 k2 : string) : dict V :=
  match dict_get d k1 with
  | Some v => dict_set (dict_remove d k1) k2 v
  | None => d
  end.

(** Truth value of a Python object. *)
Definition truthy (v : json) : bool :=
  match v with
  | JNull => false
  | JBool b => b
  | JNum q => negb (Qeq_bool q 0)
  | JStr s => negb (String.eqb s "")
  | JArr items => match items with [] => false | _ => true end
  | JObj fields => match fields with [] => false | _ => true end
  end.

(** [a or b] *)
Definition py_or_obj (a b : json) : json := if truthy a then a else b.

Definition is_none (v : json) : bool :=
  match v with JNull => true | _ => false end.

(** [p in s] on strings: substring test. *)
Fixpoint is_substring (p s : string) : bool :=
  String.prefix p s
  || match s with
     | EmptyString => false
     | String _ rest => is_substring p rest
     end.

(** [k in c] for a string [k]: key of a dict, element of a list, substring
    of a string; any other right operand is not iterable. *)
Definition py_in (k : string) (c : json) : outcome bool :=
  match c with
  | JObj fields => Ok (dict_mem fields k)
  | JArr items =>
      Ok (existsb (fun x => match x with JStr s => String.eqb s k | _ => false end) items)
  | JStr s => Ok (is_substring k s)
  | JNull | JBool _ | JNum _ => Raise TypeError
  end.

(** [c.get(k)]: only dicts have the method. *)
Definition py_get (c : json) (k : string) : outcome json :=
  match c with
  | JObj fields =>
      Ok (match dict_get fields k with Some v => v | None => JNull end)
  | _ => Raise AttributeError
  end.

(** [sel in d] for a dict [d]: the key must be hashable; only a string can
    equal a key of a dict read from JSON. *)
Definition key_in (sel : json) (d : dict json) : outcome bool :=
  match sel with
  | JArr _ | JObj _ => Raise TypeError
  | JStr s => Ok (dict_mem d s)
  | JNull | JBool _ | JNum _ => Ok false
  end.

End Json.

Import Json.

(* ================================================================= *)
(** ** Scenario records and the default scenario *)

Module Scenario.

Record capex_row : Type := {
  capex_Categoria : string;
  capex_Item : string;
  capex_Valor : Q;
  capex_Status : string
}.

Record opex_row : Type := {
  opex_Descricao : string;     (* "Descrição" *)
  opex_Valor : Q
}.

Record func_row : Type := {
  func_Nome : string;
  func_Modalidade : string;
  func_Salario_Bruto : Q;      (* "Salário Bruto" *)
  func_Encargos_CLT : Q;       (* "Encargos CLT (%)" *)
  func_Considerar_13 : bool;   (* "Considerar 13º" *)
  func_Considerar_Ferias : bool
}.

Record insumo_row : Type := {
  ins_Tipo : string;
  ins_Nome : string;
  ins_Unidade : string;
  ins_Custo : Q
}.

(** A scenario with its collections as typed rows; [mix], [premissas] and
    [financiamento] are the key/value dicts the code keeps as they are. *)
Record scenario : Type := {
  capex_db : list capex_row;
  opex_outros_db : list opex_row;
  funcionarios_db : list func_row;
  insumos_db : list insumo_row;
  receitas_header : list header_row;
  receitas_detalhe : list detail_row;
  embalagens_db : list pack_row;
  precos_sku : list price_row;
  mix : dict json;
  premissas : dict json;
  financiamento : dict json
}.

Definition mk_capex (c i : string) (v : Q) (s : string) : capex_row :=
  {| capex_Categoria := c; capex_Item := i; capex_Valor := v; capex_Status := s |}.
Definition mk_func (n m : string) (s e : Q) (d f : bool) : func_row :=
  {| func_Nome := n; func_Modalidade := m; func_Salario_Bruto := s;
     func_Encargos_CLT := e; func_Considerar_13 := d; func_Considerar_Ferias := f |}.
Definition mk_ins (t n u : string) (c : Q) : insumo_row :=
  {| ins_Tipo := t; ins_Nome := n; ins_Unidade := u; ins_Custo := c |}.
Definition mk_header (i : Z) (n : string) (v : Q) : header_row :=
  {| ID := i; Nome := n; Volume_Batelada := v |}.
Definition mk_line (r : Z) (i : string) (q c t : Q) : detail_row :=
  {| Receita_ID := r; Insumo := i; Qtd := q; Custo_Unit := c; Custo_Total := t |}.
Definition mk_pack (e : string) (v c : Q) : pack_row :=
  {| Embalagem := e; Volume_L := v; Custo_Unit_RS := c |}.
Definition mk_price (s c : string) (p : Q) : price_row :=
  {| SKU := s; Canal := c; Preco_Unit := p |}.

Definition default_mix : dict json :=
  [ ("Volume Vendido (L/mês)", JNum 2000);
    ("Mix Taproom (%)", JNum 30);
    ("Mix Varejo Chope (%)", JNum 25);
    ("Mix Varejo Embalado (%)", JNum 45);
    ("Distribuição Embalado (%)",
       JObj [ ("Lata 473ml", JNum 45); ("Garrafa 600ml", JNum 15);
              ("Long Neck", JNum 25); ("PET Growler 1,5L", JNum 15) ]);
    ("Receita Base (para custo)", JStr "Pilsen Padrão") ].

Definition default_premissas : dict json :=
  [ ("GIP Químicos (R$/L)", JNum 0.25);
    ("GIP Energia (R$/L)", JNum 0.35);
    ("GIP Água (R$/L)", JNum 0.15);
    ("GIP CO2 (R$/L)", JNum 0.15);
    ("Impostos s/ venda (%)", JNum 10.0);
    ("Capital de giro (meses)", JNum 6) ].

Definition default_financiamento : dict json :=
  [ ("Ativo", JBool false);
    ("Percentual financiado (%)", JNum 60.0);
    ("Taxa juros a.a. (%)", JNum 18.0);
    ("Prazo (meses)", JNum 48);
    ("Carência (meses)", JNum 0) ].

Definition default_scenario : scenario := {|
  capex_db :=
    [ mk_capex "Produção Quente" "Tribloco 500L Industrial" 68000.00 "Orçado";
      mk_capex "Produção Quente" "Moinho de Rolos Alta Capacidade" 4500.00 "Pendente";
      mk_capex "Fermentação" "Fermentador Cônico 500L (Unid 1)" 14500.00 "Orçado";
      mk_capex "Fermentação" "Fermentador Cônico 500L (Unid 2)" 14500.00 "Orçado";
      mk_capex "Fermentação" "Fermentador Cônico 500L (Unid 3)" 14500.00 "Orçado";
      mk_capex "Fermentação" "Fermentador Cônico 500L (Unid 4)" 14500.00 "Orçado";
      mk_capex "Frio" "Chiller 15.000 kcal + Bomba Glicol" 18500.00 "Pendente";
      mk_capex "Frio" "Câmara Fria Modular (3x3m)" 12000.00 "Pendente";
      mk_capex "Envase" "Envasadora Counter Pressure Semi-auto" 3500.00 "Comprado";
      mk_capex "Logística" "Parque Barris Inox (Lote A)" 16500.00 "Pendente";
      mk_capex "Infraestrutura" "Adequação Civil e Piso" 35000.00 "Estimado";
      mk_capex "Infraestrutura" "Licenciamento e Projetos" 5000.00 "Estimado" ];
  opex_outros_db :=
    [ {| opex_Descricao := "Aluguel Galpão"; opex_Valor := 5000.00 |};
      {| opex_Descricao := "Energia (Fixo)"; opex_Valor := 1500.00 |};
      {| opex_Descricao := "Marketing"; opex_Valor := 2000.00 |};
      {| opex_Descricao := "Internet/Telefonia"; opex_Valor := 250.00 |};
      {| opex_Descricao := "Contabilidade"; opex_Valor := 300.00 |} ];
  funcionarios_db :=
    [ mk_func "Cervejeiro(a)" "CLT" 4500.00 70.0 true true;
      mk_func "Auxiliar Produção" "CLT" 2500.00 70.0 true true;
      mk_func "Vendas (PJ)" "PJ" 2200.00 0.0 false false ];
  insumos_db :=
    [ mk_ins "Malte" "Malte Pilsen Agrária" "kg" 6.90;
      mk_ins "Malte" "Malte Pale Ale" "kg" 7.50;
      mk_ins "Malte" "Malte Caramelo" "kg" 11.00;
      mk_ins "Malte" "Malte Trigo (Weiss)" "kg" 8.00;
      mk_ins "Malte" "Malte Torrado/Chocolate" "kg" 14.00;
      mk_ins "Lúpulo" "Lúpulo Citra" "kg" 320.00;
      mk_ins "Lúpulo" "Lúpulo Magnum (Amargor)" "kg" 180.00;
      mk_ins "Lúpulo" "Lúpulo Cascade" "kg" 250.00;
      mk_ins "Lúpulo" "Lúpulo Saaz (Lager)" "kg" 280.00;
      mk_ins "Lúpulo" "Lúpulo Hallertau" "kg" 290.00;
      mk_ins "Levedura" "US-05 (Ale Americana)" "pct" 28.00;
      mk_ins "Levedura" "S-04 (Ale Inglesa/Stout)" "pct" 26.00;
      mk_ins "Levedura" "W-34/70 (Lager)" "pct" 35.00;
      mk_ins "Levedura" "WB-06 (Weiss)" "pct" 30.00 ];
  receitas_header :=
    [ mk_header 1 "American IPA" 500;
      mk_header 2 "Classic APA" 500;
      mk_header 3 "Pilsen Padrão" 500;
      mk_header 4 "Dry Stout" 500;
      mk_header 5 "Weissbier" 500 ];
  receitas_detalhe :=
    [ mk_line 1 "Malte Pale Ale" 110 7.50 825.0;
      mk_line 1 "Malte Caramelo" 8 11.00 88.0;
      mk_line 1 "Lúpulo Magnum (Amargor)" 0.5 180.00 90.0;
      mk_line 1 "Lúpulo Citra" 4.0 320.00 1280.0;
      mk_line 1 "US-05 (Ale Americana)" 30 28.00 840.0;
      mk_line 2 "Malte Pale Ale" 100 7.50 750.0;
      mk_line 2 "Malte Caramelo" 5 11.00 55.0;
      mk_line 2 "Lúpulo Cascade" 2.5 250.00 625.0;
      mk_line 2 "US-05 (Ale Americana)" 25 28.00 700.0;
      mk_line 3 "Malte Pilsen Agrária" 95 6.90 655.5;
      mk_line 3 "Malte Caramelo" 3 11.00 33.0;
      mk_line 3 "Lúpulo Magnum (Amargor)" 0.3 180.00 54.0;
      mk_line 3 "Lúpulo Saaz (Lager)" 1.0 280.00 280.0;
      mk_line 3 "W-34/70 (Lager)" 40 35.00 1400.0;
      mk_line 4 "Malte Pale Ale" 85 7.50 637.5;
      mk_line 4 "Malte Torrado/Chocolate" 10 14.00 140.0;
      mk_line 4 "Malte Caramelo" 5 11.00 55.0;
      mk_line 4 "Lúpulo Magnum (Amargor)" 0.8 180.00 144.0;
      mk_line 4 "S-04 (Ale Inglesa/Stout)" 25 26.00 650.0;
      mk_line 5 "Malte Trigo (Weiss)" 50 8.00 400.0;
      mk_line 5 "Malte Pilsen Agrária" 50 6.90 345.0;
      mk_line 5 "Lúpulo Hallertau" 0.6 290.00 174.0;
      mk_line 5 "WB-06 (Weiss)" 25 30.00 750.0 ];
  embalagens_db :=
    [ mk_pack "Lata 473ml" 0.473 1.60;
      mk_pack "Garrafa 600ml" 0.600 1.40;
      mk_pack "Long Neck" 0.330 1.10;
      mk_pack "Barril 30L" 30.0 0.00;
      mk_pack "Barril 50L" 50.0 0.00;
      mk_pack "PET Growler 1,5L" 1.50 2.20;
      mk_pack "Copo Taproom" 0.473 0.25 ];
  precos_sku :=
    [ mk_price "Lata 473ml" "Varejo" 22.00;
      mk_price "Garrafa 600ml" "Varejo" 26.00;
      mk_price "Long Neck" "Varejo" 14.00;
      mk_price "PET Growler 1,5L" "Varejo" 38.00;
      mk_price "Chope (R$/L)" "Varejo" 13.00;
      mk_price "Copo Taproom" "Taproom" 20.00 ];
  mix := default_mix;
  premissas := default_premissas;
  financiamento := default_financiamento
|}.

(** The records of a scenario as the JSON document stores them. *)
Definition capex_json (r : capex_row) : json :=
  JObj [ ("Categoria", JStr (capex_Categoria r)); ("Item", JStr (capex_Item r));
         ("Valor", JNum (capex_Valor r)); ("Status", JStr (capex_Status r)) ].
Definition opex_json (r : opex_row) : json :=
  JObj [ ("Descrição", JStr (opex_Descricao r)); ("Valor", JNum (opex_Valor r)) ].
Definition func_json (r : func_row) : json :=
  JObj [ ("Nome", JStr (func_Nome r)); ("Modalidade", JStr (func_Modalidade r));
         ("Salário Bruto", JNum (func_Salario_Bruto r));
         ("Encargos CLT (%)", JNum (func_Encargos_CLT r));
         ("Considerar 13º", JBool (func_Considerar_13 r));
         ("Considerar Férias", JBool (func_Considerar_Ferias r)) ].
Definition insumo_json (r : insumo_row) : json :=
  JObj [ ("Tipo", JStr (ins_Tipo r)); ("Nome", JStr (ins_Nome r));
         ("Unidade", JStr (ins_Unidade r)); ("Custo", JNum (ins_Custo r)) ].
Definition header_json (r : header_row) : json :=
  JObj [ ("ID", JNum (inject_Z (ID r))); ("Nome", JStr (Nome r));
         ("Volume Batelada (L)", JNum (Volume_Batelada r)) ].
Definition line_json (r : detail_row) : json :=
  JObj [ ("Receita_ID", JNum (inject_Z (Receita_ID r))); ("Insumo", JStr (Insumo r));
         ("Qtd", JNum (Qtd r)); ("Custo_Unit", JNum (Custo_Unit r));
         ("Custo_Total", JNum (Custo_Total r)) ].
Definition pack_json (r : pack_row) : json :=
  JObj [ ("Embalagem", JStr (Embalagem r)); ("Volume (L)", JNum (Volume_L r));
         ("Custo Unit (R$)", JNum (Custo_Unit_RS r)) ].
Definition price_json (r : price_row) : json :=
  JObj [ ("SKU", JStr (SKU r)); ("Canal", JStr (Canal r));
         ("Preço Unit (R$)", JNum (Preco_Unit r)) ].

(** The dict a scenario is in the store, keys in the order
    [default_scenario()] returns them. *)
Definition scenario_json (sc : scenario) : dict json :=
  [ ("capex_db", JArr (map capex_json (capex_db sc)));
    ("opex_outros_db", JArr (map opex_json (opex_outros_db sc)));
    ("funcionarios_db", JArr (map func_json (funcionarios_db sc)));
    ("insumos_db", JArr (map insumo_json (insumos_db sc)));
    ("receitas_header", JArr (map header_json (receitas_header sc)));
    ("receitas_detalhe", JArr (map line_json (receitas_detalhe sc)));
    ("embalagens_db", JArr (map pack_json (embalagens_db sc)));
    ("precos_sku", JArr (map price_json (precos_sku sc)));
    ("mix", JObj (mix sc));
    ("premissas", JObj (premissas sc));
    ("financiamento", JObj (financiamento sc)) ].

End Scenario.

Import Scenario.

(* ================================================================= *)
(** ** ScenarioStore: [load_db] and its migrations *)

Module Store.

Definition DEFAULT_SCENARIO_NAME : string := "Base".

Definition store_of (name : string) (base : dict json) : json :=
  JObj [ ("scenarios", JObj [ (name, JObj base) ]); ("selected", JStr name) ].

Definition _empty_db : json :=
  store_of DEFAULT_SCENARIO_NAME (scenario_json default_scenario).

(** The keys migration 1 looks for, in the order of the source. *)
Definition legacy_keys : list string :=
  [ "capex_db"; "opex_db"; "insumos_db"; "receitas_header"; "receitas_detalhe";
    "precos_venda"; "opex_outros_db"; "funcionarios_db"; "embalagens_db";
    "precos_sku"; "mix"; "premissas"; "financiamento" ].

(** [if k in raw: sc[k] = raw.get(k)] *)
Definition collect_step (raw : json) (sc : dict json) (k : string)
  : outcome (dict json) :=
  present <- py_in k raw ;;
  if present then v <- py_get raw k ;; Ok (dict_set sc k v) else Ok sc.

(** [if old in sc and new not in sc: sc[new] = sc.pop(old)] *)
Definition rename_key (sc : dict json) (old new : string) : dict json :=
  if dict_mem sc old && negb (dict_mem sc new) then dict_move sc old new else sc.

(** Migration 1: a document without "scenarios" is one scenario. *)
Definition migrate_single (raw : json) : outcome json :=
  sc <- for_each (collect_step raw) legacy_keys [] ;;
  let sc := rename_key sc "opex_db" "opex_outros_db" in
  let sc := rename_key sc "precos_venda" "precos_sku" in
  let base := scenario_json default_scenario in
  let base := dict_update base (filter (fun kv => negb (is_none (snd kv))) sc) in
  Ok (store_of DEFAULT_SCENARIO_NAME base).

Definition string_of_nat (n : nat) : string :=
  DecimalString.NilEmpty.string_of_uint (Nat.to_uint n).

Section Loader.

(** Python's [str] on a value that is not a string, and [json.load] on the
    bytes of the file ([None] when opening or parsing raises): both belong
    to the interpreter and its library. *)
Variable py_str : json -> string.
Variable json_load : list Byte.byte -> option json.

Definition str (v : json) : string :=
  match v with
  | JStr s => s
  | _ => py_str v
  end.

(** Migration 2, one element of the list at position [i]. *)
Definition scenario_of_item (sc_dict : dict json) (entry : nat * json) : dict json :=
  let '(i, item) := entry in
  match item with
  | JObj fields =>
      let get k := match dict_get fields k with Some v => v | None => JNull end in
      let name :=
        py_or_obj (py_or_obj (get "name") (get "Nome"))
                  (JStr ("Cenário " ++ string_of_nat (i + 1))) in
      let data := py_or_obj (get "data") item in
      dict_set sc_dict (str name) data
  | _ => sc_dict
  end.

Definition enumerate {A : Type} (xs : list A) : list (nat * A) :=
  combine (seq 0 (List.length xs)) xs.

(** [raw[k] = v] on the top-level document. *)
Definition set_item (raw : json) (k : string) (v : json) : outcome json :=
  match raw with
  | JObj fields => Ok (JObj (dict_set fields k v))
  | _ => Raise TypeError
  end.

(** [load_db] after [json.load] has returned [raw]. *)
Definition load_raw (raw : json) : outcome json :=
  has <- py_in "scenarios" raw ;;
  if negb has then migrate_single raw
  else
    scen <- py_get raw "scenarios" ;;
    raw <- match scen with
           | JArr items =>
               set_item raw "scenarios"
                 (JObj (fold_left scenario_of_item (enumerate items) []))
           | _ => Ok raw
           end ;;
    scen <- py_get raw "scenarios" ;;
    let raw :=
      match scen with
      | JObj (_ :: _) => raw
      | _ => _empty_db
      end in
    sel <- py_get raw "selected" ;;
    scen <- py_get raw "scenarios" ;;
    match scen with
    | JObj scenarios =>
        found <- key_in sel scenarios ;;
        if negb found then
          match dict_keys scenarios with
          | first :: _ => set_item raw "selected" (JStr first)
          | [] => Raise IndexError
          end
        else Ok raw
    | _ => Raise TypeError
    end.

(** [load_db]: [file] is [None] when [DB_FILE] does not exist. *)
Definition load_db (file : option (list Byte.byte)) : outcome json :=
  match file with
  | None => Ok _empty_db
  | Some bytes =>
      match json_load bytes with
      | None => Ok _empty_db
      | Some raw => load_raw raw
      end
  end.

End Loader.

(** The store invariant: a dict whose "scenarios" is a non-empty dict and
    whose "selected" is one of its keys. *)
Definition store_ok (db : json) : bool :=
  match db with
  | JObj fields =>
      match dict_get fields "scenarios", dict_get fields "selected" with
      | Some (JObj (e :: rest)), Some (JStr sel) => dict_mem (e :: rest) sel
      | _, _ => false
      end
  | _ => false
  end.

End Store.

(* ================================================================= *)
(** ** Spreadsheet export and import *)

Module Excel.

(** The sheets of the workbook: eight tables and three Chave/Valor sheets.
    The xlsx encoding itself is the spreadsheet library's. *)
Record workbook : Type := {
  CAPEX : list capex_row;
  OPEX_Outros : list opex_row;
  Funcionarios : list func_row;
  Insumos : list insumo_row;
  Receitas_Header : list header_row;
  Receitas_Detalhe : list detail_row;
  Embalagens : list pack_row;
  Precos_SKU : list price_row;
  Mix_Demanda : list (string * json);
  Premissas : list (string * json);
  Financiamento : list (string * json)
}.

(** [x or y] on dicts. *)
Definition dict_or {V : Type} (x y : dict V) : dict V :=
  match x with [] => y | _ => x end.

(** [.replace({"Clt": "CLT", "pj": "PJ", "Pj": "PJ"})] on "Modalidade". *)
Definition replace_modalidade (m : string) : string :=
  if String.eqb m "Clt" then "CLT"
  else if String.eqb m "pj" then "PJ"
  else if String.eqb m "Pj" then "PJ"
  else m.

Definition clean_func (r : func_row) : func_row :=
  {| func_Nome := func_Nome r;
     func_Modalidade := replace_modalidade (func_Modalidade r);
     func_Salario_Bruto := func_Salario_Bruto r;
     func_Encargos_CLT := func_Encargos_CLT r;
     func_Considerar_13 := func_Considerar_13 r;
     func_Considerar_Ferias := func_Considerar_Ferias r |}.

(** ["Custo_Total"] = ["Qtd"] * ["Custo_Unit"] *)
Definition recompute_total (l : detail_row) : detail_row :=
  {| Receita_ID := Receita_ID l; Insumo := Insumo l; Qtd := Qtd l;
     Custo_Unit := Custo_Unit l; Custo_Total := Qtd l * Custo_Unit l |}.

(** [scenario_dfs]: on typed rows the numeric coercions and [fillna] are
    the identity; what remains is the replacement on "Modalidade", the
    recomputed line totals and the defaults for empty dicts. *)
Definition scenario_dfs (sc : scenario) : scenario :=
  {| capex_db := capex_db sc;
     opex_outros_db := opex_outros_db sc;
     funcionarios_db := map clean_func (funcionarios_db sc);
     insumos_db := insumos_db sc;
     receitas_header := receitas_header sc;
     receitas_detalhe := map recompute_total (receitas_detalhe sc);
     embalagens_db := embalagens_db sc;
     precos_sku := precos_sku sc;
     mix := dict_or (mix sc) (mix default_scenario);
     premissas := dict_or (premissas sc) (premissas default_scenario);
     financiamento := dict_or (financiamento sc) (financiamento default_scenario) |}.

(** The rows of the "Mix_Demanda" sheet: a nested dict is flattened under
    ["k::kk"] keys. *)
Definition mix_rows (mix : dict json) : list (string * json) :=
  flat_map
    (fun kv =>
       match snd kv with
       | JObj inner => map (fun e => (fst kv ++ "::" ++ fst e, snd e)) inner
       | v => [ (fst kv, v) ]
       end)
    mix.

(** The frames handed to [to_excel], sheet by sheet; the bytes returned
    are the spreadsheet library's encoding of them. *)
Definition scenario_to_excel_bytes (sc : scenario) : workbook :=
  let dfs := scenario_dfs sc in
  {| CAPEX := capex_db dfs;
     OPEX_Outros := opex_outros_db dfs;
     Funcionarios := funcionarios_db dfs;
     Insumos := insumos_db dfs;
     Receitas_Header := receitas_header dfs;
     Receitas_Detalhe := receitas_detalhe dfs;
     Embalagens := embalagens_db dfs;
     Precos_SKU := precos_sku dfs;
     Mix_Demanda := mix_rows (mix dfs);
     Premissas := premissas dfs;
     Financiamento := financiamento dfs |}.

(** [k] starts with the separator: what follows it. *)
Definition after_sep (k : string) : option string :=
  match k with
  | String c1 (String c2 sub) =>
      if Ascii.eqb c1 ":" && Ascii.eqb c2 ":" then Some sub else None
  | _ => None
  end.

(** [k.split("::", 1)] when ["::" in k]: the split at the first "::". *)
Fixpoint split_key (k : string) : option (string * string) :=
  match k with
  | EmptyString => None
  | String c rest =>
      match after_sep k with
      | Some sub => Some (EmptyString, sub)
      | None =>
          match split_key rest with
          | Some (base, sub) => Some (String c base, sub)
          | None => None
          end
      end
  end.

(** One row of a Chave/Valor sheet read into [out]. *)
Definition kv_step (out : dict json) (row : string * json) : outcome (dict json) :=
  let '(k, v) := row in
  match split_key k with
  | Some (base, sub) =>
      (* out.setdefault(base, {}); out[base][sub] = v *)
      match (match dict_get out base with Some x => x | None => JObj [] end) with
      | JObj inner => Ok (dict_set out base (JObj (dict_set inner sub v)))
      | _ => Raise TypeError
      end
  | None => Ok (dict_set out k v)
  end.

Definition kv_sheet_to_dict (rows : list (string * json)) : outcome (dict json) :=
  for_each kv_step rows [].

(** A reader of "Valor" columns that infers a numeric column: when every
    cell of the column is a number or a boolean, the booleans come back as
    0 and 1; a column holding anything else comes back as written. *)
Definition numeric_cell (v : json) : bool :=
  match v with JNum _ | JBool _ => true | _ => false end.

Definition coerce_cell (v : json) : json :=
  match v with
  | JBool b => JNum (if b then 1 else 0)
  | _ => v
  end.

Definition read_valor_column (rows : list (string * json)) : list (string * json) :=
  if forallb (fun r => numeric_cell (snd r)) rows
  then map (fun r => (fst r, coerce_cell (snd r))) rows
  else rows.

Definition read_numeric_columns (wb : workbook) : workbook :=
  {| CAPEX := CAPEX wb;
     OPEX_Outros := OPEX_Outros wb;
     Funcionarios := Funcionarios wb;
     Insumos := Insumos wb;
     Receitas_Header := Receitas_Header wb;
     Receitas_Detalhe := Receitas_Detalhe wb;
     Embalagens := Embalagens wb;
     Precos_SKU := Precos_SKU wb;
     Mix_Demanda := read_valor_column (Mix_Demanda wb);
     Premissas := read_valor_column (Premissas wb);
     Financiamento := read_valor_column (Financiamento wb) |}.

Section Importer.

(** [float(s)] on a string is the interpreter's parser. *)
Variable float_of_str : string -> option Q.

(** [pd.ExcelFile(uploaded)] and [read_sheet] on each sheet name: the
    frames the spreadsheet library returns for the written workbook.  What
    it does to the type of a cell on the way is the library's. *)
Variable read_excel : workbook -> workbook.

Definition py_float (v : json) : outcome Q :=
  match v with
  | JNum q => Ok q
  | JBool b => Ok (if b then 1 else 0)
  | JStr s => match float_of_str s with Some q => Ok q | None => Raise ValueError end
  | JNull | JArr _ | JObj _ => Raise TypeError
  end.

(** [{k: float(v) for k, v in d.items()}] under "Distribuição Embalado (%)". *)
Definition float_dist (mix : dict json) : outcome (dict json) :=
  match dict_get mix "Distribuição Embalado (%)" with
  | Some (JObj inner) =>
      inner <- comprehension
                 (fun kv => q <- py_float (snd kv) ;; Ok (fst kv, JNum q)) inner ;;
      Ok (dict_set mix "Distribuição Embalado (%)" (JObj inner))
  | _ => Ok mix
  end.

(** [sheet if not sheet.empty else _df(sc.get(...))] *)
Definition sheet_or {A : Type} (sheet current : list A) : list A :=
  match sheet with [] => current | _ => sheet end.

(** [import_excel_apply]: [uploaded] is the workbook as written, [sc] the
    scenario being edited; the result is what [persist_dfs] stores. *)
Definition import_excel_apply (uploaded : workbook) (sc : scenario) : outcome scenario :=
  let xls := read_excel uploaded in
  mix_d <- kv_sheet_to_dict (Mix_Demanda xls) ;;
  prem_d <- kv_sheet_to_dict (Premissas xls) ;;
  fin_d <- kv_sheet_to_dict (Financiamento xls) ;;
  let mix0 := dict_or (dict_or mix_d (mix sc)) (mix default_scenario) in
  let prem := dict_or (dict_or prem_d (premissas sc)) (premissas default_scenario) in
  let fin := dict_or (dict_or fin_d (financiamento sc)) (financiamento default_scenario) in
  mix1 <- float_dist mix0 ;;
  Ok {| capex_db := sheet_or (CAPEX xls) (capex_db sc);
        opex_outros_db := sheet_or (OPEX_Outros xls) (opex_outros_db sc);
        funcionarios_db := sheet_or (Funcionarios xls) (funcionarios_db sc);
        insumos_db := sheet_or (Insumos xls) (insumos_db sc);
        receitas_header := sheet_or (Receitas_Header xls) (receitas_header sc);
        receitas_detalhe :=
          map recompute_total (sheet_or (Receitas_Detalhe xls) (receitas_detalhe sc));
        embalagens_db := sheet_or (Embalagens xls) (embalagens_db sc);
        precos_sku := sheet_or (Precos_SKU xls) (precos_sku sc);
        mix := mix1;
        premissas := prem;
        financiamento := fin |}.

End Importer.

End Excel.

(* ================================================================= *)
(** ** Scenarios that survive the spreadsheet *)

Module RoundTrip.

Import Excel.

(** The key of the packaged distribution inside [mix]. *)
Definition DIST : string := "Distribuição Embalado (%)".

Fixpoint no_colon (k : string) : bool :=
  match k with
  | EmptyString => true
  | String c rest => negb (Ascii.eqb c ":") && no_colon rest
  end.

(** No key occurs twice, as in any Python dict. *)
Fixpoint unique_keys {V : Type} (d : dict V) : bool :=
  match d with
  | [] => true
  | (k, _) :: rest => negb (dict_mem rest k) && unique_keys rest
  end.

Definition non_empty {A : Type} (l : list A) : bool :=
  match l with [] => false | _ => true end.

Definition is_number (v : json) : bool :=
  match v with JNum _ => true | _ => false end.

(** A key/value dict (premises, financing): some entry, and keys that are
    not mistaken for flattened ones. *)
Definition valid_kv (d : dict json) : bool :=
  non_empty d && unique_keys d && forallb (fun kv => no_colon (fst kv)) d.

(** An entry of [mix]: a nested dict has some entry. *)
Definition valid_mix_entry (kv : string * json) : bool :=
  no_colon (fst kv)
  && match snd kv with
     | JObj inner => non_empty inner && unique_keys inner
     | _ => true
     end.

(** The mix dict; the percentages of the packaged distribution are numbers. *)
Definition valid_mix (m : dict json) : bool :=
  non_empty m && unique_keys m && forallb valid_mix_entry m
  && match dict_get m DIST with
     | Some (JObj inner) => forallb (fun e => is_number (snd e)) inner
     | _ => true
     end.

(** "Modalidade" is already "CLT" or "PJ" as the export writes them. *)
Definition valid_func (r : func_row) : bool :=
  String.eqb (replace_modalidade (func_Modalidade r)) (func_Modalidade r).

Definition valid_scenario (sc : scenario) : bool :=
  valid_mix (mix sc) && valid_kv (premissas sc) && valid_kv (financiamento sc)
  && forallb valid_func (funcionarios_db sc).

(** An empty sheet makes the import keep the table of the scenario being
    edited: the sheet restores a table when it is not empty or when the
    edited scenario has the same (empty) table. *)
Definition restores {A : Type} (table current : list A) : Prop :=
  table <> [] \/ current = table.

Definition tables_restore (sc current : scenario) : Prop :=
  restores (capex_db sc) (capex_db current)
  /\ restores (opex_outros_db sc) (opex_outros_db current)
  /\ restores (funcionarios_db sc) (funcionarios_db current)
  /\ restores (insumos_db sc) (insumos_db current)
  /\ restores (receitas_header sc) (receitas_header current)
  /\ restores (receitas_detalhe sc) (receitas_detalhe current)
  /\ restores (embalagens_db sc) (embalagens_db current)
  /\ restores (precos_sku sc) (precos_sku current).

(** The default scenario with every packaging type removed from the
    packaged distribution. *)
Definition scenario_without_dist : scenario :=
  {| capex_db := capex_db default_scenario;
     opex_outros_db := opex_outros_db default_scenario;
     funcionarios_db := funcionarios_db default_scenario;
     insumos_db := insumos_db default_scenario;
     receitas_header := receitas_header default_scenario;
     receitas_detalhe := receitas_detalhe default_scenario;
     embalagens_db := embalagens_db default_scenario;
     precos_sku := precos_sku default_scenario;
     mix := dict_set (mix default_scenario) DIST (JObj []);
     premissas := premissas default_scenario;
     financiamento := financiamento default_scenario |}.

(** The default scenario without the boolean "Ativo" of its financing. *)
Definition scenario_without_flag : scenario :=
  {| capex_db := capex_db default_scenario;
     opex_outros_db := opex_outros_db default_scenario;
     funcionarios_db := funcionarios_db default_scenario;
     insumos_db := insumos_db default_scenario;
     receitas_header := receitas_header default_scenario;
     receitas_detalhe := receitas_detalhe default_scenario;
     embalagens_db := embalagens_db default_scenario;
     precos_sku := precos_sku default_scenario;
     mix := mix default_scenario;
     premissas := premissas default_scenario;
     financiamento := dict_remove (financiamento default_scenario) "Ativo" |}.

End RoundTrip.

(* ================================================================= *)
(** ** Payroll *)

Module Payroll.

Section Folha.

(** [str(...).upper().strip()] is the interpreter's. *)
Variable upper_strip : string -> string.

(** The body of the loop of [calc_folha_mensal]: the monthly cost of one
    employee. *)
Definition custo_mensal (r : func_row) : Q :=
  let mod_ := upper_strip (func_Modalidade r) in
  let sal := py_or (func_Salario_Bruto r) 0 in
  if String.eqb mod_ "PJ" then sal
  else
    let encargos := py_or (func_Encargos_CLT r) 0 / 100 in
    let custo_base := sal * (1 + encargos) in
    let prov_13 := if func_Considerar_13 r then sal / 12 else 0 in
    let prov_ferias :=
      if func_Considerar_Ferias r then (sal * (4 / 3)) / 12 else 0 in
    custo_base + prov_13 + prov_ferias.

(** The frame with its added column "Custo Mensal (R$)". *)
Definition calc_folha_mensal (func_df : list func_row) : list (func_row * Q) :=
  map (fun r => (r, custo_mensal r)) func_df.

(** [folha_calc["Custo Mensal (R$)"].sum() if not folha_calc.empty else 0.0] *)
Definition folha_total (func_df : list func_row) : Q :=
  match calc_folha_mensal func_df with
  | [] => 0
  | folha_calc => py_sum (map snd folha_calc)
  end.

End Folha.

(** [opex_outros_df["Valor"].sum() if not opex_outros_df.empty else 0.0] *)
Definition opex_outros_total (opex_outros_df : list opex_row) : Q :=
  match opex_outros_df with
  | [] => 0
  | _ => py_sum (map opex_Valor opex_outros_df)
  end.

Definition capex_total (capex_df : list capex_row) : Q :=
  match capex_df with
  | [] => 0
  | _ => py_sum (map capex_Valor capex_df)
  end.

(** [capex_total + (opex_total * giro_meses)] *)
Definition investimento_total (capex_total opex_total : Q) (giro_meses : Z) : Q :=
  capex_total + opex_total * inject_Z giro_meses.

End Payroll.

(* ================================================================= *)
(** ** Editing the tables *)

Module Tables.

(** [_merge_filtered]: [key] is the joined key of a row,
    ["||".join] of its key columns as strings. *)
Definition _merge_filtered {A : Type} (key : A -> string) (full_df filtered_df : list A)
  : list A :=
  match full_df, filtered_df with
  | [], _ => filtered_df
  | _, [] => full_df
  | _, _ =>
      filter (fun r => negb (existsb (String.eqb (key r)) (map key filtered_df))) full_df
      ++ filtered_df
  end.

(** The key of a CAPEX row for [["Categoria", "Item"]]. *)
Definition capex_key (r : capex_row) : string :=
  (capex_Categoria r ++ "||" ++ capex_Item r)%string.

Definition SKUS_REQUIRED : list (string * string) :=
  [ ("Copo Taproom", "Taproom"); ("Chope (R$/L)", "Varejo"); ("Lata 473ml", "Varejo");
    ("Garrafa 600ml", "Varejo"); ("Long Neck", "Varejo"); ("PET Growler 1,5L", "Varejo") ].

(** One turn of the loop of the price tab: a required SKU without a price
    row gets one with price 0. *)
Definition ensure_sku (precos_df : list price_row) (req : string * string)
  : list price_row :=
  match filter (fun r => String.eqb (SKU r) (fst req) && String.eqb (Canal r) (snd req))
               precos_df with
  | [] => precos_df ++ [ mk_price (fst req) (snd req) 0 ]
  | _ => precos_df
  end.

Definition ensure_required_skus (precos_df : list price_row) : list price_row :=
  fold_left ensure_sku SKUS_REQUIRED precos_df.

(** Some row of the frame prices the pair [req]. *)
Definition has_price_row (df : list price_row) (req : string * string) : bool :=
  existsb (fun r => String.eqb (SKU r) (fst req) && String.eqb (Canal r) (snd req)) df.

(** The packaging tab writes the cup back: every "Copo Taproom" row gets
    the volume [copo_vol_ml / 1000.0] and the cost, or one is appended. *)
Definition set_copo (emb_df : list pack_row) (copo_vol_ml : Z) (copo_custo : Q)
  : list pack_row :=
  if existsb (fun r => String.eqb (Embalagem r) "Copo Taproom") emb_df
  then map (fun r => if String.eqb (Embalagem r) "Copo Taproom"
                     then mk_pack (Embalagem r) (inject_Z copo_vol_ml / 1000) copo_custo
                     else r) emb_df
  else emb_df ++ [ mk_pack "Copo Taproom" (inject_Z copo_vol_ml / 1000) copo_custo ].

(** The mix tab: the packaged share is recomputed when the three shares do
    not sum to 100. *)
Definition adjust_mix_varejo_emb (mix_tap mix_varejo_chope mix_varejo_emb : Z) : Z :=
  if negb (Z.eqb (mix_tap + mix_varejo_chope + mix_varejo_emb) 100)
  then Payback.py_max_int 0 (100 - mix_tap - mix_varejo_chope)
  else mix_varejo_emb.

End Tables.

(* ================================================================= *)
(** ** The store in the session, and the scenario buttons *)

Module Session.

(** [st.session_state.db] as [load_db] leaves it: the dict of scenarios
    and the selected name. *)
Record session : Type := {
  db_scenarios : dict json;
  db_selected : string
}.

Definition get_scenario_name (db : session) : string := db_selected db.

Definition set_selected (name : string) (db : session) : session :=
  if dict_mem (db_scenarios db) name
  then {| db_scenarios := db_scenarios db; db_selected := name |}
  else db.

(** [db["scenarios"].get(name, default_scenario())] *)
Definition get_scenario (db : session) : json :=
  match dict_get (db_scenarios db) (get_scenario_name db) with
  | Some sc => sc
  | None => JObj (scenario_json default_scenario)
  end.

Definition put_scenario (name : string) (data : json) (db : session) : session :=
  {| db_scenarios := dict_set (db_scenarios db) name data;
     db_selected := db_selected db |}.

(** The invariant of the store: some scenario, and a selected name that is
    one of them. *)
Definition session_ok (db : session) : bool :=
  match db_scenarios db with
  | [] => false
  | _ => dict_mem (db_scenarios db) (db_selected db)
  end.

(** The candidate names of the search: [base], then [f"{base} {i}"]. *)
Definition candidate (base_name : string) (i : nat) : string :=
  match i with
  | O | S O => base_name
  | _ => (base_name ++ " " ++ Store.string_of_nat i)%string
  end.

(** [while name in scenarios: i += 1; name = f"{base_name} {i}"], cut off
    after [fuel] more turns ([None] then). *)
Fixpoint search_name (fuel : nat) (scenarios : dict json) (base_name : string)
  (i : nat) (name : string) : option string :=
  if dict_mem scenarios name then
    match fuel with
    | O => None
    | S fuel =>
        search_name fuel scenarios base_name (i + 1)%nat
                    (base_name ++ " " ++ Store.string_of_nat (i + 1)%nat)%string
    end
  else Some name.

(** The search from [name = base_name], [i = 1]; one turn per scenario is
    enough. *)
Definition unique_name (scenarios : dict json) (base_name : string) : option string :=
  search_name (List.length scenarios) scenarios base_name 1%nat base_name.

Section Buttons.

(** [str.strip] is the interpreter's. *)
Variable py_strip : string -> string.

(** [new_name.strip() if new_name and new_name.strip() else "Novo cenário"] *)
Definition new_base_name (new_name : string) : string :=
  if negb (String.eqb new_name "") && negb (String.eqb (py_strip new_name) "")
  then py_strip new_name
  else "Novo cenário".

(** "Novo": [None] when the name search is cut off. *)
Definition new_scenario (new_name : string) (db : session) : option session :=
  match unique_name (db_scenarios db) (new_base_name new_name) with
  | Some name =>
      Some (set_selected name
              (put_scenario name (JObj (scenario_json default_scenario)) db))
  | None => None
  end.

End Buttons.

(** "Duplicar": [None] when the search is cut off or the selected name is
    no key of the store (a [KeyError]). *)
Definition duplicate_scenario (db : session) : option session :=
  let cur := get_scenario_name db in
  match unique_name (db_scenarios db) (cur ++ " (cópia)")%string with
  | Some name =>
      match dict_get (db_scenarios db) cur with
      | Some sc => Some (set_selected name (put_scenario name sc db))
      | None => None
      end
  | None => None
  end.

(** "Excluir": refused when one scenario is left; [None] stands for the
    [IndexError] of an empty key list. *)
Definition delete_scenario (db : session) : option session :=
  let cur := get_scenario_name db in
  if (List.length (db_scenarios db) <=? 1)%nat then Some db
  else
    let db := {| db_scenarios := dict_remove (db_scenarios db) cur;
                 db_selected := db_selected db |} in
    match dict_keys (db_scenarios db) with
    | first :: _ => Some (set_selected first db)
    | [] => None
    end.

End Session.

(* ================================================================= *)
(** ** Binary floating point

    The functions whose result depends on rounding or overflow are also
    embedded over IEEE 754 binary64, the representation of a Python
    [float]: [spec_float] with precision 53 and maximal exponent 1024,
    every operation rounding to nearest, ties to even. *)

Module F64.

Definition float : Type := spec_float.

Definition prec : Z := 53.
Definition emax : Z := 1024.

Definition fadd : float -> float -> float := SFadd prec emax.
Definition fmul : float -> float -> float := SFmul prec emax.
Definition fdiv : float -> float -> float := SFdiv prec emax.
Definition fopp : float -> float := SFopp.

(** [x <= y], [x < y]: false when one side is NaN. *)
Definition fle (x y : float) : bool := SFleb x y.
Definition flt (x y : float) : bool := SFltb x y.

(** [0.0] *)
Definition fzero : float := S754_zero false.

(** [float(z)] for an int [z]. *)
Definition of_Z (z : Z) : float := binary_normalize prec emax z 0 false.

(** The float a decimal literal [n/d] denotes, for ints below 2^53. *)
Definition lit (n d : Z) : float := fdiv (of_Z n) (of_Z d).

Definition is_zero (x : float) : bool :=
  match x with S754_zero _ => true | _ => false end.

(** [max(0.0, x)]: [x] when [x > 0.0], else the first argument. *)
Definition py_max0 (x : float) : float := if flt fzero x then x else fzero.

(** [x or d]: a float is falsy when it is zero (NaN is truthy). *)
Definition py_or (x d : float) : float := if is_zero x then d else x.

(** [x / y] on floats: a zero divisor raises. *)
Definition py_div (x y : float) : outcome float :=
  if is_zero y then Raise ZeroDivisionError else Ok (fdiv x y).

(** The additions from left to right, starting from [0.0]. *)
Definition sum_left (xs : list float) : float := fold_left fadd xs fzero.

(** The rational a finite float stands for (0 for an infinity or NaN). *)
Definition to_Q (x : float) : Q :=
  match x with
  | S754_finite s m e => inject_Z (cond_Zopp s (Z.pos m)) * Qpower 2 e
  | _ => 0
  end.

Definition is_finite (x : float) : bool :=
  match x with
  | S754_zero _ | S754_finite _ _ _ => true
  | _ => false
  end.

End F64.

(* ================================================================= *)
(** ** [normalize_dist] over binary64 *)

Module Mix64.

Import F64.

(** A percentage as it reaches the function: [None] or a float (NaN is
    the float [S754_nan]). *)
Inductive percent : Type :=
| PNone
| PNum (x : float).

(** [max(0.0, float(v or 0.0))] *)
Definition clean_value (v : percent) : float :=
  match v with
  | PNone => py_max0 fzero
  | PNum x => py_max0 (F64.py_or x fzero)
  end.

Definition clean_dist (dist : dict percent) : dict float :=
  map (fun kv => (fst kv, clean_value (snd kv))) dist.

Section Sum.

(** The builtin [sum] on a list of floats: the order and the compensation
    of its additions are the interpreter's. *)
Variable py_sum : list float -> float.

Definition normalize_dist (dist : dict percent) : outcome (dict float) :=
  let clean := clean_dist dist in
  let s := py_sum (dict_values clean) in
  if fle s fzero then Ok clean
  else comprehension
         (fun kv => q <- F64.py_div (snd kv) s ;; Ok (fst kv, fmul q (of_Z 100))) clean.

End Sum.

End Mix64.

(* ================================================================= *)
(** ** [build_payback_series] over binary64 *)

Module Payback64.

Import F64.

(** The loop of [build_payback_series]: [acc += monthly_cash] is one
    rounded addition per month, and the test [acc >= 0] reads that float. *)
Fixpoint payback_loop (monthly_cash : float) (ms : list nat)
  (acc : float) (pay_m : option nat) (saldo : list float) : list float * option nat :=
  match ms with
  | [] => (rev saldo, pay_m)
  | m :: rest =>
      let acc := fadd acc monthly_cash in
      let saldo := acc :: saldo in
      let pay_m :=
        if fle fzero acc && match pay_m with None => true | Some _ => false end
        then Some m else pay_m in
      payback_loop monthly_cash rest acc pay_m saldo
  end.

Definition build_payback_series (invest monthly_cash : float) (months : nat)
  : list (nat * float) * option nat :=
  let '(saldo, pay_m) :=
    payback_loop monthly_cash (seq 1 months) (fopp invest) None [fopp invest] in
  (combine (seq 0 (months + 1)) saldo, pay_m).

Definition default_months : nat := 84.

(** The balances the loop appends to [saldo], month by month. *)
Fixpoint running (monthly_cash : float) (n : nat) (acc : float) : list float :=
  match n with
  | O => []
  | S n => fadd acc monthly_cash :: running monthly_cash n (fadd acc monthly_cash)
  end.

End Payback64.

(* ================================================================= *)
(** ** [recipe_cost_per_liter] over binary64 *)

Module Costing64.

Import F64.

(** The rows of [receitas_header] and [receitas_detalhe] with their float
    columns as floats. *)
Record header_row : Type := {
  ID : Z;
  Nome : string;
  Volume_Batelada : float
}.

Record detail_row : Type := {
  Receita_ID : Z;
  Insumo : string;
  Qtd : float;
  Custo_Unit : float;
  Custo_Total : float
}.

Record detail_frame : Type := {
  has_Custo_Total : bool;
  det_rows : list detail_row
}.

(** [float(prem.get(key, 0.0))] *)
Definition prem_get (prem : dict float) (key : string) : float :=
  match dict_get prem key with
  | Some v => v
  | None => fzero
  end.

Definition calc_gip_total (prem : dict float) : float :=
  fadd (fadd (fadd (prem_get prem "GIP Químicos (R$/L)")
                   (prem_get prem "GIP Energia (R$/L)"))
             (prem_get prem "GIP Água (R$/L)"))
       (prem_get prem "GIP CO2 (R$/L)").

(** The "Custo_Total" column of the selected lines; without that column
    it is [det["Qtd"] * det["Custo_Unit"]], one rounded product per row. *)
Definition line_totals (has_total : bool) (det : list detail_row) : list float :=
  if has_total then map Custo_Total det
  else map (fun l => fmul (Qtd l) (Custo_Unit l)) det.

Section Sum.

(** [Series.sum()] of a float column: the order of its additions is the
    table library's. *)
Variable series_sum : list float -> float.

Definition recipe_cost_per_liter
  (receitas_header_df : list header_row) (receitas_det_df : detail_frame)
  (prem : dict float) (recipe_name : option string) : outcome float :=
  let gip := calc_gip_total prem in
  match receitas_header_df with
  | [] => Ok gip
  | first :: _ =>
      let names := map Nome receitas_header_df in
      let recipe_name :=
        if name_falsy recipe_name || name_missing recipe_name names
        then Nome first
        else match recipe_name with Some s => s | None => Nome first end in
      match filter (fun r => String.eqb (Nome r) recipe_name) receitas_header_df with
      | [] => Raise IndexError
      | row :: _ =>
          let rid := ID row in
          let vol := F64.py_or (Volume_Batelada row) fzero in
          let det := filter (fun l => Z.eqb (Receita_ID l) rid) (det_rows receitas_det_df) in
          if match det with [] => true | _ => false end || fle vol fzero
          then Ok gip
          else
            let custo_total := series_sum (line_totals (has_Custo_Total receitas_det_df) det) in
            q <- F64.py_div custo_total vol ;; Ok (fadd q gip)
      end
  end.

End Sum.

End Costing64.

(* ================================================================= *)
(** * Properties *)

Local Open Scope list_scope.

(** ** Facts about the prelude *)

Module PyFacts.

Lemma Qlt_bool_iff (x y : Q) : Qlt_bool x y = true <-> x < y.
Proof.
  unfold Qlt_bool. rewrite negb_true_iff.
  split; intro H.
  - apply Qnot_le_lt. intro Hle. apply Qle_bool_iff in Hle. congruence.
  - destruct (Qle_bool y x) eqn:E; [|reflexivity].
    apply Qle_bool_iff in E. exfalso. exact (Qlt_not_le _ _ H E).
Qed.

Lemma Qlt_bool_false (x y : Q) : Qlt_bool x y = false <-> y <= x.
Proof.
  unfold Qlt_bool. rewrite negb_false_iff. apply Qle_bool_iff.
Qed.

Lemma Qle_bool_false (x y : Q) : Qle_bool x y = false <-> y < x.
Proof.
  rewrite <- Qlt_bool_iff. unfold Qlt_bool.
  destruct (Qle_bool x y); simpl; intuition congruence.
Qed.

Lemma Qeq_bool_false (x y : Q) : Qeq_bool x y = false <-> ~ x == y.
Proof.
  split; intro H.
  - apply Qeq_bool_neq. exact H.
  - destruct (Qeq_bool x y) eqn:E; [|reflexivity].
    apply Qeq_bool_iff in E. contradiction.
Qed.

Lemma py_max_nonpos (v : Q) : v <= 0 -> py_max 0 v = 0.
Proof.
  intro H. unfold py_max.
  destruct (Qlt_bool 0 v) eqn:E; [|reflexivity].
  apply Qlt_bool_iff in E. exfalso. exact (Qlt_not_le _ _ E H).
Qed.

Lemma py_max_pos (v : Q) : 0 < v -> py_max 0 v = v.
Proof.
  intro H. unfold py_max. apply Qlt_bool_iff in H. now rewrite H.
Qed.

Lemma py_max_ge0 (v : Q) : 0 <= py_max 0 v.
Proof.
  unfold py_max. destruct (Qlt_bool 0 v) eqn:E.
  - apply Qlt_bool_iff in E. now apply Qlt_le_weak.
  - apply Qle_refl.
Qed.

Lemma py_max_Qmax (v : Q) : py_max 0 v == Qmax 0 v.
Proof.
  unfold py_max. destruct (Qlt_bool 0 v) eqn:E.
  - apply Qlt_bool_iff in E. symmetry. apply Q.max_r. now apply Qlt_le_weak.
  - apply Qlt_bool_false in E. symmetry. now apply Q.max_l.
Qed.

Lemma py_or_zero (q : Q) : py_or q 0 == q.
Proof.
  unfold py_or. destruct (Qeq_bool q 0) eqn:E.
  - apply Qeq_bool_iff in E. now symmetry.
  - reflexivity.
Qed.

Lemma py_or_nonzero (q d : Q) : ~ q == 0 -> py_or q d = q.
Proof.
  intro H. unfold py_or. apply Qeq_bool_false in H. now rewrite H.
Qed.

Lemma py_or_default (q d : Q) : q == 0 -> py_or q d = d.
Proof.
  intro H. unfold py_or. apply Qeq_bool_iff in H. now rewrite H.
Qed.

Lemma py_div_ok (x y : Q) : ~ y == 0 -> py_div x y = Ok (x / y).
Proof.
  intro H. unfold py_div. apply Qeq_bool_false in H. now rewrite H.
Qed.

Lemma fold_Qplus_shift (l : list Q) (a : Q) :
  fold_left Qplus l a == a + fold_left Qplus l 0.
Proof.
  revert a. induction l as [|x l IH]; intro a; simpl.
  - ring.
  - rewrite (IH (a + x)), (IH (0 + x)). ring.
Qed.

Lemma py_sum_nil : py_sum [] = 0.
Proof. reflexivity. Qed.

Lemma py_sum_cons (x : Q) (l : list Q) : py_sum (x :: l) == x + py_sum l.
Proof.
  unfold py_sum. simpl. rewrite fold_Qplus_shift. ring.
Qed.

Lemma py_sum_app (l1 l2 : list Q) : py_sum (l1 ++ l2) == py_sum l1 + py_sum l2.
Proof.
  induction l1 as [|x l1 IH]; simpl.
  - rewrite py_sum_nil. ring.
  - rewrite !py_sum_cons, IH. ring.
Qed.

Lemma py_sum_perm (l1 l2 : list Q) : Permutation l1 l2 -> py_sum l1 == py_sum l2.
Proof.
  induction 1 as [|x l l' _ IH|x y l|l l' l'' _ IH1 _ IH2].
  - reflexivity.
  - rewrite !py_sum_cons, IH. reflexivity.
  - rewrite !py_sum_cons. ring.
  - now rewrite IH1.
Qed.

Lemma py_sum_ge0 (l : list Q) : Forall (fun v => 0 <= v) l -> 0 <= py_sum l.
Proof.
  induction 1 as [|x l Hx _ IH].
  - apply Qle_refl.
  - rewrite py_sum_cons.
    setoid_replace 0 with (0 + 0) by ring. now apply Qplus_le_compat.
Qed.

Lemma py_sum_scale (c : Q) (l : list Q) :
  py_sum (map (fun v => v * c) l) == py_sum l * c.
Proof.
  induction l as [|x l IH]; simpl.
  - rewrite py_sum_nil. ring.
  - rewrite !py_sum_cons, IH. ring.
Qed.

Lemma py_sum_zero (l : list Q) : Forall (fun v => v == 0) l -> py_sum l == 0.
Proof.
  induction 1 as [|x l Hx _ IH].
  - reflexivity.
  - rewrite py_sum_cons, Hx, IH. ring.
Qed.

Lemma py_sum_zero_inv (l : list Q) :
  Forall (fun v => 0 <= v) l -> py_sum l <= 0 -> Forall (fun v => v == 0) l.
Proof.
  induction 1 as [|x l Hx Hl IH]; intro Hs.
  - constructor.
  - rewrite py_sum_cons in Hs.
    pose proof (py_sum_ge0 l Hl) as Hge.
    constructor.
    + apply Qle_antisym; [|exact Hx].
      apply Qle_trans with (x + py_sum l); [|exact Hs].
      setoid_replace x with (x + 0) at 1 by ring.
      apply Qplus_le_compat; [apply Qle_refl|exact Hge].
    + apply IH.
      apply Qle_trans with (x + py_sum l); [|exact Hs].
      setoid_replace (py_sum l) with (0 + py_sum l) at 1 by ring.
      apply Qplus_le_compat; [exact Hx|apply Qle_refl].
Qed.

Lemma comprehension_ok {A B : Type} (f : A -> outcome B) (g : A -> B) (xs : list A) :
  (forall x, In x xs -> f x = Ok (g x)) -> comprehension f xs = Ok (map g xs).
Proof.
  induction xs as [|x xs IH]; intro H; simpl.
  - reflexivity.
  - rewrite (H x (or_introl eq_refl)). simpl.
    rewrite IH by (intros y Hy; apply H; now right). reflexivity.
Qed.

Lemma for_each_ok {A S : Type} (body : S -> A -> outcome S) (g : S -> A -> S)
  (xs : list A) (acc : S) :
  (forall s x, In x xs -> body s x = Ok (g s x)) ->
  for_each body xs acc = Ok (fold_left g xs acc).
Proof.
  revert acc. induction xs as [|x xs IH]; intros acc H; simpl.
  - reflexivity.
  - rewrite (H acc x (or_introl eq_refl)). simpl.
    apply IH. intros s y Hy. apply H. now right.
Qed.

End PyFacts.

Import PyFacts.

(* ================================================================= *)
(** ** MixAllocator *)

Module MixFacts.

Import Mix.

Lemma clean_value_ge0 (v : percent) : 0 <= clean_value v.
Proof. destruct v; simpl; try apply py_max_ge0. apply Qle_refl. Qed.

Lemma clean_value_spec (v : percent) :
  clean_value v == match v with PNum q => Qmax 0 q | _ => 0 end.
Proof.
  destruct v as [| |q]; simpl; try reflexivity.
  rewrite py_max_Qmax. now rewrite py_or_zero.
Qed.

Lemma clean_value_zero (q : Q) : q == 0 -> clean_value (PNum q) = 0.
Proof.
  intro H. simpl. now rewrite (py_or_default q 0 H).
Qed.

Lemma clean_dist_ge0 (dist : dict percent) :
  Forall (fun v => 0 <= v) (dict_values (clean_dist dist)).
Proof.
  induction dist as [|[k v] dist IH]; simpl; constructor.
  - apply clean_value_ge0.
  - exact IH.
Qed.

Lemma clean_dist_clamped (dist : dict percent) :
  Forall2 (fun kv c => fst c = fst kv /\ 0 <= snd c /\
                       snd c == match snd kv with PNum q => Qmax 0 q | _ => 0 end)
          dist (clean_dist dist).
Proof.
  induction dist as [|[k v] dist IH]; simpl; constructor.
  - simpl. repeat split; [apply clean_value_ge0|apply clean_value_spec].
  - exact IH.
Qed.

Lemma rescale_values (clean : dict Q) (total : Q) :
  dict_values (map (fun c => (fst c, snd c / total * 100)) clean)
  = map (fun v => v / total * 100) (dict_values clean).
Proof.
  unfold dict_values. rewrite !map_map. reflexivity.
Qed.

Lemma rescale_sum (vals : list Q) (total : Q) :
  py_sum (map (fun v => v / total * 100) vals) == py_sum vals / total * 100.
Proof.
  induction vals as [|x vals IH]; simpl.
  - rewrite py_sum_nil. unfold Qdiv. ring.
  - rewrite !py_sum_cons, IH. unfold Qdiv. ring.
Qed.

Lemma normalize_dist_zero_total (dist : dict percent) :
  py_sum (dict_values (clean_dist dist)) <= 0 ->
  normalize_dist dist = Ok (clean_dist dist).
Proof.
  intro H. unfold normalize_dist.
  apply Qle_bool_iff in H. now rewrite H.
Qed.

Lemma normalize_dist_pos_total (dist : dict percent) :
  let total := py_sum (dict_values (clean_dist dist)) in
  0 < total ->
  normalize_dist dist
  = Ok (map (fun c => (fst c, snd c / total * 100)) (clean_dist dist)).
Proof.
  intros total H. unfold normalize_dist. fold total.
  assert (E : Qle_bool total 0 = false) by now apply Qle_bool_false.
  rewrite E. apply comprehension_ok.
  intros [k v] _. simpl. rewrite py_div_ok; [reflexivity|].
  intro Hz. rewrite Hz in H. exact (Qlt_irrefl 0 H).
Qed.

(** The loop of the allocation never meets a raised [normalize_dist]. *)
Lemma normalize_dist_total (dist : dict percent) :
  exists out, normalize_dist dist = Ok out /\
              Forall (fun v => 0 <= v) (dict_values out).
Proof.
  destruct (Qlt_le_dec 0 (py_sum (dict_values (clean_dist dist)))) as [Hpos|Hle].
  - eexists. split; [apply normalize_dist_pos_total; exact Hpos|].
    rewrite rescale_values. apply Forall_map.
    eapply Forall_impl; [|apply clean_dist_ge0].
    intros v Hv. simpl.
    apply Qmult_le_0_compat; [|discriminate].
    apply Qle_shift_div_l; [exact Hpos|]. now rewrite Qmult_0_l.
  - eexists. split; [apply normalize_dist_zero_total; exact Hle|].
    apply clean_dist_ge0.
Qed.

End MixFacts.

(* ================================================================= *)
(** ** CostingEngine *)

Module CostingFacts.

Lemma filter_head_find {A : Type} (p : A -> bool) (l : list A) :
  match filter p l with [] => None | r :: _ => Some r end = find p l.
Proof.
  induction l as [|x l IH]; simpl; [reflexivity|].
  destruct (p x); [reflexivity|exact IH].
Qed.

Lemma find_none_existsb (s : string) (hdr : list header_row) :
  existsb (String.eqb s) (map Nome hdr) = false ->
  find (fun r => String.eqb (Nome r) s) hdr = None.
Proof.
  induction hdr as [|r hdr IH]; simpl; [reflexivity|].
  rewrite (String.eqb_sym (Nome r) s).
  destruct (String.eqb s (Nome r)); simpl; [discriminate|exact IH].
Qed.

Lemma find_some_existsb (s : string) (hdr : list header_row) :
  existsb (String.eqb s) (map Nome hdr) = true ->
  exists r, find (fun r => String.eqb (Nome r) s) hdr = Some r.
Proof.
  induction hdr as [|r hdr IH]; simpl; [discriminate|].
  rewrite (String.eqb_sym (Nome r) s).
  destruct (String.eqb s (Nome r)); simpl; [eauto|exact IH].
Qed.

Lemma Permutation_filter {A : Type} (p : A -> bool) (l l' : list A) :
  Permutation l l' -> Permutation (filter p l) (filter p l').
Proof.
  induction 1 as [|x l l' _ IH|x y l|l l' l'' _ IH1 _ IH2]; simpl.
  - constructor.
  - destruct (p x); [now constructor|exact IH].
  - destruct (p x), (p y); try reflexivity. constructor.
  - now transitivity (filter p l').
Qed.

(** The recipe the function costs: the first header row carrying the
    requested name when that name is non-empty and present, the first
    header row otherwise. *)
Lemma recipe_cost_unfold (first : header_row) (rest : list header_row)
  (det : detail_frame) (prem : dict Q) (recipe_name : option string) :
  let hdr := first :: rest in
  let row :=
    match recipe_name with
    | Some s =>
        if String.eqb s "" then first
        else match find (fun r => String.eqb (Nome r) s) hdr with
             | Some r => r
             | None => first
             end
    | None => first
    end in
  let lines := filter (fun l => Z.eqb (Receita_ID l) (ID row)) (det_rows det) in
  let vol := py_or (Volume_Batelada row) 0 in
  recipe_cost_per_liter hdr det prem recipe_name
  = if match lines with [] => true | _ => false end || Qle_bool vol 0
    then Ok (calc_gip_total prem)
    else Ok (py_sum (line_totals (has_Custo_Total det) lines) / vol
             + calc_gip_total prem).
Proof.
  intros hdr row lines vol. unfold recipe_cost_per_liter.
  unfold hdr at 1. cbv beta iota zeta. fold hdr.
  set (target := if name_falsy recipe_name || name_missing recipe_name (map Nome hdr)
                 then Nome first
                 else match recipe_name with Some s => s | None => Nome first end).
  assert (Hrow : filter (fun r => String.eqb (Nome r) target) hdr
                 = row :: tl (filter (fun r => String.eqb (Nome r) target) hdr)).
  { pose proof (filter_head_find (fun r => String.eqb (Nome r) target) hdr) as Hf.
    assert (Hfind : find (fun r => String.eqb (Nome r) target) hdr = Some row).
    { subst target row. destruct recipe_name as [s|]; simpl.
      - destruct (String.eqb s "") eqn:Es; simpl.
        + now rewrite String.eqb_refl.
        + rewrite (String.eqb_sym s (Nome first)).
          destruct (String.eqb (Nome first) s) eqn:E1; simpl.
          * now rewrite E1.
          * destruct (existsb (String.eqb s) (map Nome rest)) eqn:Ex; simpl.
            -- rewrite E1. destruct (find_some_existsb s rest Ex) as [r Hr].
               now rewrite Hr.
            -- rewrite String.eqb_refl. now rewrite (find_none_existsb s rest Ex).
      - now rewrite String.eqb_refl. }
    rewrite Hfind in Hf.
    destruct (filter (fun r => String.eqb (Nome r) target) hdr) as [|r l];
      [discriminate|]. now inversion Hf. }
  rewrite Hrow. fold lines. fold vol.
  destruct (match lines with [] => true | _ => false end || Qle_bool vol 0) eqn:Eg;
    [reflexivity|].
  apply orb_false_iff in Eg. destruct Eg as [_ Ev].
  apply Qle_bool_false in Ev.
  rewrite py_div_ok; [reflexivity|].
  intro Hz. rewrite Hz in Ev. exact (Qlt_irrefl 0 Ev).
Qed.

End CostingFacts.

(* ================================================================= *)
(** ** Monthly P&L *)

Module DreFacts.

Import Mix MixFacts CostingFacts Dre.

Lemma recipe_cost_total (hdr : list header_row) (det : detail_frame)
  (prem : dict Q) (recipe_name : option string) :
  exists c, recipe_cost_per_liter hdr det prem recipe_name = Ok c.
Proof.
  destruct hdr as [|first rest]; [eexists; reflexivity|].
  rewrite recipe_cost_unfold. cbv zeta.
  match goal with |- context [if ?b then _ else _] => destruct b end;
    eexists; reflexivity.
Qed.

Lemma cup_count_total (vol_tap copo_vol_l : Q) :
  exists cups, cup_count vol_tap copo_vol_l = Ok cups.
Proof.
  unfold cup_count. destruct (Qlt_bool 0 copo_vol_l) eqn:E.
  - apply Qlt_bool_iff in E. rewrite py_div_ok; [eexists; reflexivity|].
    intro Hz. rewrite Hz in E. exact (Qlt_irrefl 0 E).
  - eexists; reflexivity.
Qed.

(** One turn of the allocation loop: a packaging type without a positive
    volume per unit is skipped, any other adds its units. *)
Lemma alloc_step_cases (emb_df : list pack_row) (precos_df : list price_row)
  (vol_vemb : Q) (acc : Q * Q) (emb_name : string) (pct : Q) :
  let v_l := fst (get_pack_cost emb_df emb_name) in
  let c_u := snd (get_pack_cost emb_df emb_name) in
  let unidades := vol_vemb * (pct / 100) / v_l in
  (v_l <= 0 ->
     alloc_step emb_df precos_df vol_vemb acc (emb_name, pct) = Ok acc)
  /\ (0 < v_l ->
        alloc_step emb_df precos_df vol_vemb acc (emb_name, pct)
        = Ok (fst acc + unidades * get_price precos_df emb_name "Varejo",
              snd acc + unidades * c_u)).
Proof.
  intros v_l c_u unidades. subst v_l c_u unidades. unfold alloc_step.
  destruct (get_pack_cost emb_df emb_name) as [v c]. simpl. split; intro H.
  - apply Qle_bool_iff in H. now rewrite H.
  - assert (E : Qle_bool v 0 = false) by now apply Qle_bool_false.
    rewrite E. rewrite py_div_ok; [reflexivity|].
    intro Hz. rewrite Hz in H. exact (Qlt_irrefl 0 H).
Qed.

Lemma alloc_loop_total (emb_df : list pack_row) (precos_df : list price_row)
  (vol_vemb : Q) (dist : dict Q) (acc : Q * Q) :
  exists totals, for_each (alloc_step emb_df precos_df vol_vemb) dist acc = Ok totals.
Proof.
  revert acc. induction dist as [|[k pct] dist IH]; intro acc; cbn [for_each].
  - eexists; reflexivity.
  - destruct (alloc_step_cases emb_df precos_df vol_vemb acc k pct) as [Hs Hu].
    destruct (Qlt_le_dec 0 (fst (get_pack_cost emb_df k))) as [Hpos|Hle].
    + rewrite (Hu Hpos). cbn [bind]. apply IH.
    + rewrite (Hs Hle). cbn [bind]. apply IH.
Qed.

Lemma alloc_loop_zero (emb_df : list pack_row) (precos_df : list price_row)
  (vol_vemb : Q) (dist : dict Q) (acc : Q * Q) :
  vol_vemb == 0 -> fst acc == 0 -> snd acc == 0 ->
  exists totals,
    for_each (alloc_step emb_df precos_df vol_vemb) dist acc = Ok totals
    /\ fst totals == 0 /\ snd totals == 0.
Proof.
  intro Hv. revert acc. induction dist as [|[k pct] dist IH]; intros acc H1 H2; cbn [for_each].
  - eexists; repeat split; assumption.
  - destruct (alloc_step_cases emb_df precos_df vol_vemb acc k pct) as [Hs Hu].
    destruct (Qlt_le_dec 0 (fst (get_pack_cost emb_df k))) as [Hpos|Hle].
    + rewrite (Hu Hpos). cbn [bind]. apply IH; cbn [fst snd].
      * rewrite H1, Hv. unfold Qdiv. ring.
      * rewrite H2, Hv. unfold Qdiv. ring.
    + rewrite (Hs Hle). cbn [bind]. now apply IH.
Qed.

(** The function as one equation: every step returns, and the result is
    built from the four intermediate values. *)
Lemma compute_monthly_dre_unfold
  (volume_mes_l mix_taproom mix_varejo_chope mix_varejo_emb : Q)
  (dist_emb_percent : dict percent) (receita_base_nome : option string)
  (receitas_header_df : list header_row) (receitas_det_df : detail_frame)
  (emb_df : list pack_row) (precos_df : list price_row) (prem : dict Q) :
  let vol := clamp_volume volume_mes_l in
  let vol_tap := vol * (mix_taproom / 100) in
  let vol_vch := vol * (mix_varejo_chope / 100) in
  let vol_vemb := vol * (mix_varejo_emb / 100) in
  let copo := get_pack_cost emb_df "Copo Taproom" in
  let impostos_pct := py_or (prem_get prem "Impostos s/ venda (%)") 0 / 100 in
  exists custo_liquido_l cups dist_emb totals,
    recipe_cost_per_liter receitas_header_df receitas_det_df prem receita_base_nome
    = Ok custo_liquido_l
    /\ cup_count vol_tap (cup_volume (fst copo)) = Ok cups
    /\ normalize_dist dist_emb_percent = Ok dist_emb
    /\ for_each (alloc_step emb_df precos_df vol_vemb) dist_emb (0, 0) = Ok totals
    /\ compute_monthly_dre volume_mes_l mix_taproom mix_varejo_chope mix_varejo_emb
         dist_emb_percent receita_base_nome receitas_header_df receitas_det_df
         emb_df precos_df prem
       = let receita_bruta :=
           cups * get_price precos_df "Copo Taproom" "Taproom"
           + vol_vch * get_price precos_df "Chope (R$/L)" "Varejo" + fst totals in
         let cmv := vol * custo_liquido_l + snd totals + cups * snd copo in
         Ok {| receita_bruta := receita_bruta;
               impostos := receita_bruta * impostos_pct;
               cmv_liquido := vol * custo_liquido_l;
               custo_embalagens := snd totals;
               custo_copos := cups * snd copo;
               cmv_total := cmv;
               margem := receita_bruta - receita_bruta * impostos_pct - cmv;
               taproom_copos := cups;
               varejo_chope_l := vol_vch;
               varejo_embalado_l := vol_vemb |}.
Proof.
  intros vol vol_tap vol_vch vol_vemb copo impostos_pct.
  destruct (recipe_cost_total receitas_header_df receitas_det_df prem receita_base_nome)
    as [c Hc].
  destruct (cup_count_total vol_tap (cup_volume (fst copo))) as [cups Hcups].
  destruct (normalize_dist_total dist_emb_percent) as [dist_emb [Hd _]].
  destruct (alloc_loop_total emb_df precos_df vol_vemb dist_emb (0, 0)) as [totals Ht].
  exists c, cups, dist_emb, totals. repeat split; try assumption.
  unfold compute_monthly_dre. fold vol. rewrite Hc. simpl bind.
  fold copo. destruct copo as [copo_vol_l copo_custo] eqn:Ecopo.
  simpl fst in Hcups. fold vol_tap. rewrite Hcups. simpl bind.
  rewrite Hd. simpl bind. fold vol_vemb. rewrite Ht. simpl bind.
  destruct totals as [receita_emb custo_emb]. reflexivity.
Qed.

Lemma clamp_volume_nonneg (v : Q) : 0 <= v -> clamp_volume v == v.
Proof.
  intro H. unfold clamp_volume. rewrite py_max_Qmax. now apply Q.max_r.
Qed.

Lemma clamp_volume_negative (v : Q) : v <= 0 -> clamp_volume v = 0.
Proof. apply py_max_nonpos. Qed.

(** C3, as the code has it: the liquid cost of goods is the total monthly
    volume, taken as zero when it is negative, times the recipe cost per
    liter, whatever the channel mix and the packaged distribution; taxes
    are gross revenue times tax-percent/100, total COGS is liquid plus
    packaging plus cups, and the contribution margin is gross revenue
    minus taxes minus total COGS. *)
Theorem compute_monthly_dre_margin
  (volume_mes_l mix_taproom mix_varejo_chope mix_varejo_emb : Q)
  (dist_emb_percent : dict percent) (receita_base_nome : option string)
  (receitas_header_df : list header_row) (receitas_det_df : detail_frame)
  (emb_df : list pack_row) (precos_df : list price_row) (prem : dict Q) :
  exists r custo_liquido_l,
    compute_monthly_dre volume_mes_l mix_taproom mix_varejo_chope mix_varejo_emb
      dist_emb_percent receita_base_nome receitas_header_df receitas_det_df
      emb_df precos_df prem = Ok r
    /\ recipe_cost_per_liter receitas_header_df receitas_det_df prem receita_base_nome
       = Ok custo_liquido_l
    /\ cmv_liquido r = clamp_volume volume_mes_l * custo_liquido_l
    /\ (0 <= volume_mes_l -> cmv_liquido r == volume_mes_l * custo_liquido_l)
    /\ (forall mix_taproom' mix_varejo_chope' mix_varejo_emb' dist_emb_percent',
          exists r',
            compute_monthly_dre volume_mes_l mix_taproom' mix_varejo_chope'
              mix_varejo_emb' dist_emb_percent' receita_base_nome
              receitas_header_df receitas_det_df emb_df precos_df prem = Ok r'
            /\ cmv_liquido r' = cmv_liquido r)
    /\ impostos r == receita_bruta r * (prem_get prem "Impostos s/ venda (%)" / 100)
    /\ cmv_total r = cmv_liquido r + custo_embalagens r + custo_copos r
    /\ margem r = receita_bruta r - impostos r - cmv_total r.
Proof.
  destruct (compute_monthly_dre_unfold volume_mes_l mix_taproom mix_varejo_chope
              mix_varejo_emb dist_emb_percent receita_base_nome receitas_header_df
              receitas_det_df emb_df precos_df prem)
    as [c [cups [dist_emb [totals [Hc [_ [_ [_ Hr]]]]]]]].
  cbv zeta in Hr.
  eexists. exists c. split; [exact Hr|]. split; [exact Hc|].
  cbn [cmv_liquido impostos receita_bruta cmv_total custo_embalagens custo_copos margem].
  split; [reflexivity|]. split.
  - intro Hv. now rewrite (clamp_volume_nonneg _ Hv).
  - split.
    + intros mt' mc' me' dist'.
      destruct (compute_monthly_dre_unfold volume_mes_l mt' mc' me' dist'
                  receita_base_nome receitas_header_df receitas_det_df emb_df
                  precos_df prem)
        as [c' [cups' [dist_emb' [totals' [Hc' [_ [_ [_ Hr']]]]]]]].
      cbv zeta in Hr'. rewrite Hc in Hc'. inversion Hc'; subst c'.
      eexists. split; [exact Hr'|reflexivity].
    + split; [|split; reflexivity].
      now rewrite py_or_zero.
Qed.

Lemma compute_monthly_dre_margin_witness :
  exists r,
    compute_monthly_dre 2000 30 25 45 [("Lata 473ml", PNum 100)] (Some "IPA")
      [mk_header 1 "IPA" 500]
      {| has_Custo_Total := true; det_rows := [mk_line 1 "Malte" 100 20 2000] |}
      [mk_pack "Lata 473ml" 0.473 1.60] [mk_price "Lata 473ml" "Varejo" 22]
      [("GIP Energia (R$/L)", 0.9); ("Impostos s/ venda (%)", 10)] = Ok r
    /\ cmv_liquido r == 2000 * 4.9
    /\ margem r = receita_bruta r - impostos r - cmv_total r.
Proof.
  destruct (compute_monthly_dre_margin 2000 30 25 45 [("Lata 473ml", PNum 100)]
              (Some "IPA") [mk_header 1 "IPA" 500]
              {| has_Custo_Total := true; det_rows := [mk_line 1 "Malte" 100 20 2000] |}
              [mk_pack "Lata 473ml" 0.473 1.60] [mk_price "Lata 473ml" "Varejo" 22]
              [("GIP Energia (R$/L)", 0.9); ("Impostos s/ venda (%)", 10)])
    as [r [c [Hr [Hc [_ [Hliq [_ [_ [_ Hm]]]]]]]]].
  exists r. split; [exact Hr|]. split; [|exact Hm].
  rewrite Hliq by discriminate.
  vm_compute in Hc. inversion Hc. reflexivity.
Defined.

(** C3 as stated fails on a negative monthly volume: the liquid cost of
    goods is zero there, not the volume times the cost per liter. *)
Lemma liquid_cogs_negative_volume_counterexample :
  exists r c,
    compute_monthly_dre (-100) 30 25 45 [] None []
      {| has_Custo_Total := true; det_rows := [] |} [] []
      [("GIP Energia (R$/L)", 0.35)] = Ok r
    /\ recipe_cost_per_liter [] {| has_Custo_Total := true; det_rows := [] |}
         [("GIP Energia (R$/L)", 0.35)] None = Ok c
    /\ cmv_liquido r == 0
    /\ ~ cmv_liquido r == (-100) * c.
Proof.
  eexists. eexists. split; [vm_compute; reflexivity|].
  split; [vm_compute; reflexivity|].
  split; [reflexivity|discriminate].
Qed.

(** The allocation loop as two sums: the packaging types with a positive
    volume per unit add their units times the retail price to the first
    total and their units times the unit cost to the second; the others
    add nothing. *)
Lemma alloc_loop_sum (emb_df : list pack_row) (precos_df : list price_row)
  (vol_vemb : Q) (dist : dict Q) (acc : Q * Q) :
  let v_l (item : string * Q) := fst (get_pack_cost emb_df (fst item)) in
  let c_u (item : string * Q) := snd (get_pack_cost emb_df (fst item)) in
  let unidades (item : string * Q) := vol_vemb * (snd item / 100) / v_l item in
  let counted := filter (fun item => Qlt_bool 0 (v_l item)) dist in
  exists totals,
    for_each (alloc_step emb_df precos_df vol_vemb) dist acc = Ok totals
    /\ fst totals
       == fst acc + py_sum (map (fun item => unidades item
                                             * get_price precos_df (fst item) "Varejo")
                                counted)
    /\ snd totals
       == snd acc + py_sum (map (fun item => unidades item * c_u item) counted).
Proof.
  intros v_l c_u unidades. cbv zeta.
  revert acc. induction dist as [|[k pct] dist IH]; intro acc; cbn [for_each filter map].
  - exists acc. split; [reflexivity|]. rewrite py_sum_nil. split; ring.
  - destruct (alloc_step_cases emb_df precos_df vol_vemb acc k pct) as [Hs Hu].
    destruct (Qlt_le_dec 0 (fst (get_pack_cost emb_df k))) as [Hpos|Hle].
    + rewrite (Hu Hpos). cbn [bind].
      destruct (IH (fst acc
                    + vol_vemb * (pct / 100) / fst (get_pack_cost emb_df k)
                      * get_price precos_df k "Varejo",
                    snd acc
                    + vol_vemb * (pct / 100) / fst (get_pack_cost emb_df k)
                      * snd (get_pack_cost emb_df k)))
        as [totals [Ht [H1 H2]]].
      exists totals. split; [exact Ht|].
      subst v_l. cbn [fst snd] in *.
      assert (E : Qlt_bool 0 (fst (get_pack_cost emb_df k)) = true)
        by now apply Qlt_bool_iff.
      rewrite E. cbn [map]. rewrite !py_sum_cons.
      subst unidades c_u. cbn [fst snd] in *.
      split; [rewrite H1|rewrite H2]; ring.
    + rewrite (Hs Hle). cbn [bind].
      destruct (IH acc) as [totals [Ht [H1 H2]]].
      exists totals. split; [exact Ht|].
      subst v_l. cbn [fst snd] in *.
      assert (E : Qlt_bool 0 (fst (get_pack_cost emb_df k)) = false)
        by now apply Qlt_bool_false.
      rewrite E. split; assumption.
Qed.

(** C7, as the code has it: in the allocation a packaging type whose
    volume per unit is not positive is skipped, any other contributes its
    allotted liters divided by its volume per unit, so the computation
    never divides by zero and always returns; the packaging cost of the
    result is the sum of those unit counts times the unit cost, and its
    gross revenue is cups times the cup price plus draft liters times the
    draft price plus the sum of the unit counts times the retail price;
    the Taproom volume becomes cups through the volume of the
    "Copo Taproom" packaging, through 0.473 L when that entry is absent or
    its volume is zero, and the cup count is zero when that volume is
    negative. *)
Theorem allocation_units_spec
  (volume_mes_l mix_taproom mix_varejo_chope mix_varejo_emb : Q)
  (dist_emb_percent : dict percent) (receita_base_nome : option string)
  (receitas_header_df : list header_row) (receitas_det_df : detail_frame)
  (emb_df : list pack_row) (precos_df : list price_row) (prem : dict Q) :
  (forall vol_vemb acc emb_name pct,
     let v_l := fst (get_pack_cost emb_df emb_name) in
     let c_u := snd (get_pack_cost emb_df emb_name) in
     let unidades := vol_vemb * (pct / 100) / v_l in
     (v_l <= 0 ->
        alloc_step emb_df precos_df vol_vemb acc (emb_name, pct) = Ok acc)
     /\ (0 < v_l ->
           alloc_step emb_df precos_df vol_vemb acc (emb_name, pct)
           = Ok (fst acc + unidades * get_price precos_df emb_name "Varejo",
                 snd acc + unidades * c_u)))
  /\ exists r dist_emb,
       compute_monthly_dre volume_mes_l mix_taproom mix_varejo_chope mix_varejo_emb
         dist_emb_percent receita_base_nome receitas_header_df receitas_det_df
         emb_df precos_df prem = Ok r
       /\ normalize_dist dist_emb_percent = Ok dist_emb
       /\ (let vol_vemb := clamp_volume volume_mes_l * (mix_varejo_emb / 100) in
           let v_l (item : string * Q) := fst (get_pack_cost emb_df (fst item)) in
           let c_u (item : string * Q) := snd (get_pack_cost emb_df (fst item)) in
           let unidades (item : string * Q) := vol_vemb * (snd item / 100) / v_l item in
           let counted := filter (fun item => Qlt_bool 0 (v_l item)) dist_emb in
           varejo_embalado_l r = vol_vemb
           /\ custo_embalagens r
              == py_sum (map (fun item => unidades item * c_u item) counted)
           /\ receita_bruta r
              == taproom_copos r * get_price precos_df "Copo Taproom" "Taproom"
                 + varejo_chope_l r * get_price precos_df "Chope (R$/L)" "Varejo"
                 + py_sum (map (fun item => unidades item
                                            * get_price precos_df (fst item) "Varejo")
                               counted))
       /\ let copo_vol_l := fst (get_pack_cost emb_df "Copo Taproom") in
          let vol_tap := clamp_volume volume_mes_l * (mix_taproom / 100) in
          (filter (fun p => String.eqb (Embalagem p) "Copo Taproom") emb_df = [] ->
             taproom_copos r = vol_tap / 0.473)
          /\ (copo_vol_l == 0 -> taproom_copos r = vol_tap / 0.473)
          /\ (0 < copo_vol_l -> taproom_copos r = vol_tap / copo_vol_l)
          /\ (copo_vol_l < 0 -> taproom_copos r = 0).
Proof.
  split; [intros; apply alloc_step_cases|].
  destruct (compute_monthly_dre_unfold volume_mes_l mix_taproom mix_varejo_chope
              mix_varejo_emb dist_emb_percent receita_base_nome receitas_header_df
              receitas_det_df emb_df precos_df prem)
    as [c [cups [dist_emb [totals [_ [Hcups [Hd [Ht Hr]]]]]]]].
  cbv zeta in Hr. eexists. exists dist_emb. split; [exact Hr|]. split; [exact Hd|].
  split.
  - cbn [taproom_copos varejo_embalado_l varejo_chope_l custo_embalagens receita_bruta].
    destruct (alloc_loop_sum emb_df precos_df
                (clamp_volume volume_mes_l * (mix_varejo_emb / 100)) dist_emb (0, 0))
      as [totals' [Ht' [H1 H2]]].
    rewrite Ht in Ht'. injection Ht' as <-. cbn [fst snd] in H1, H2.
    split; [reflexivity|]. split.
    + rewrite H2. ring.
    + rewrite H1. ring.
  - intros copo_vol_l vol_tap. cbn [taproom_copos].
    change (cup_count vol_tap (cup_volume copo_vol_l) = Ok cups) in Hcups.
    assert (Hzero : copo_vol_l == 0 -> cups = vol_tap / 0.473).
    { intro Hz. unfold cup_volume in Hcups. rewrite (py_or_default _ _ Hz) in Hcups.
      unfold cup_count in Hcups. cbn in Hcups. now inversion Hcups. }
    split; [|split; [exact Hzero|split]].
    + intro Habs. apply Hzero. subst copo_vol_l. unfold get_pack_cost.
      rewrite Habs. reflexivity.
    + intro Hpos.
      assert (Hne : ~ copo_vol_l == 0).
      { intro Hz. rewrite Hz in Hpos. exact (Qlt_irrefl 0 Hpos). }
      unfold cup_volume in Hcups. rewrite (py_or_nonzero _ _ Hne) in Hcups.
      unfold cup_count in Hcups.
      apply Qlt_bool_iff in Hpos. rewrite Hpos in Hcups.
      rewrite (py_div_ok _ _ Hne) in Hcups. now inversion Hcups.
    + intro Hneg.
      assert (Hne : ~ copo_vol_l == 0).
      { intro Hz. rewrite Hz in Hneg. exact (Qlt_irrefl 0 Hneg). }
      unfold cup_volume in Hcups. rewrite (py_or_nonzero _ _ Hne) in Hcups.
      unfold cup_count in Hcups.
      assert (E : Qlt_bool 0 copo_vol_l = false)
        by (apply Qlt_bool_false; now apply Qlt_le_weak).
      rewrite E in Hcups. now inversion Hcups.
Qed.

Lemma allocation_units_spec_witness :
  exists r,
    compute_monthly_dre 1000 0 0 100
      [("Lata 473ml", PNum 30); ("Growler 1L", PNum 10); ("Barril", PNum 10)] None []
      {| has_Custo_Total := true; det_rows := [] |}
      [mk_pack "Lata 473ml" 0.5 2; mk_pack "Growler 1L" 1 5; mk_pack "Barril" 0 90]
      [mk_price "Lata 473ml" "Varejo" 10; mk_price "Growler 1L" "Varejo" 30] [] = Ok r
    /\ custo_embalagens r == 1000 * (60 / 100) / 0.5 * 2 + 1000 * (20 / 100) / 1 * 5
    /\ receita_bruta r == 1000 * (60 / 100) / 0.5 * 10 + 1000 * (20 / 100) / 1 * 30
    /\ taproom_copos r = clamp_volume 1000 * (0 / 100) / 0.473.
Proof.
  destruct (allocation_units_spec 1000 0 0 100
              [("Lata 473ml", PNum 30); ("Growler 1L", PNum 10); ("Barril", PNum 10)] None []
              {| has_Custo_Total := true; det_rows := [] |}
              [mk_pack "Lata 473ml" 0.5 2; mk_pack "Growler 1L" 1 5; mk_pack "Barril" 0 90]
              [mk_price "Lata 473ml" "Varejo" 10; mk_price "Growler 1L" "Varejo" 30] [])
    as [_ [r [dist_emb [Hr [Hd [[_ [Hcost Hrev]] [Habsent _]]]]]]].
  exists r. vm_compute in Hd. injection Hd as <-.
  split; [exact Hr|]. split; [|split].
  - rewrite Hcost. reflexivity.
  - rewrite Hrev. vm_compute in Hr. injection Hr as <-. reflexivity.
  - apply Habsent. reflexivity.
Defined.

(** C7 as stated fails: a "Copo Taproom" entry with a negative volume per
    unit does not bring in the default 0.473 L; the cup count is zero. *)
Lemma cup_default_counterexample :
  fst (get_pack_cost [mk_pack "Copo Taproom" (-1) 0.25] "Copo Taproom") <= 0
  /\ exists r,
       compute_monthly_dre 473 100 0 0 [] None []
         {| has_Custo_Total := true; det_rows := [] |}
         [mk_pack "Copo Taproom" (-1) 0.25] [mk_price "Copo Taproom" "Taproom" 20] []
       = Ok r
       /\ taproom_copos r == 0
       /\ ~ taproom_copos r == 473 * (100 / 100) / 0.473.
Proof.
  split; [discriminate|].
  eexists. split; [vm_compute; reflexivity|].
  split; [reflexivity|discriminate].
Qed.

(** C10: a negative monthly volume is clamped to zero before anything is
    allocated: the whole result is the result for volume zero, and every
    revenue, tax, cost, margin, volume and unit count in it is zero. *)
Theorem compute_monthly_dre_negative_volume
  (volume_mes_l mix_taproom mix_varejo_chope mix_varejo_emb : Q)
  (dist_emb_percent : dict percent) (receita_base_nome : option string)
  (receitas_header_df : list header_row) (receitas_det_df : detail_frame)
  (emb_df : list pack_row) (precos_df : list price_row) (prem : dict Q) :
  volume_mes_l < 0 ->
  compute_monthly_dre volume_mes_l mix_taproom mix_varejo_chope mix_varejo_emb
    dist_emb_percent receita_base_nome receitas_header_df receitas_det_df
    emb_df precos_df prem
  = compute_monthly_dre 0 mix_taproom mix_varejo_chope mix_varejo_emb
      dist_emb_percent receita_base_nome receitas_header_df receitas_det_df
      emb_df precos_df prem
  /\ exists r,
       compute_monthly_dre volume_mes_l mix_taproom mix_varejo_chope mix_varejo_emb
         dist_emb_percent receita_base_nome receitas_header_df receitas_det_df
         emb_df precos_df prem = Ok r
       /\ receita_bruta r == 0 /\ impostos r == 0 /\ cmv_liquido r == 0
       /\ custo_embalagens r == 0 /\ custo_copos r == 0 /\ cmv_total r == 0
       /\ margem r == 0 /\ taproom_copos r == 0 /\ varejo_chope_l r == 0
       /\ varejo_embalado_l r == 0.
Proof.
  intro Hneg.
  assert (Hclamp : clamp_volume volume_mes_l = 0)
    by (apply clamp_volume_negative; now apply Qlt_le_weak).
  split.
  - unfold compute_monthly_dre. rewrite Hclamp.
    now rewrite (clamp_volume_negative 0 (Qle_refl 0)).
  - destruct (compute_monthly_dre_unfold volume_mes_l mix_taproom mix_varejo_chope
                mix_varejo_emb dist_emb_percent receita_base_nome receitas_header_df
                receitas_det_df emb_df precos_df prem)
      as [c [cups [dist_emb [totals [_ [Hcups [_ [Ht Hr]]]]]]]].
    cbv zeta in Hr. rewrite Hclamp in Hr, Hcups, Ht.
    assert (Hc0 : cups == 0).
    { unfold cup_count in Hcups.
      destruct (Qlt_bool 0 (cup_volume (fst (get_pack_cost emb_df "Copo Taproom")))) eqn:E.
      - apply Qlt_bool_iff in E. rewrite py_div_ok in Hcups.
        + inversion Hcups. unfold Qdiv. ring.
        + intro Hz. rewrite Hz in E. exact (Qlt_irrefl 0 E).
      - inversion Hcups. reflexivity. }
    destruct (alloc_loop_zero emb_df precos_df (0 * (mix_varejo_emb / 100)) dist_emb (0, 0))
      as [totals' [Ht' [H1 H2]]]; [ring|reflexivity|reflexivity|].
    rewrite Ht in Ht'. inversion Ht'; subst totals'.
    eexists. split; [exact Hr|].
    cbn [receita_bruta impostos cmv_liquido custo_embalagens custo_copos cmv_total
         margem taproom_copos varejo_chope_l varejo_embalado_l].
    rewrite Hc0, H1, H2. repeat split; ring.
Qed.

Lemma compute_monthly_dre_negative_volume_witness :
  compute_monthly_dre (-150) 30 25 45 [("Lata 473ml", PNum 100)] None [] 
    {| has_Custo_Total := true; det_rows := [] |}
    [mk_pack "Lata 473ml" 0.473 1.60] [mk_price "Lata 473ml" "Varejo" 22] []
  = compute_monthly_dre 0 30 25 45 [("Lata 473ml", PNum 100)] None []
      {| has_Custo_Total := true; det_rows := [] |}
      [mk_pack "Lata 473ml" 0.473 1.60] [mk_price "Lata 473ml" "Varejo" 22] [].
Proof.
  apply (compute_monthly_dre_negative_volume (-150) 30 25 45
           [("Lata 473ml", PNum 100)] None []
           {| has_Custo_Total := true; det_rows := [] |}
           [mk_pack "Lata 473ml" 0.473 1.60] [mk_price "Lata 473ml" "Varejo" 22] []).
  reflexivity.
Defined.

End DreFacts.

(* ================================================================= *)
(** ** Amortisation and payback *)

Module PaybackFacts.

Import Payback.

Lemma py_max_int_spec (a b : Z) : py_max_int a b = Z.max a b.
Proof.
  unfold py_max_int. destruct (a <? b)%Z eqn:E.
  - apply Z.ltb_lt in E. lia.
  - apply Z.ltb_ge in E. lia.
Qed.

(** Over the rationals the divisor of [pmt_price] is never zero. *)
Lemma pmt_price_total (pv rate_month : Q) (nper : Z) :
  exists p, pmt_price pv rate_month nper = Ok p.
Proof.
  unfold pmt_price. destruct (nper <=? 0)%Z eqn:En; [eexists; reflexivity|].
  apply Z.leb_gt in En.
  destruct (Qle_bool rate_month 0) eqn:Er.
  - rewrite py_div_ok; [eexists; reflexivity|].
    intro Hz. unfold Qeq in Hz. simpl in Hz. lia.
  - apply Qle_bool_false in Er.
    rewrite py_div_ok; [eexists; reflexivity|].
    assert (H1 : 1 < 1 + rate_month).
    { setoid_replace 1 with (1 + 0) at 1 by ring.
      apply Qplus_lt_r. exact Er. }
    pose proof (Qpower_1_lt (1 + rate_month) nper H1 En) as Hp.
    assert (Hpos : 0 < (1 + rate_month) ^ nper)
      by (apply Qlt_trans with 1; [reflexivity|exact Hp]).
    rewrite Qpower_opp. intro Hz.
    assert (Hinv : / (1 + rate_month) ^ nper == 1).
    { setoid_replace (/ (1 + rate_month) ^ nper)
        with (1 - (1 - / (1 + rate_month) ^ nper)) by ring.
      rewrite Hz. ring. }
    assert (Hone : (1 + rate_month) ^ nper == 1).
    { rewrite <- (Qinv_involutive ((1 + rate_month) ^ nper)), Hinv. reflexivity. }
    rewrite Hone in Hp. exact (Qlt_irrefl 1 Hp).
Qed.

Lemma loop_saldo (cash : nat -> Q) (ms : list nat) (acc : Q) (pay_m : option nat)
  (saldo : list Q) :
  fst (payback_loop cash ms acc pay_m saldo) = rev saldo ++ running cash ms acc.
Proof.
  revert acc pay_m saldo. induction ms as [|m ms IH]; intros acc pay_m saldo; simpl.
  - now rewrite app_nil_r.
  - rewrite IH. simpl. now rewrite <- app_assoc.
Qed.

Lemma loop_pay_some (cash : nat -> Q) (ms : list nat) (acc : Q) (p : nat)
  (saldo : list Q) :
  snd (payback_loop cash ms acc (Some p) saldo) = Some p.
Proof.
  revert acc saldo. induction ms as [|m ms IH]; intros acc saldo; simpl.
  - reflexivity.
  - rewrite andb_false_r. apply IH.
Qed.

Lemma running_length (cash : nat -> Q) (ms : list nat) (acc : Q) :
  List.length (running cash ms acc) = List.length ms.
Proof.
  revert acc. induction ms as [|m ms IH]; intro acc; simpl; [reflexivity|].
  now rewrite IH.
Qed.

Lemma inject_succ (k : nat) :
  inject_Z (Z.of_nat (S k)) == inject_Z (Z.of_nat k) + 1.
Proof.
  rewrite Nat2Z.inj_succ. unfold Z.succ. rewrite inject_Z_plus. reflexivity.
Qed.

(** With a constant monthly cash the [i]-th appended balance is
    [acc + (i+1) * cash]. *)
Lemma running_const (c : Q) (ms : list nat) (acc : Q) (i : nat) :
  (i < List.length ms)%nat ->
  exists b, nth_error (running (fun _ => c) ms acc) i = Some b
            /\ b == acc + inject_Z (Z.of_nat (S i)) * c.
Proof.
  revert acc i. induction ms as [|m ms IH]; intros acc i Hi; simpl in Hi; [lia|].
  destruct i as [|i]; simpl.
  - eexists. split; [reflexivity|]. ring.
  - destruct (IH (acc + c) i ltac:(lia)) as [b [Hb Eb]].
    exists b. split; [exact Hb|]. rewrite Eb, (inject_succ (S i)). ring.
Qed.

(** Each appended balance is the previous one plus that month's cash. *)
Lemma running_step (cash : nat -> Q) (s n : nat) (acc : Q) (i : nat) :
  (i < n)%nat ->
  exists prev cur,
    nth_error (acc :: running cash (seq s n) acc) i = Some prev
    /\ nth_error (acc :: running cash (seq s n) acc) (S i) = Some cur
    /\ cur = prev + cash (s + i)%nat.
Proof.
  revert s acc i. induction n as [|n IH]; intros s acc i Hi; [lia|].
  destruct i as [|i].
  - simpl. rewrite Nat.add_0_r. eauto.
  - destruct (IH (S s) (acc + cash s) i ltac:(lia)) as [prev [cur [Hp [Hc E]]]].
    exists prev, cur. simpl in *. rewrite Hp, Hc.
    replace (s + S i)%nat with (S (s + i)) by lia. auto.
Qed.

(** The month the loop reports, for a loop over [s, s+1, ...]: the first
    of those months whose balance is not negative. *)
Lemma loop_pay_first (cash : nat -> Q) (n s : nat) (acc : Q) (saldo : list Q) :
  let bal k := nth (k - s) (running cash (seq s n) acc) 0 in
  match snd (payback_loop cash (seq s n) acc None saldo) with
  | Some m => (s <= m < s + n)%nat /\ 0 <= bal m
              /\ forall k, (s <= k < m)%nat -> bal k < 0
  | None => forall k, (s <= k < s + n)%nat -> bal k < 0
  end.
Proof.
  revert s acc saldo. induction n as [|n IH]; intros s acc saldo bal; simpl.
  - intros k Hk. lia.
  - destruct (Qle_bool 0 (acc + cash s)) eqn:E; simpl.
    + rewrite loop_pay_some. split; [lia|]. split.
      * subst bal. simpl. rewrite Nat.sub_diag. simpl. now apply Qle_bool_iff.
      * intros k Hk. lia.
    + apply Qle_bool_false in E.
      specialize (IH (S s) (acc + cash s) ((acc + cash s) :: saldo)). simpl in IH.
      assert (Hbal : forall k, (S s <= k)%nat ->
                 bal k = nth (k - S s) (running cash (seq (S s) n) (acc + cash s)) 0).
      { intros k Hk. subst bal. simpl.
        replace (k - s)%nat with (S (k - S s)) by lia. reflexivity. }
      assert (Hs : bal s = acc + cash s).
      { subst bal. simpl. rewrite Nat.sub_diag. reflexivity. }
      destruct (snd (payback_loop cash (seq (S s) n) (acc + cash s) None
                       ((acc + cash s) :: saldo))) as [m|].
      * destruct IH as [Hm [Hge Hlt]]. split; [lia|]. split.
        -- rewrite Hbal by lia. exact Hge.
        -- intros k Hk. destruct (Nat.eq_dec k s) as [->|Hne].
           ++ rewrite Hs. exact E.
           ++ rewrite Hbal by lia. apply Hlt. lia.
      * intros k Hk. destruct (Nat.eq_dec k s) as [->|Hne].
        -- rewrite Hs. exact E.
        -- rewrite Hbal by lia. apply IH. lia.
Qed.

Lemma nth_error_combine {A B : Type} (l1 : list A) (l2 : list B) (i : nat) (a : A) (b : B) :
  nth_error l1 i = Some a -> nth_error l2 i = Some b ->
  nth_error (combine l1 l2) i = Some (a, b).
Proof.
  revert l2 i. induction l1 as [|x l1 IH]; intros l2 i H1 H2.
  - destruct i; discriminate.
  - destruct l2 as [|y l2]; [destruct i; discriminate|].
    destruct i as [|i]; simpl in *.
    + now inversion H1; inversion H2.
    + now apply IH.
Qed.

Lemma map_fst_combine {A B : Type} (l1 : list A) (l2 : list B) :
  List.length l1 = List.length l2 -> map fst (combine l1 l2) = l1.
Proof.
  revert l2. induction l1 as [|x l1 IH]; intros [|y l2] H; simpl in *;
    try reflexivity; try discriminate.
  f_equal. apply IH. lia.
Qed.

Lemma in_combine_nth {A B : Type} (l1 : list A) (l2 : list B) (a : A) (b : B) :
  In (a, b) (combine l1 l2) ->
  exists i, nth_error l1 i = Some a /\ nth_error l2 i = Some b.
Proof.
  revert l2. induction l1 as [|x l1 IH]; intros [|y l2] H; simpl in H; try tauto.
  destruct H as [E|H].
  - inversion E; subst. exists 0%nat. split; reflexivity.
  - destruct (IH l2 H) as [i [H1 H2]]. exists (S i). split; assumption.
Qed.

Lemma build_payback_series_unfold (invest monthly_cash : Q) (months : nat) :
  build_payback_series invest monthly_cash months
  = (combine (seq 0 (months + 1))
             (- invest :: running (fun _ => monthly_cash) (seq 1 months) (- invest)),
     snd (payback_loop (fun _ => monthly_cash) (seq 1 months) (- invest) None [- invest])).
Proof.
  unfold build_payback_series.
  pose proof (loop_saldo (fun _ => monthly_cash) (seq 1 months) (- invest) None [- invest]) as H.
  destruct (payback_loop (fun _ => monthly_cash) (seq 1 months) (- invest) None [- invest])
    as [saldo pay_m].
  simpl in H. subst saldo. reflexivity.
Qed.

Lemma balance_nth (invest monthly_cash : Q) (months m : nat) :
  (1 <= m <= months)%nat ->
  exists b,
    nth_error (running (fun _ => monthly_cash) (seq 1 months) (- invest)) (m - 1) = Some b
    /\ b == - invest + inject_Z (Z.of_nat m) * monthly_cash.
Proof.
  intro Hm.
  destruct (running_const monthly_cash (seq 1 months) (- invest) (m - 1)) as [b [Hb Eb]].
  - rewrite length_seq. lia.
  - exists b. split; [exact Hb|].
    replace (S (m - 1)) with m in Eb by lia. exact Eb.
Qed.

Lemma balance_nth_default (invest monthly_cash : Q) (months m : nat) :
  (1 <= m <= months)%nat ->
  nth (m - 1) (running (fun _ => monthly_cash) (seq 1 months) (- invest)) 0
  == - invest + inject_Z (Z.of_nat m) * monthly_cash.
Proof.
  intro Hm. destruct (balance_nth invest monthly_cash months m Hm) as [b [Hb Eb]].
  rewrite (nth_error_nth _ _ 0 Hb). exact Eb.
Qed.

Lemma financed_payback_series_unfold
  (invest_inicial lucro_operacional valor_fin i_m parc : Q) (prazo carencia : Z) :
  parcela valor_fin i_m prazo carencia = Ok parc ->
  let cash m := lucro_operacional - pay (juros_only valor_fin i_m) parc carencia m in
  financed_payback_series invest_inicial lucro_operacional valor_fin i_m prazo carencia
  = Ok (combine (seq 0 85)
                (- invest_inicial :: running cash (seq 1 84) (- invest_inicial)),
        snd (payback_loop cash (seq 1 84) (- invest_inicial) None [- invest_inicial])).
Proof.
  intros Hp cash. unfold financed_payback_series. rewrite Hp. cbn [bind]. fold cash.
  pose proof (loop_saldo cash (seq 1 84) (- invest_inicial) None [- invest_inicial]) as H.
  destruct (payback_loop cash (seq 1 84) (- invest_inicial) None [- invest_inicial])
    as [saldo m_pay].
  cbn [fst snd] in *. rewrite H. reflexivity.
Qed.

(** C5, as the code has it: in the financed series the amount taken from
    the operating cash is the interest-only payment [valor_fin * i_m] in
    every month up to the grace period, and in every later month the fixed
    Price instalment computed over [max(1, prazo - carencia)] periods,
    which is [prazo - carencia] periods whenever the term exceeds the grace
    period.  With principal 6000, monthly rate 0.015, term 12 and grace 2,
    months 1 and 2 deduct 90 and the later months the instalment over 10
    periods. *)
Theorem financed_payment_spec
  (invest_inicial lucro_operacional valor_fin i_m : Q) (prazo carencia : Z) :
  (exists parc rows m_pay,
     parcela valor_fin i_m prazo carencia = Ok parc
     /\ pmt_price valor_fin i_m (Z.max 1 (prazo - carencia)) = Ok parc
     /\ ((carencia < prazo)%Z -> pmt_price valor_fin i_m (prazo - carencia) = Ok parc)
     /\ financed_payback_series invest_inicial lucro_operacional valor_fin i_m
          prazo carencia = Ok (rows, m_pay)
     /\ nth_error rows 0 = Some (0%nat, - invest_inicial)
     /\ (forall m, (1 <= m <= 84)%nat ->
           exists prev cur,
             nth_error rows (m - 1) = Some ((m - 1)%nat, prev)
             /\ nth_error rows m = Some (m, cur)
             /\ ((Z.of_nat m <= carencia)%Z ->
                   cur = prev + (lucro_operacional - valor_fin * i_m))
             /\ ((carencia < Z.of_nat m)%Z ->
                   cur = prev + (lucro_operacional - parc))))
  /\ juros_only 6000 0.015 == 90
  /\ parcela 6000 0.015 12 2 = pmt_price 6000 0.015 10
  /\ (forall parc m, (1 <= m <= 2)%nat ->
        pay (juros_only 6000 0.015) parc 2 m = juros_only 6000 0.015)
  /\ (forall parc m, (3 <= m)%nat -> pay (juros_only 6000 0.015) parc 2 m = parc).
Proof.
  split; [|split; [reflexivity|split; [reflexivity|split]]].
  - destruct (pmt_price_total valor_fin i_m (py_max_int 1 (prazo - carencia))) as [parc Hp].
    exists parc. eexists. eexists.
    split; [exact Hp|].
    split; [now rewrite <- py_max_int_spec|].
    split; [intro Hlt; rewrite <- Hp; unfold parcela; rewrite py_max_int_spec;
            f_equal; lia|].
    split; [apply (financed_payback_series_unfold _ _ _ _ _ _ _ Hp)|].
    split; [reflexivity|].
    intros m Hm.
    set (cash := fun m => lucro_operacional - pay (juros_only valor_fin i_m) parc carencia m).
    destruct (running_step cash 1 84 (- invest_inicial) (m - 1) ltac:(lia))
      as [prev [cur [Hprev [Hcur E]]]].
    replace (S (m - 1)) with m in Hcur by lia.
    replace (1 + (m - 1))%nat with m in E by lia.
    exists prev, cur. split; [|split; [|split]].
    + apply nth_error_combine; [|exact Hprev].
      rewrite nth_error_seq. destruct (Nat.ltb_spec (m - 1) 85); [reflexivity|lia].
    + apply nth_error_combine; [|exact Hcur].
      rewrite nth_error_seq. destruct (Nat.ltb_spec m 85); [reflexivity|lia].
    + intro Hle. rewrite E. subst cash. cbv beta. unfold pay.
      apply Z.leb_le in Hle. now rewrite Hle.
    + intro Hgt. rewrite E. subst cash. cbv beta. unfold pay.
      apply Z.leb_gt in Hgt. now rewrite Hgt.
  - intros parc m Hm. unfold pay.
    destruct (Z.leb_spec (Z.of_nat m) 2); [reflexivity|lia].
  - intros parc m Hm. unfold pay.
    destruct (Z.leb_spec (Z.of_nat m) 2); [lia|reflexivity].
Qed.

Lemma financed_payment_spec_witness :
  (exists parc, pmt_price 6000 0.015 (12 - 2) = Ok parc
                /\ parcela 6000 0.015 12 2 = Ok parc)
  /\ pay (juros_only 6000 0.015) 0 2 2 = juros_only 6000 0.015
  /\ pay (juros_only 6000 0.015) 650 2 3 = 650.
Proof.
  destruct (financed_payment_spec 10000 1000 6000 0.015 12 2)
    as [[parc [rows [m_pay [Hp [_ [Hterm _]]]]]] [_ [_ [Hgrace Hafter]]]].
  split.
  - exists parc. split; [apply Hterm; reflexivity|exact Hp].
  - split; [apply Hgrace; lia|apply Hafter; lia].
Defined.

(** C5 as stated fails: when the term does not exceed the grace period the
    instalment is computed over one period, not over [prazo - carencia]
    periods (for which [pmt_price] gives 0). *)
Lemma installment_periods_counterexample :
  pmt_price 6000 0.015 (2 - 2) = Ok 0
  /\ exists parc,
       parcela 6000 0.015 2 2 = Ok parc
       /\ parc == 6090
       /\ pay (juros_only 6000 0.015) parc 2 3 = parc
       /\ ~ parc == 0.
Proof.
  split; [reflexivity|].
  eexists. split; [vm_compute; reflexivity|].
  split; [reflexivity|]. split; [reflexivity|discriminate].
Qed.

End PaybackFacts.

(* ================================================================= *)
(** ** Dicts as maps *)

Module DictFacts.

Lemma dict_get_set {V : Type} (d : dict V) (k k' : string) (v : V) :
  dict_get (dict_set d k v) k' = if String.eqb k k' then Some v else dict_get d k'.
Proof.
  induction d as [|[k0 v0] d IH]; simpl.
  - reflexivity.
  - destruct (String.eqb_spec k0 k) as [->|Hne]; simpl.
    + destruct (String.eqb k k'); reflexivity.
    + rewrite IH. destruct (String.eqb_spec k0 k') as [->|Hne'].
      * destruct (String.eqb_spec k k') as [->|_]; [congruence|reflexivity].
      * reflexivity.
Qed.

Lemma dict_get_remove {V : Type} (d : dict V) (k k' : string) :
  dict_get (dict_remove d k) k' = if String.eqb k k' then None else dict_get d k'.
Proof.
  induction d as [|[k0 v0] d IH]; simpl.
  - now destruct (String.eqb k k').
  - destruct (String.eqb_spec k0 k) as [->|Hne]; simpl.
    + rewrite IH. destruct (String.eqb k k'); reflexivity.
    + rewrite IH. destruct (String.eqb_spec k0 k') as [->|Hne'].
      * destruct (String.eqb_spec k k') as [->|_]; [congruence|reflexivity].
      * reflexivity.
Qed.

Lemma dict_get_none_keys {V : Type} (d : dict V) (k : string) :
  ~ In k (dict_keys d) -> dict_get d k = None.
Proof.
  induction d as [|[k0 v0] d IH]; simpl; intro H; [reflexivity|].
  destruct (String.eqb_spec k0 k) as [->|_]; [tauto|]. apply IH. tauto.
Qed.

Lemma dict_get_some_keys {V : Type} (d : dict V) (k : string) (v : V) :
  dict_get d k = Some v -> In k (dict_keys d).
Proof.
  induction d as [|[k0 v0] d IH]; simpl; [discriminate|].
  destruct (String.eqb_spec k0 k) as [->|_]; [now left|]. intro H. right. now apply IH.
Qed.

Lemma dict_keys_set {V : Type} (d : dict V) (k k' : string) (v : V) :
  In k' (dict_keys (dict_set d k v)) -> k' = k \/ In k' (dict_keys d).
Proof.
  induction d as [|[k0 v0] d IH]; simpl.
  - intros [H|[]]. now left.
  - destruct (String.eqb_spec k0 k) as [->|_]; simpl.
    + intros [H|H]; auto.
    + intros [H|H]; auto. destruct (IH H); auto.
Qed.

Lemma dict_set_nodup {V : Type} (d : dict V) (k : string) (v : V) :
  NoDup (dict_keys d) -> NoDup (dict_keys (dict_set d k v)).
Proof.
  induction d as [|[k0 v0] d IH]; simpl; intro H.
  - constructor; [tauto|constructor].
  - inversion H as [|? ? Hnin Hnd]; subst.
    destruct (String.eqb_spec k0 k) as [->|Hne]; simpl.
    + now constructor.
    + constructor; [|now apply IH].
      intro Hin. destruct (dict_keys_set _ _ _ _ Hin); [congruence|contradiction].
Qed.

Lemma dict_keys_remove {V : Type} (d : dict V) (k k' : string) :
  In k' (dict_keys (dict_remove d k)) -> In k' (dict_keys d).
Proof.
  induction d as [|[k0 v0] d IH]; simpl; [tauto|].
  destruct (String.eqb k0 k); simpl; intuition.
Qed.

Lemma dict_remove_nodup {V : Type} (d : dict V) (k : string) :
  NoDup (dict_keys d) -> NoDup (dict_keys (dict_remove d k)).
Proof.
  induction d as [|[k0 v0] d IH]; simpl; intro H; [constructor|].
  inversion H as [|? ? Hnin Hnd]; subst.
  destruct (String.eqb k0 k); simpl; [now apply IH|].
  constructor; [|now apply IH]. intro Hin. apply Hnin. eapply dict_keys_remove; eauto.
Qed.

Lemma dict_keys_filter {V : Type} (p : string * V -> bool) (d : dict V) (k : string) :
  In k (dict_keys (filter p d)) -> In k (dict_keys d).
Proof.
  induction d as [|kv d IH]; simpl; [tauto|].
  destruct (p kv); simpl; intuition.
Qed.

Lemma dict_filter_nodup {V : Type} (p : string * V -> bool) (d : dict V) :
  NoDup (dict_keys d) -> NoDup (dict_keys (filter p d)).
Proof.
  induction d as [|kv d IH]; simpl; intro H; [constructor|].
  inversion H as [|? ? Hnin Hnd]; subst.
  destruct (p kv); simpl; [|now apply IH].
  constructor; [|now apply IH]. intro Hin. apply Hnin. eapply dict_keys_filter; eauto.
Qed.

(** On a dict without repeated keys, filtering on the value filters the
    lookup. *)
Lemma dict_get_filter {V : Type} (p : V -> bool) (d : dict V) (k : string) :
  NoDup (dict_keys d) ->
  dict_get (filter (fun kv => p (snd kv)) d) k
  = match dict_get d k with
    | Some v => if p v then Some v else None
    | None => None
    end.
Proof.
  induction d as [|[k0 v0] d IH]; simpl; intro H; [reflexivity|].
  inversion H as [|? ? Hnin Hnd]; subst.
  destruct (String.eqb_spec k0 k) as [->|Hne].
  - destruct (p v0); simpl.
    + now rewrite String.eqb_refl.
    + rewrite IH by assumption. now rewrite (dict_get_none_keys d k Hnin).
  - destruct (p v0); simpl; [|now apply IH].
    destruct (String.eqb_spec k0 k); [congruence|now apply IH].
Qed.

(** [d.update(other)]: the entries of [other] win. *)
Lemma dict_get_update {V : Type} (other d : dict V) (k : string) :
  NoDup (dict_keys other) ->
  dict_get (dict_update d other) k
  = match dict_get other k with
    | Some v => Some v
    | None => dict_get d k
    end.
Proof.
  unfold dict_update. revert d.
  induction other as [|[k0 v0] other IH]; intros d H; simpl; [reflexivity|].
  inversion H as [|? ? Hnin Hnd]; subst.
  rewrite IH by assumption. rewrite dict_get_set.
  destruct (String.eqb_spec k0 k) as [->|Hne]; [|reflexivity].
  now rewrite (dict_get_none_keys other k Hnin).
Qed.

Lemma dict_mem_get {V : Type} (d : dict V) (k : string) :
  dict_mem d k = match dict_get d k with Some _ => true | None => false end.
Proof. reflexivity. Qed.

Lemma dict_mem_first {V : Type} (k : string) (v : V) (d : dict V) :
  dict_mem ((k, v) :: d) k = true.
Proof. unfold dict_mem. simpl. now rewrite String.eqb_refl. Qed.

End DictFacts.

Import DictFacts.

(* ================================================================= *)
(** ** ScenarioStore *)

Module StoreFacts.

Import Store.

Lemma collect_ok (fields : dict json) (keys : list string) (sc : dict json) :
  for_each (collect_step (JObj fields)) keys sc
  = Ok (fold_left
          (fun sc k => match dict_get fields k with
                       | Some v => dict_set sc k v
                       | None => sc
                       end) keys sc).
Proof.
  apply for_each_ok. intros s k _. unfold collect_step. simpl. unfold dict_mem.
  destruct (dict_get fields k); reflexivity.
Qed.

Lemma collect_get (fields : dict json) (keys : list string) (sc : dict json) (k : string) :
  dict_get (fold_left
              (fun sc k => match dict_get fields k with
                           | Some v => dict_set sc k v
                           | None => sc
                           end) keys sc) k
  = if existsb (String.eqb k) keys
    then match dict_get fields k with Some v => Some v | None => dict_get sc k end
    else dict_get sc k.
Proof.
  revert sc. induction keys as [|k0 keys IH]; intro sc; simpl; [reflexivity|].
  rewrite IH. rewrite (String.eqb_sym k k0).
  destruct (String.eqb_spec k0 k) as [->|Hne]; simpl.
  - destruct (dict_get fields k) as [v|] eqn:E.
    + rewrite dict_get_set, String.eqb_refl.
      now destruct (existsb (String.eqb k) keys).
    + now destruct (existsb (String.eqb k) keys).
  - destruct (dict_get fields k0) as [v0|]; [|reflexivity].
    rewrite dict_get_set. destruct (String.eqb_spec k0 k); [congruence|reflexivity].
Qed.

Lemma collect_nodup (fields : dict json) (keys : list string) (sc : dict json) :
  NoDup (dict_keys sc) ->
  NoDup (dict_keys (fold_left
                      (fun sc k => match dict_get fields k with
                                   | Some v => dict_set sc k v
                                   | None => sc
                                   end) keys sc)).
Proof.
  revert sc. induction keys as [|k0 keys IH]; intros sc H; simpl; [exact H|].
  apply IH. destruct (dict_get fields k0); [now apply dict_set_nodup|exact H].
Qed.

Lemma rename_key_get (sc : dict json) (old new k : string) :
  dict_get (rename_key sc old new) k
  = if dict_mem sc old && negb (dict_mem sc new)
    then if String.eqb new k then dict_get sc old
         else if String.eqb old k then None else dict_get sc k
    else dict_get sc k.
Proof.
  unfold rename_key.
  destruct (dict_mem sc old && negb (dict_mem sc new)) eqn:E; [|reflexivity].
  apply andb_true_iff in E. destruct E as [Hold _].
  unfold dict_move. unfold dict_mem in Hold.
  destruct (dict_get sc old) as [v|]; [|discriminate].
  rewrite dict_get_set, dict_get_remove. reflexivity.
Qed.

Lemma rename_key_nodup (sc : dict json) (old new : string) :
  NoDup (dict_keys sc) -> NoDup (dict_keys (rename_key sc old new)).
Proof.
  intro H. unfold rename_key.
  destruct (dict_mem sc old && negb (dict_mem sc new)); [|exact H].
  unfold dict_move. destruct (dict_get sc old); [|exact H].
  apply dict_set_nodup. now apply dict_remove_nodup.
Qed.

(** Migration 1 on a JSON object, as one equation. *)
Lemma migrate_single_object (fields : dict json) :
  migrate_single (JObj fields)
  = Ok (store_of DEFAULT_SCENARIO_NAME
          (dict_update (scenario_json default_scenario)
             (filter (fun kv => negb (is_none (snd kv)))
                (rename_key
                   (rename_key
                      (fold_left
                         (fun sc k => match dict_get fields k with
                                      | Some v => dict_set sc k v
                                      | None => sc
                                      end) legacy_keys [])
                      "opex_db" "opex_outros_db")
                   "precos_venda" "precos_sku")))).
Proof.
  unfold migrate_single. rewrite collect_ok. reflexivity.
Qed.

Ltac settle_nulls :=
  cbn;
  repeat (match goal with
          | |- context [is_none ?v] => destruct (is_none v); cbn
          end);
  reflexivity.

(** C8, as the code has it: a document that parses to an object without
    a "scenarios" key loads as a store with the single scenario "Base",
    selected.  Each current field of that scenario holds the document's
    value when the document has a non-null one, else its default; the
    OpexItems field [opex_outros_db] and the Prices field [precos_sku] take
    the value of the legacy [opex_db] / [precos_venda] when the document
    lacks the current key; a legacy key stays in the scenario, not renamed,
    when the document has the current key as well. *)
Theorem load_legacy_single_scenario
  (py_str : json -> string) (json_load : list Byte.byte -> option json)
  (bytes : list Byte.byte) (fields : dict json) :
  json_load bytes = Some (JObj fields) ->
  dict_mem fields "scenarios" = false ->
  let supplied k :=
    match dict_get fields k with
    | Some v => if is_none v then None else Some v
    | None => None
    end in
  let has k := dict_mem fields k in
  let dflt k := dict_get (scenario_json default_scenario) k in
  let over (x : option json) k := match x with Some v => Some v | None => dflt k end in
  exists base,
    load_db py_str json_load (Some bytes)
    = Ok (JObj [ ("scenarios", JObj [ ("Base", JObj base) ]);
                 ("selected", JStr "Base") ])
    /\ forall k,
         dict_get base k
         = if String.eqb k "opex_outros_db"
           then over (if has "opex_outros_db" then supplied "opex_outros_db"
                      else supplied "opex_db") k
           else if String.eqb k "precos_sku"
           then over (if has "precos_sku" then supplied "precos_sku"
                      else supplied "precos_venda") k
           else if String.eqb k "opex_db"
           then (if has "opex_outros_db" then supplied "opex_db" else None)
           else if String.eqb k "precos_venda"
           then (if has "precos_sku" then supplied "precos_venda" else None)
           else if existsb (String.eqb k) legacy_keys then over (supplied k) k
           else dflt k.
Proof.
  intros Hload Hno supplied has dflt over.
  eexists. split.
  - unfold load_db. rewrite Hload. unfold load_raw.
    cbn [py_in bind]. rewrite Hno. cbn [negb].
    rewrite migrate_single_object. reflexivity.
  - intro k.
    set (sc0 := fold_left
                  (fun sc k => match dict_get fields k with
                               | Some v => dict_set sc k v
                               | None => sc
                               end) legacy_keys []).
    assert (H0 : forall k, dict_get sc0 k
                           = if existsb (String.eqb k) legacy_keys
                             then dict_get fields k else None).
    { intro k'. subst sc0. rewrite collect_get. simpl dict_get.
      destruct (existsb (String.eqb k') legacy_keys); [|reflexivity].
      now destruct (dict_get fields k'). }
    assert (N0 : NoDup (dict_keys sc0)) by (apply collect_nodup; constructor).
    set (sc1 := rename_key sc0 "opex_db" "opex_outros_db").
    assert (N1 : NoDup (dict_keys sc1)) by now apply rename_key_nodup.
    set (sc2 := rename_key sc1 "precos_venda" "precos_sku").
    assert (N2 : NoDup (dict_keys sc2)) by now apply rename_key_nodup.
    rewrite dict_get_update by now apply dict_filter_nodup.
    rewrite (dict_get_filter (fun v => negb (is_none v)) sc2 k N2).
    subst sc2. rewrite rename_key_get. unfold dict_mem.
    subst sc1. rewrite !rename_key_get. unfold dict_mem. rewrite !H0.
    change (existsb (String.eqb "precos_venda") legacy_keys) with true.
    change (existsb (String.eqb "precos_sku") legacy_keys) with true.
    change (existsb (String.eqb "opex_db") legacy_keys) with true.
    change (existsb (String.eqb "opex_outros_db") legacy_keys) with true.
    change (String.eqb "opex_outros_db" "precos_venda") with false.
    change (String.eqb "opex_outros_db" "precos_sku") with false.
    change (String.eqb "opex_db" "precos_venda") with false.
    change (String.eqb "opex_db" "precos_sku") with false.
    cbv iota.
    subst over has supplied. cbv beta. unfold dict_mem.
    destruct (String.eqb_spec k "opex_outros_db") as [->|Hk1].
    { destruct (dict_get fields "opex_outros_db") as [v1|];
        destruct (dict_get fields "opex_db") as [v2|];
        destruct (dict_get fields "precos_venda") as [v3|];
        destruct (dict_get fields "precos_sku") as [v4|]; settle_nulls. }
    destruct (String.eqb_spec k "precos_sku") as [->|Hk2].
    { destruct (dict_get fields "opex_outros_db") as [v1|];
        destruct (dict_get fields "opex_db") as [v2|];
        destruct (dict_get fields "precos_venda") as [v3|];
        destruct (dict_get fields "precos_sku") as [v4|]; settle_nulls. }
    destruct (String.eqb_spec k "opex_db") as [->|Hk3].
    { destruct (dict_get fields "opex_outros_db") as [v1|];
        destruct (dict_get fields "opex_db") as [v2|];
        destruct (dict_get fields "precos_venda") as [v3|];
        destruct (dict_get fields "precos_sku") as [v4|]; settle_nulls. }
    destruct (String.eqb_spec k "precos_venda") as [->|Hk4].
    { destruct (dict_get fields "opex_outros_db") as [v1|];
        destruct (dict_get fields "opex_db") as [v2|];
        destruct (dict_get fields "precos_venda") as [v3|];
        destruct (dict_get fields "precos_sku") as [v4|]; settle_nulls. }
    rewrite (String.eqb_sym "precos_sku" k), (String.eqb_sym "precos_venda" k),
            (String.eqb_sym "opex_outros_db" k), (String.eqb_sym "opex_db" k).
    destruct (String.eqb_spec k "precos_sku"); [contradiction|].
    destruct (String.eqb_spec k "precos_venda"); [contradiction|].
    destruct (String.eqb_spec k "opex_outros_db"); [contradiction|].
    destruct (String.eqb_spec k "opex_db"); [contradiction|].
    destruct (existsb (String.eqb k) legacy_keys);
      destruct (dict_get fields k) as [v0|];
      destruct (dict_get fields "opex_outros_db") as [v1|];
      destruct (dict_get fields "opex_db") as [v2|];
      destruct (dict_get fields "precos_venda") as [v3|];
      destruct (dict_get fields "precos_sku") as [v4|]; settle_nulls.
Qed.

Lemma load_legacy_single_scenario_witness :
  exists base,
    load_db (fun _ => "") (fun _ => Some (JObj [ ("opex_db", JArr [JStr "Aluguel"]) ]))
            (Some [])
    = Ok (JObj [ ("scenarios", JObj [ ("Base", JObj base) ]); ("selected", JStr "Base") ])
    /\ dict_get base "opex_outros_db" = Some (JArr [JStr "Aluguel"])
    /\ dict_get base "opex_db" = None.
Proof.
  destruct (load_legacy_single_scenario
              (fun _ => "") (fun _ => Some (JObj [ ("opex_db", JArr [JStr "Aluguel"]) ]))
              [] [ ("opex_db", JArr [JStr "Aluguel"]) ] eq_refl eq_refl)
    as [base [Hload Hget]].
  exists base. split; [exact Hload|].
  split; rewrite Hget; reflexivity.
Defined.

(** C8 as stated fails: when the document has both [opex_db] and
    [opex_outros_db], the legacy key is not renamed; it stays in the
    scenario next to the current field. *)
Lemma legacy_rename_counterexample :
  exists base,
    load_db (fun _ => "")
            (fun _ => Some (JObj [ ("opex_db", JArr [JNum 1]);
                                   ("opex_outros_db", JArr [JNum 2]) ]))
            (Some [])
    = Ok (JObj [ ("scenarios", JObj [ ("Base", JObj base) ]); ("selected", JStr "Base") ])
    /\ dict_get base "opex_db" = Some (JArr [JNum 1])
    /\ dict_get base "opex_outros_db" = Some (JArr [JNum 2]).
Proof.
  eexists. split; [vm_compute; reflexivity|]. split; reflexivity.
Qed.

(** On a JSON object whose "selected" is hashable, [load_raw] returns a
    store that satisfies the invariant. *)
Lemma load_raw_object_ok (py_str : json -> string) (fields : dict json) :
  match dict_get fields "selected" with
  | Some (JArr _) | Some (JObj _) => False
  | _ => True
  end ->
  exists db, load_raw py_str (JObj fields) = Ok db /\ store_ok db = true.
Proof.
  intro Hsel. unfold load_raw. cbn [py_in bind].
  destruct (dict_mem fields "scenarios") eqn:Hs; cbn [negb].
  - unfold dict_mem in Hs. cbn [py_get bind].
    destruct (dict_get fields "scenarios") as [scen|] eqn:Escen; [|discriminate].
    destruct scen as [| | | |items|scenarios].
    1-4: cbn [bind py_get]; rewrite Escen; eexists; split; reflexivity.
    + cbn [set_item bind py_get].
      rewrite dict_get_set, String.eqb_refl.
      destruct (fold_left (scenario_of_item py_str) (enumerate items) [])
        as [|[k1 v1] rest] eqn:Efold.
      * eexists; split; reflexivity.
      * cbn [py_get bind]. rewrite !dict_get_set.
        change (String.eqb "scenarios" "selected") with false.
        change (String.eqb "scenarios" "scenarios") with true. cbv iota.
        destruct (dict_get fields "selected") as [[| | |s| |]|] eqn:Es;
          try contradiction; cbn [key_in bind negb dict_keys map fst set_item].
        1-3,5: eexists; split; [reflexivity|];
          cbn [store_ok]; rewrite !dict_get_set;
          change (String.eqb "selected" "scenarios") with false;
          change (String.eqb "scenarios" "scenarios") with true;
          change (String.eqb "selected" "selected") with true;
          cbv iota; apply dict_mem_first.
        destruct (dict_mem ((k1, v1) :: rest) s) eqn:Em; cbn [negb set_item].
        -- eexists; split; [reflexivity|].
           cbn [store_ok]. rewrite !dict_get_set.
           change (String.eqb "scenarios" "scenarios") with true.
           change (String.eqb "scenarios" "selected") with false.
           cbv iota. rewrite Es. exact Em.
        -- eexists; split; [reflexivity|].
           cbn [store_ok]. rewrite !dict_get_set.
           change (String.eqb "selected" "scenarios") with false.
           change (String.eqb "scenarios" "scenarios") with true.
           change (String.eqb "selected" "selected") with true.
           cbv iota. apply dict_mem_first.
    + cbn [bind py_get]. rewrite Escen. destruct scenarios as [|[k1 v1] rest].
      * eexists; split; reflexivity.
      * cbn [py_get bind]. rewrite Escen.
        destruct (dict_get fields "selected") as [[| | |s| |]|] eqn:Es;
          try contradiction; cbn [key_in bind negb dict_keys map fst set_item].
        1-3,5: eexists; split; [reflexivity|];
          cbn [store_ok]; rewrite !dict_get_set;
          change (String.eqb "selected" "scenarios") with false;
          change (String.eqb "selected" "selected") with true;
          cbv iota; rewrite Escen; apply dict_mem_first.
        destruct (dict_mem ((k1, v1) :: rest) s) eqn:Em; cbn [negb set_item].
        -- eexists; split; [reflexivity|].
           cbn [store_ok]. rewrite Escen, Es. exact Em.
        -- eexists; split; [reflexivity|].
           cbn [store_ok]. rewrite !dict_get_set.
           change (String.eqb "selected" "scenarios") with false.
           change (String.eqb "selected" "selected") with true.
           cbv iota. rewrite Escen. apply dict_mem_first.
  - rewrite migrate_single_object. eexists; split; reflexivity.
Qed.

(** The fallbacks of [load_db]: a missing or unreadable file gives the
    default store. *)
Lemma load_db_fallback (py_str : json -> string)
  (json_load : list Byte.byte -> option json) (bytes : list Byte.byte) :
  load_db py_str json_load None = Ok _empty_db
  /\ (json_load bytes = None -> load_db py_str json_load (Some bytes) = Ok _empty_db)
  /\ store_ok _empty_db = true.
Proof.
  split; [reflexivity|]. split; [|reflexivity].
  intro H. unfold load_db. now rewrite H.
Qed.

(** C9 fails on the code: a document that is well-formed JSON but a bare
    number is read by [json.load] and then [load_db] raises on the first
    membership test instead of returning a store. *)
Theorem load_db_scalar_document_raises
  (py_str : json -> string) (json_load : list Byte.byte -> option json)
  (bytes : list Byte.byte) (q : Q) :
  json_load bytes = Some (JNum q) ->
  load_db py_str json_load (Some bytes) = Raise TypeError.
Proof.
  intro H. unfold load_db. rewrite H. reflexivity.
Qed.

Lemma load_db_scalar_document_raises_witness :
  load_db (fun _ => "") (fun _ => Some (JNum 5)) (Some [x35]) = Raise TypeError.
Proof.
  apply (load_db_scalar_document_raises (fun _ => "") (fun _ => Some (JNum 5)) [x35] 5).
  reflexivity.
Defined.

End StoreFacts.

(* ================================================================= *)
(** ** Spreadsheet export and import *)

Module ExcelFacts.

Import Excel RoundTrip.

Lemma for_each_app {A S : Type} (body : S -> A -> outcome S) (l1 l2 : list A) (acc : S) :
  for_each body (l1 ++ l2) acc = bind (for_each body l1 acc) (for_each body l2).
Proof.
  revert acc. induction l1 as [|x l1 IH]; intro acc; simpl; [reflexivity|].
  destruct (body acc x); simpl; [apply IH|reflexivity].
Qed.

Lemma after_sep_no_colon (c : ascii) (rest : string) :
  Ascii.eqb c ":" = false -> after_sep (String c rest) = None.
Proof.
  intro H. unfold after_sep. destruct rest; [reflexivity|]. now rewrite H.
Qed.

Lemma split_key_no_colon (k : string) : no_colon k = true -> split_key k = None.
Proof.
  induction k as [|c k IH]; simpl; [reflexivity|].
  intro H. apply andb_true_iff in H. destruct H as [Hc Hk].
  apply negb_true_iff in Hc.
  change (match after_sep (String c k) with
          | Some sub => Some (EmptyString, sub)
          | None => match split_key k with
                    | Some (base, sub) => Some (String c base, sub)
                    | None => None
                    end
          end = None).
  rewrite (after_sep_no_colon c k Hc). now rewrite IH.
Qed.

(** A flattened key splits back into its two halves. *)
Lemma split_key_flat (k kk : string) :
  no_colon k = true -> split_key (k ++ "::" ++ kk)%string = Some (k, kk).
Proof.
  induction k as [|c k IH]; intro H.
  - reflexivity.
  - simpl in H. apply andb_true_iff in H. destruct H as [Hc Hk].
    apply negb_true_iff in Hc.
    change (match after_sep (String c (k ++ "::" ++ kk)) with
            | Some sub => Some (EmptyString, sub)
            | None => match split_key (k ++ "::" ++ kk)%string with
                      | Some (base, sub) => Some (String c base, sub)
                      | None => None
                      end
            end = Some (String c k, kk)).
    rewrite (after_sep_no_colon c _ Hc). now rewrite (IH Hk).
Qed.

Lemma dict_mem_app {V : Type} (d1 d2 : dict V) (k : string) :
  dict_mem (d1 ++ d2) k = dict_mem d1 k || dict_mem d2 k.
Proof.
  unfold dict_mem. induction d1 as [|[k0 v0] d1 IH]; simpl; [reflexivity|].
  destruct (String.eqb k0 k); [reflexivity|exact IH].
Qed.

Lemma unique_keys_app {V : Type} (d1 d2 : dict V) :
  unique_keys (d1 ++ d2) = true ->
  unique_keys d1 = true /\ unique_keys d2 = true
  /\ forall k, dict_mem d2 k = true -> dict_mem d1 k = false.
Proof.
  induction d1 as [|[k0 v0] d1 IH]; simpl; intro H.
  - repeat split; auto.
  - apply andb_true_iff in H. destruct H as [Hk H].
    apply negb_true_iff in Hk. rewrite dict_mem_app in Hk.
    apply orb_false_iff in Hk. destruct Hk as [Hk1 Hk2].
    destruct (IH H) as [U1 [U2 Hd]].
    rewrite Hk1. repeat split; auto.
    intros k Hm. unfold dict_mem. simpl.
    destruct (String.eqb_spec k0 k) as [->|_]; [congruence|].
    apply (Hd k Hm).
Qed.

Lemma unique_keys_mid {V : Type} (d1 d2 : dict V) (k : string) (v : V) :
  unique_keys (d1 ++ (k, v) :: d2) = true -> dict_mem d1 k = false.
Proof.
  intro H. destruct (unique_keys_app _ _ H) as [_ [_ Hd]].
  apply Hd. apply dict_mem_first.
Qed.

Lemma dict_set_fresh {V : Type} (d : dict V) (k : string) (v : V) :
  dict_mem d k = false -> dict_set d k v = d ++ [(k, v)].
Proof.
  unfold dict_mem. induction d as [|[k0 v0] d IH]; simpl; intro H; [reflexivity|].
  destruct (String.eqb k0 k); [discriminate|]. now rewrite IH.
Qed.

Lemma dict_set_last {V : Type} (d : dict V) (k : string) (x y : V) :
  dict_mem d k = false -> dict_set (d ++ [(k, x)]) k y = d ++ [(k, y)].
Proof.
  unfold dict_mem. induction d as [|[k0 v0] d IH]; simpl; intro H.
  - now rewrite String.eqb_refl.
  - destruct (String.eqb k0 k); [discriminate|]. now rewrite IH.
Qed.

Lemma dict_get_last {V : Type} (d : dict V) (k : string) (x : V) :
  dict_mem d k = false -> dict_get (d ++ [(k, x)]) k = Some x.
Proof.
  unfold dict_mem. induction d as [|[k0 v0] d IH]; simpl; intro H.
  - now rewrite String.eqb_refl.
  - destruct (String.eqb k0 k); [discriminate|]. now apply IH.
Qed.

Lemma dict_get_fresh {V : Type} (d : dict V) (k : string) :
  dict_mem d k = false -> dict_get d k = None.
Proof.
  unfold dict_mem. destruct (dict_get d k); [discriminate|reflexivity].
Qed.

Lemma dict_set_same {V : Type} (d : dict V) (k : string) (v : V) :
  dict_get d k = Some v -> dict_set d k v = d.
Proof.
  induction d as [|[k0 v0] d IH]; simpl; [discriminate|].
  destruct (String.eqb_spec k0 k) as [->|_].
  - intro H. now inversion H.
  - intro H. now rewrite IH.
Qed.

(** The rows of one nested dict, read after the rows before them. *)
Lemma nested_rows_read (k : string) (done : dict json) (inner_rest inner_done : dict json) :
  no_colon k = true -> dict_mem done k = false ->
  unique_keys (inner_done ++ inner_rest) = true ->
  for_each kv_step
    (map (fun e => ((k ++ "::" ++ fst e)%string, snd e)) inner_rest)
    (done ++ [(k, JObj inner_done)])
  = Ok (done ++ [(k, JObj (inner_done ++ inner_rest))]).
Proof.
  intros Hk Hdone. revert inner_done.
  induction inner_rest as [|[kk v] inner_rest IH]; intros inner_done Hu;
    cbn [map for_each fst snd].
  - now rewrite app_nil_r.
  - unfold kv_step at 1. rewrite (split_key_flat k kk Hk).
    rewrite (dict_get_last done k _ Hdone).
    rewrite (dict_set_last done k _ _ Hdone).
    rewrite (dict_set_fresh inner_done kk v (unique_keys_mid _ _ _ _ Hu)).
    cbn [bind]. rewrite IH.
    + now rewrite <- app_assoc.
    + now rewrite <- app_assoc.
Qed.

(** Reading the flattened rows of a valid mix gives the mix back. *)
Lemma mix_rows_read (rest done : dict json) :
  unique_keys (done ++ rest) = true ->
  forallb valid_mix_entry rest = true ->
  for_each kv_step (mix_rows rest) done = Ok (done ++ rest).
Proof.
  revert done. induction rest as [|[k v] rest IH]; intros done Hu Hv.
  - simpl. now rewrite app_nil_r.
  - cbn [forallb] in Hv. apply andb_true_iff in Hv. destruct Hv as [He Hv].
    unfold valid_mix_entry in He. cbn [fst snd] in He.
    apply andb_true_iff in He. destruct He as [Hk Hin].
    pose proof (unique_keys_mid _ _ _ _ Hu) as Hfresh.
    assert (Hu' : unique_keys ((done ++ [(k, v)]) ++ rest) = true)
      by now rewrite <- app_assoc.
    assert (Hscalar :
              for_each kv_step ((k, v) :: mix_rows rest) done = Ok (done ++ (k, v) :: rest)).
    { cbn [for_each]. unfold kv_step at 1. rewrite (split_key_no_colon k Hk).
      cbn [bind]. rewrite (dict_set_fresh done k v Hfresh).
      rewrite (IH _ Hu' Hv). now rewrite <- app_assoc. }
    destruct v as [| | | | |inner]; try exact Hscalar.
    unfold mix_rows. cbn [flat_map fst snd]. fold (mix_rows rest).
    rewrite for_each_app.
    destruct inner as [|[kk w] inner]; [discriminate|].
    apply andb_true_iff in Hin. destruct Hin as [_ Hui].
    cbn [map for_each fst snd]. unfold kv_step at 1.
    rewrite (split_key_flat k kk Hk).
    rewrite (dict_get_fresh done k Hfresh).
    rewrite (dict_set_fresh done k _ Hfresh).
    change (dict_set [] kk w) with ([] ++ [(kk, w)]).
    cbn [bind app].
    rewrite (nested_rows_read k done inner [(kk, w)] Hk Hfresh Hui).
    cbn [bind app]. rewrite (IH _ Hu' Hv). now rewrite <- app_assoc.
Qed.

(** Reading the rows of a valid key/value dict gives the dict back. *)
Lemma kv_rows_read (rest done : dict json) :
  unique_keys (done ++ rest) = true ->
  forallb (fun kv => no_colon (fst kv)) rest = true ->
  for_each kv_step rest done = Ok (done ++ rest).
Proof.
  revert done. induction rest as [|[k v] rest IH]; intros done Hu Hv.
  - simpl. now rewrite app_nil_r.
  - cbn [forallb fst] in Hv. apply andb_true_iff in Hv. destruct Hv as [Hk Hv].
    cbn [for_each]. unfold kv_step at 1. rewrite (split_key_no_colon k Hk).
    cbn [bind]. rewrite (dict_set_fresh done k v (unique_keys_mid _ _ _ _ Hu)).
    rewrite IH; [now rewrite <- app_assoc| now rewrite <- app_assoc|exact Hv].
Qed.

Lemma dict_or_non_empty {V : Type} (x y : dict V) :
  non_empty x = true -> dict_or x y = x.
Proof. destruct x; [discriminate|reflexivity]. Qed.

Lemma float_dist_numbers (float_of_str : string -> option Q) (m : dict json) :
  match dict_get m DIST with
  | Some (JObj inner) => forallb (fun e => is_number (snd e)) inner
  | _ => true
  end = true ->
  float_dist float_of_str m = Ok m.
Proof.
  unfold float_dist, DIST. intro H.
  destruct (dict_get m "Distribuição Embalado (%)") as [v|] eqn:E; [|reflexivity].
  destruct v as [| | | | |inner]; try reflexivity.
  rewrite (comprehension_ok _ (fun kv => kv) inner).
  - cbn [bind]. rewrite map_id. now rewrite (dict_set_same m _ _ E).
  - intros [k v] Hin. rewrite forallb_forall in H. specialize (H _ Hin).
    cbn [snd fst] in *. destruct v; try discriminate. reflexivity.
Qed.

Lemma clean_func_valid (rows : list func_row) :
  forallb valid_func rows = true -> map clean_func rows = rows.
Proof.
  induction rows as [|r rows IH]; simpl; intro H; [reflexivity|].
  apply andb_true_iff in H. destruct H as [Hr H].
  rewrite (IH H). f_equal.
  unfold valid_func in Hr. apply String.eqb_eq in Hr.
  destruct r. unfold clean_func. cbn in *. now rewrite Hr.
Qed.

Lemma recompute_total_twice (rows : list detail_row) :
  map recompute_total (map recompute_total rows) = map recompute_total rows.
Proof. rewrite map_map. reflexivity. Qed.

Lemma sheet_or_restores {A : Type} (table current : list A) :
  restores table current -> sheet_or table current = table.
Proof.
  intros [H|H]; destruct table; try reflexivity; try contradiction.
  exact H.
Qed.

Lemma sheet_or_lines (rows current : list detail_row) :
  restores rows current ->
  map recompute_total (sheet_or (map recompute_total rows) current)
  = map recompute_total rows.
Proof.
  intros [H|H]; destruct rows as [|r rows]; try contradiction.
  - cbn [map sheet_or]. now rewrite map_map.
  - simpl. now rewrite H.
  - cbn [map sheet_or]. now rewrite map_map.
Qed.




End ExcelFacts.

(* ================================================================= *)
(** * Further properties of the engine *)

(** ** Payroll *)

Module PayrollFacts.

Import Payroll.

Lemma Qle_sum_map {A : Type} (f g : A -> Q) (l : list A) :
  (forall x, In x l -> f x <= g x) -> py_sum (map f l) <= py_sum (map g l).
Proof.
  induction l as [|x l IH]; intro H; simpl.
  - apply Qle_refl.
  - rewrite !py_sum_cons. apply Qplus_le_compat.
    + apply H. now left.
    + apply IH. intros y Hy. apply H. now right.
Qed.

Lemma folha_total_sum (upper_strip : string -> string) (func_df : list func_row) :
  folha_total upper_strip func_df = py_sum (map (custo_mensal upper_strip) func_df).
Proof.
  unfold folha_total, calc_folha_mensal.
  destruct func_df as [|r l]; [reflexivity|].
  cbn [map]. rewrite map_map. reflexivity.
Qed.

Lemma custo_mensal_pj (upper_strip : string -> string) (r : func_row) :
  upper_strip (func_Modalidade r) = "PJ" ->
  custo_mensal upper_strip r == func_Salario_Bruto r.
Proof.
  intro Hm. unfold custo_mensal. rewrite Hm. cbn. apply py_or_zero.
Qed.

Lemma custo_mensal_clt (upper_strip : string -> string) (r : func_row) :
  upper_strip (func_Modalidade r) <> "PJ" ->
  custo_mensal upper_strip r
  == func_Salario_Bruto r * (1 + func_Encargos_CLT r / 100)
     + (if func_Considerar_13 r then func_Salario_Bruto r / 12 else 0)
     + (if func_Considerar_Ferias r then func_Salario_Bruto r / 9 else 0).
Proof.
  intro Hm. unfold custo_mensal. apply String.eqb_neq in Hm. rewrite Hm.
  pose proof (py_or_zero (func_Salario_Bruto r)) as Hs.
  pose proof (py_or_zero (func_Encargos_CLT r)) as He.
  destruct (func_Considerar_13 r), (func_Considerar_Ferias r);
    cbv zeta; rewrite Hs, He; field.
Qed.

Lemma custo_mensal_bounds (upper_strip : string -> string) (r : func_row) :
  0 <= func_Salario_Bruto r -> 0 <= func_Encargos_CLT r ->
  func_Salario_Bruto r <= custo_mensal upper_strip r
  /\ custo_mensal upper_strip r
     <= func_Salario_Bruto r * (1 + func_Encargos_CLT r / 100 + 7 / 36).
Proof.
  set (sal := func_Salario_Bruto r). set (enc := func_Encargos_CLT r).
  intros H0 H1.
  assert (He100 : 0 <= sal * (enc / 100)).
  { apply Qmult_le_0_compat; [exact H0|].
    apply Qle_shift_div_l; [reflexivity|]. now rewrite Qmult_0_l. }
  assert (H12 : 0 <= sal / 12)
    by (apply Qle_shift_div_l; [reflexivity|]; now rewrite Qmult_0_l).
  assert (H9 : 0 <= sal / 9)
    by (apply Qle_shift_div_l; [reflexivity|]; now rewrite Qmult_0_l).
  destruct (string_dec (upper_strip (func_Modalidade r)) "PJ") as [Hm|Hm].
  - rewrite (custo_mensal_pj upper_strip r Hm). fold sal.
    split; [apply Qle_refl|].
    setoid_replace (sal * (1 + enc / 100 + 7 / 36))
      with (sal + (sal * (enc / 100) + (sal / 12 + sal / 9))) by field.
    setoid_replace sal with (sal + 0) at 1 by ring.
    apply Qplus_le_compat; [apply Qle_refl|].
    setoid_replace 0 with (0 + (0 + 0)) by ring.
    repeat apply Qplus_le_compat; assumption.
  - rewrite (custo_mensal_clt upper_strip r Hm). fold sal enc. split.
    + setoid_replace sal with (sal + 0 + 0 + 0) at 1 by ring.
      setoid_replace (sal * (1 + enc / 100)) with (sal + sal * (enc / 100)) by ring.
      repeat apply Qplus_le_compat; try assumption; try apply Qle_refl.
      * destruct (func_Considerar_13 r); [exact H12|apply Qle_refl].
      * destruct (func_Considerar_Ferias r); [exact H9|apply Qle_refl].
    + setoid_replace (sal * (1 + enc / 100 + 7 / 36))
        with (sal * (1 + enc / 100) + sal / 12 + sal / 9) by field.
      repeat apply Qplus_le_compat; try apply Qle_refl.
      * destruct (func_Considerar_13 r); [apply Qle_refl|exact H12].
      * destruct (func_Considerar_Ferias r); [apply Qle_refl|exact H9].
Qed.

(** The monthly cost of one employee.  A contractor ("PJ") costs the gross
    pay, whatever the burden and the flags; a salaried employee costs
    gross pay times (1 + burden/100), plus 1/12 of it for the 13th month
    and 1/9 of it for vacation when the flags are set.  With gross pay and
    burden not negative the cost lies between the gross pay and gross pay
    times (1 + burden/100 + 7/36). *)
Theorem custo_mensal_spec (upper_strip : string -> string) (r : func_row) :
  let sal := func_Salario_Bruto r in
  let enc := func_Encargos_CLT r in
  (upper_strip (func_Modalidade r) = "PJ" -> custo_mensal upper_strip r == sal)
  /\ (upper_strip (func_Modalidade r) <> "PJ" ->
        custo_mensal upper_strip r
        == sal * (1 + enc / 100)
           + (if func_Considerar_13 r then sal / 12 else 0)
           + (if func_Considerar_Ferias r then sal / 9 else 0))
  /\ (0 <= sal -> 0 <= enc ->
        sal <= custo_mensal upper_strip r
        /\ custo_mensal upper_strip r <= sal * (1 + enc / 100 + 7 / 36)).
Proof.
  intros sal enc. split; [apply custo_mensal_pj|].
  split; [apply custo_mensal_clt|apply custo_mensal_bounds].
Qed.

Lemma custo_mensal_spec_witness :
  custo_mensal (fun s => s) (mk_func "Vendas (PJ)" "PJ" 2200 70 true true) == 2200
  /\ custo_mensal (fun s => s) (mk_func "Cervejeiro(a)" "CLT" 4500 70 true true)
     == 4500 * (1 + 70 / 100) + 4500 / 12 + 4500 / 9
  /\ 4500 <= custo_mensal (fun s => s) (mk_func "Cervejeiro(a)" "CLT" 4500 70 true true).
Proof.
  destruct (custo_mensal_spec (fun s => s) (mk_func "Vendas (PJ)" "PJ" 2200 70 true true))
    as [Hpj _].
  destruct (custo_mensal_spec (fun s => s)
              (mk_func "Cervejeiro(a)" "CLT" 4500 70 true true)) as [_ [Hclt Hb]].
  split; [apply Hpj; reflexivity|].
  split; [apply Hclt; discriminate|].
  apply Hb; discriminate.
Defined.

(** The payroll total is the sum of the employees' costs, and with gross
    pays and burdens not negative it is never below the gross payroll. *)
Theorem folha_total_at_least_gross (upper_strip : string -> string)
  (func_df : list func_row) :
  Forall (fun r => 0 <= func_Salario_Bruto r /\ 0 <= func_Encargos_CLT r) func_df ->
  folha_total upper_strip func_df == py_sum (map (custo_mensal upper_strip) func_df)
  /\ py_sum (map func_Salario_Bruto func_df) <= folha_total upper_strip func_df.
Proof.
  intro H. rewrite folha_total_sum. split; [reflexivity|].
  apply Qle_sum_map. intros r Hr.
  rewrite Forall_forall in H. destruct (H r Hr) as [H0 H1].
  exact (proj1 (custo_mensal_bounds upper_strip r H0 H1)).
Qed.

Lemma folha_total_at_least_gross_witness :
  py_sum (map func_Salario_Bruto (funcionarios_db default_scenario))
  <= folha_total (fun s => s) (funcionarios_db default_scenario).
Proof.
  apply (folha_total_at_least_gross (fun s => s) (funcionarios_db default_scenario)).
  repeat constructor; discriminate.
Defined.

End PayrollFacts.

(* ================================================================= *)
(** ** Editing the tables *)

Module TablesFacts.

Import Tables Dre DreFacts.

Lemma get_price_app (df extra : list price_row) (sku canal : string) :
  get_price (df ++ extra) sku canal
  = match filter (fun r => String.eqb (SKU r) sku && String.eqb (Canal r) canal) df with
    | [] => get_price extra sku canal
    | r :: _ => Preco_Unit r
    end.
Proof.
  unfold get_price. rewrite filter_app.
  now destruct (filter (fun r => String.eqb (SKU r) sku && String.eqb (Canal r) canal) df).
Qed.

Lemma ensure_sku_price (df : list price_row) (req : string * string) (sku canal : string) :
  get_price (ensure_sku df req) sku canal = get_price df sku canal.
Proof.
  unfold ensure_sku.
  destruct (filter (fun r => String.eqb (SKU r) (fst req) && String.eqb (Canal r) (snd req)) df);
    [|reflexivity].
  rewrite get_price_app. unfold get_price.
  destruct (filter (fun r => String.eqb (SKU r) sku && String.eqb (Canal r) canal) df);
    [|reflexivity].
  simpl. now destruct (String.eqb (fst req) sku && String.eqb (snd req) canal).
Qed.

Lemma has_price_row_filter (df : list price_row) (req : string * string) :
  has_price_row df req = true
  <-> filter (fun r => String.eqb (SKU r) (fst req) && String.eqb (Canal r) (snd req)) df <> [].
Proof.
  unfold has_price_row. induction df as [|r df IH]; simpl.
  - split; [discriminate|congruence].
  - destruct (String.eqb (SKU r) (fst req) && String.eqb (Canal r) (snd req)); simpl.
    + split; [discriminate|reflexivity].
    + exact IH.
Qed.

Lemma ensure_sku_present (df : list price_row) (req : string * string) :
  has_price_row df req = true -> ensure_sku df req = df.
Proof.
  intro H. apply has_price_row_filter in H. unfold ensure_sku.
  destruct (filter (fun r => String.eqb (SKU r) (fst req) && String.eqb (Canal r) (snd req)) df);
    [contradiction|reflexivity].
Qed.

Lemma ensure_sku_adds (df : list price_row) (req : string * string) :
  has_price_row (ensure_sku df req) req = true.
Proof.
  destruct (has_price_row df req) eqn:E.
  - now rewrite (ensure_sku_present df req E).
  - unfold ensure_sku.
    destruct (filter (fun r => String.eqb (SKU r) (fst req) && String.eqb (Canal r) (snd req)) df)
      eqn:Ef.
    + unfold has_price_row. rewrite existsb_app. simpl.
      rewrite !String.eqb_refl. simpl. now rewrite orb_true_r.
    + assert (H : has_price_row df req = true)
        by (apply has_price_row_filter; rewrite Ef; discriminate).
      congruence.
Qed.

Lemma ensure_sku_keeps (df : list price_row) (req q : string * string) :
  has_price_row df q = true -> has_price_row (ensure_sku df req) q = true.
Proof.
  intro H. unfold ensure_sku.
  destruct (filter (fun r => String.eqb (SKU r) (fst req) && String.eqb (Canal r) (snd req)) df);
    [|exact H].
  unfold has_price_row in *. rewrite existsb_app, H. reflexivity.
Qed.

Lemma ensure_fold_present (reqs : list (string * string)) (df : list price_row)
  (q : string * string) :
  In q reqs \/ has_price_row df q = true ->
  has_price_row (fold_left ensure_sku reqs df) q = true.
Proof.
  revert df. induction reqs as [|req reqs IH]; intros df H; simpl.
  - destruct H as [[]|H]. exact H.
  - apply IH. destruct H as [[->|H]|H].
    + right. apply ensure_sku_adds.
    + now left.
    + right. now apply ensure_sku_keeps.
Qed.

Lemma ensure_fold_prefix (reqs : list (string * string)) (df : list price_row) :
  exists added,
    fold_left ensure_sku reqs df = df ++ added
    /\ Forall (fun r => Preco_Unit r = 0 /\ In (SKU r, Canal r) reqs) added.
Proof.
  revert df. induction reqs as [|req reqs IH]; intro df; simpl.
  - exists []. split; [now rewrite app_nil_r|constructor].
  - destruct (IH (ensure_sku df req)) as [added [E F]].
    unfold ensure_sku in E |- *.
    destruct (filter (fun r => String.eqb (SKU r) (fst req) && String.eqb (Canal r) (snd req)) df).
    + exists (mk_price (fst req) (snd req) 0 :: added). split.
      * rewrite E, <- app_assoc. reflexivity.
      * constructor.
        -- split; [reflexivity|]. left. now destruct req.
        -- eapply Forall_impl; [|exact F]. intros r [H1 H2]. split; [exact H1|now right].
    + exists added. split; [exact E|].
      eapply Forall_impl; [|exact F]. intros r [H1 H2]. split; [exact H1|now right].
Qed.

Lemma ensure_fold_identity (reqs : list (string * string)) (df : list price_row) :
  (forall q, In q reqs -> has_price_row df q = true) ->
  fold_left ensure_sku reqs df = df.
Proof.
  induction reqs as [|req reqs IH]; intro H; simpl; [reflexivity|].
  rewrite (ensure_sku_present df req (H req (or_introl eq_refl))).
  apply IH. intros q Hq. apply H. now right.
Qed.

(** The price tab's loop over the required SKUs: afterwards each required
    (SKU, channel) pair has a price row; the rows that were there are kept
    in place and the added ones carry price 0, so no price lookup changes;
    running the loop again changes nothing. *)
Theorem ensure_required_skus_spec (precos_df : list price_row) :
  (forall req, In req SKUS_REQUIRED ->
     exists r, In r (ensure_required_skus precos_df)
               /\ SKU r = fst req /\ Canal r = snd req)
  /\ (exists added,
        ensure_required_skus precos_df = precos_df ++ added
        /\ Forall (fun r => Preco_Unit r = 0 /\ In (SKU r, Canal r) SKUS_REQUIRED) added)
  /\ (forall sku canal,
        get_price (ensure_required_skus precos_df) sku canal
        = get_price precos_df sku canal)
  /\ ensure_required_skus (ensure_required_skus precos_df)
     = ensure_required_skus precos_df.
Proof.
  unfold ensure_required_skus. split; [|split; [|split]].
  - intros req Hin.
    pose proof (ensure_fold_present SKUS_REQUIRED precos_df req (or_introl Hin)) as H.
    unfold has_price_row in H. apply existsb_exists in H.
    destruct H as [r [Hr Hm]]. apply andb_true_iff in Hm. destruct Hm as [H1 H2].
    apply String.eqb_eq in H1, H2. eauto.
  - apply ensure_fold_prefix.
  - intros sku canal. generalize precos_df.
    induction SKUS_REQUIRED as [|req reqs IH]; intro df; simpl; [reflexivity|].
    rewrite IH. apply ensure_sku_price.
  - apply ensure_fold_identity. intros q Hq.
    apply ensure_fold_present. now left.
Qed.

Lemma get_pack_cost_app (df extra : list pack_row) (name : string) :
  get_pack_cost (df ++ extra) name
  = match filter (fun r => String.eqb (Embalagem r) name) df with
    | [] => get_pack_cost extra name
    | r :: _ => (Volume_L r, Custo_Unit_RS r)
    end.
Proof.
  unfold get_pack_cost. rewrite filter_app.
  now destruct (filter (fun r => String.eqb (Embalagem r) name) df).
Qed.

Lemma filter_none_existsb {A : Type} (p : A -> bool) (l : list A) :
  existsb p l = false -> filter p l = [].
Proof.
  induction l as [|x l IH]; simpl; [reflexivity|].
  destruct (p x); simpl; [discriminate|exact IH].
Qed.

Lemma set_copo_cup (emb_df : list pack_row) (copo_vol_ml : Z) (copo_custo : Q) :
  get_pack_cost (set_copo emb_df copo_vol_ml copo_custo) "Copo Taproom"
  = (inject_Z copo_vol_ml / 1000, copo_custo).
Proof.
  unfold set_copo.
  destruct (existsb (fun r => String.eqb (Embalagem r) "Copo Taproom") emb_df) eqn:E.
  - unfold get_pack_cost. induction emb_df as [|r l IH]; [discriminate|].
    simpl in E |- *. destruct (String.eqb (Embalagem r) "Copo Taproom") eqn:Er; simpl.
    + rewrite Er. reflexivity.
    + rewrite Er. apply IH. exact E.
  - rewrite get_pack_cost_app, (filter_none_existsb _ _ E).
    unfold get_pack_cost. simpl. reflexivity.
Qed.

Lemma set_copo_other (emb_df : list pack_row) (copo_vol_ml : Z) (copo_custo : Q)
  (name : string) :
  name <> "Copo Taproom" ->
  get_pack_cost (set_copo emb_df copo_vol_ml copo_custo) name = get_pack_cost emb_df name.
Proof.
  intro Hn. unfold set_copo.
  destruct (existsb (fun r => String.eqb (Embalagem r) "Copo Taproom") emb_df).
  - unfold get_pack_cost. induction emb_df as [|r l IH]; [reflexivity|].
    simpl. destruct (String.eqb_spec (Embalagem r) "Copo Taproom") as [Er|Er]; simpl.
    + rewrite Er. destruct (String.eqb_spec "Copo Taproom" name); [congruence|exact IH].
    + destruct (String.eqb (Embalagem r) name); [reflexivity|exact IH].
  - rewrite get_pack_cost_app. unfold get_pack_cost.
    cbn [filter mk_pack Embalagem].
    destruct (String.eqb_spec "Copo Taproom" name); [congruence|].
    now destruct (filter (fun r => String.eqb (Embalagem r) name) emb_df).
Qed.

(** What the packaging tab writes for the cup is what the P&L reads: after
    it the lookup of "Copo Taproom" gives the chosen volume and cost, every
    other packaging type is looked up as before, and with a positive
    volume the Taproom cups are the Taproom liters divided by that volume,
    never the default and never zero by the guard. *)
Theorem set_copo_spec (emb_df : list pack_row) (copo_vol_ml : Z) (copo_custo : Q) :
  get_pack_cost (set_copo emb_df copo_vol_ml copo_custo) "Copo Taproom"
  = (inject_Z copo_vol_ml / 1000, copo_custo)
  /\ (forall name, name <> "Copo Taproom" ->
        get_pack_cost (set_copo emb_df copo_vol_ml copo_custo) name
        = get_pack_cost emb_df name)
  /\ ((0 < copo_vol_ml)%Z ->
      forall volume_mes_l mix_taproom mix_varejo_chope mix_varejo_emb dist_emb_percent
             receita_base_nome receitas_header_df receitas_det_df precos_df prem,
      exists r,
        compute_monthly_dre volume_mes_l mix_taproom mix_varejo_chope mix_varejo_emb
          dist_emb_percent receita_base_nome receitas_header_df receitas_det_df
          (set_copo emb_df copo_vol_ml copo_custo) precos_df prem = Ok r
        /\ taproom_copos r
           = clamp_volume volume_mes_l * (mix_taproom / 100) / (inject_Z copo_vol_ml / 1000)
        /\ custo_copos r = taproom_copos r * copo_custo).
Proof.
  split; [apply set_copo_cup|]. split; [intros; now apply set_copo_other|].
  intros Hml v mt mc me dist name hdr det precos prem.
  destruct (compute_monthly_dre_unfold v mt mc me dist name hdr det
              (set_copo emb_df copo_vol_ml copo_custo) precos prem)
    as [c [cups [dist_emb [totals [_ [Hcups [_ [_ Hr]]]]]]]].
  cbv zeta in Hr. rewrite set_copo_cup in Hr, Hcups. cbn [fst snd] in Hr, Hcups.
  assert (Hpos : 0 < inject_Z copo_vol_ml / 1000).
  { apply Qlt_shift_div_l; [reflexivity|]. rewrite Qmult_0_l.
    unfold Qlt. simpl. lia. }
  assert (Hne : ~ inject_Z copo_vol_ml / 1000 == 0).
  { intro Hz. rewrite Hz in Hpos. exact (Qlt_irrefl 0 Hpos). }
  unfold cup_volume in Hcups. rewrite (py_or_nonzero _ _ Hne) in Hcups.
  unfold cup_count in Hcups. apply Qlt_bool_iff in Hpos. rewrite Hpos in Hcups.
  rewrite (py_div_ok _ _ Hne) in Hcups. inversion Hcups; subst cups.
  eexists. split; [exact Hr|]. split; reflexivity.
Qed.

Lemma set_copo_spec_witness :
  exists r,
    compute_monthly_dre 2000 30 25 45 [] None []
      {| has_Custo_Total := true; det_rows := [] |}
      (set_copo [mk_pack "Lata 473ml" 0.473 1.60] 400 0.25) [] [] = Ok r
    /\ taproom_copos r = clamp_volume 2000 * (30 / 100) / (inject_Z 400 / 1000).
Proof.
  destruct (set_copo_spec [mk_pack "Lata 473ml" 0.473 1.60] 400 0.25) as [_ [_ H]].
  destruct (H ltac:(reflexivity) 2000 30 25 45 [] None []
              {| has_Custo_Total := true; det_rows := [] |} [] [])
    as [r [Hr [Hc _]]].
  exists r. split; assumption.
Defined.

Lemma filter_twice {A : Type} (p : A -> bool) (l : list A) :
  filter p (filter p l) = filter p l.
Proof.
  induction l as [|x l IH]; simpl; [reflexivity|].
  destruct (p x) eqn:E; simpl; [rewrite E; now rewrite IH|exact IH].
Qed.

Lemma filter_own_keys {A : Type} (key : A -> string) (rows : list A) (l : list A) :
  incl l rows ->
  filter (fun r => negb (existsb (String.eqb (key r)) (map key rows))) l = [].
Proof.
  induction l as [|x l IH]; intro H; simpl; [reflexivity|].
  assert (E : existsb (String.eqb (key x)) (map key rows) = true).
  { apply existsb_exists. exists (key x). split; [|apply String.eqb_refl].
    apply in_map. apply H. now left. }
  rewrite E. simpl. apply IH. intros y Hy. apply H. now right.
Qed.

(** Merging an edited, filtered view back into the full table: the edited
    rows come last, the rows of the full table are kept exactly when no
    edited row has their key, an empty view leaves the table as it is (no
    row is deleted through it), and merging the same view twice is the
    same as merging it once. *)
Theorem merge_filtered_spec {A : Type} (key : A -> string) (full_df filtered_df : list A) :
  _merge_filtered key [] filtered_df = filtered_df
  /\ _merge_filtered key full_df [] = full_df
  /\ (full_df <> [] -> filtered_df <> [] ->
        _merge_filtered key full_df filtered_df
        = filter (fun r => negb (existsb (String.eqb (key r)) (map key filtered_df))) full_df
          ++ filtered_df
        /\ forall x, In x (_merge_filtered key full_df filtered_df)
                     <-> In x filtered_df
                         \/ (In x full_df /\ ~ In (key x) (map key filtered_df)))
  /\ _merge_filtered key (_merge_filtered key full_df filtered_df) filtered_df
     = _merge_filtered key full_df filtered_df.
Proof.
  split; [reflexivity|]. split; [now destruct full_df|]. split.
  - intros Hf Hv.
    assert (E : _merge_filtered key full_df filtered_df
                = filter (fun r => negb (existsb (String.eqb (key r)) (map key filtered_df)))
                         full_df ++ filtered_df).
    { destruct full_df; [contradiction|]. destruct filtered_df; [contradiction|]. reflexivity. }
    split; [exact E|]. intro x. rewrite E, in_app_iff, filter_In, negb_true_iff.
    split.
    + intros [[Hx Hk]|Hx]; [right|now left]. split; [exact Hx|].
      intro Hin. assert (Ht : existsb (String.eqb (key x)) (map key filtered_df) = true).
      { apply existsb_exists. exists (key x). split; [exact Hin|apply String.eqb_refl]. }
      congruence.
    + intros [Hx|[Hx Hk]]; [now right|left]. split; [exact Hx|].
      destruct (existsb (String.eqb (key x)) (map key filtered_df)) eqn:Ek; [|reflexivity].
      apply existsb_exists in Ek. destruct Ek as [k [Hin Ek]].
      apply String.eqb_eq in Ek. subst k. contradiction.
  - destruct filtered_df as [|v vs]; [now destruct full_df|].
    destruct full_df as [|f fs].
    + cbn [_merge_filtered].
      rewrite (filter_own_keys key (v :: vs) (v :: vs) (incl_refl _)). reflexivity.
    + cbn [_merge_filtered].
      set (p := fun r => negb (existsb (String.eqb (key r)) (map key (v :: vs)))).
      assert (Hm : forall l, l <> [] ->
                 _merge_filtered key l (v :: vs) = filter p l ++ v :: vs)
        by (intros [|m ms] Hl; [contradiction|reflexivity]).
      rewrite Hm by (destruct (filter p (f :: fs)); discriminate).
      rewrite filter_app, filter_twice.
      subst p. rewrite (filter_own_keys key (v :: vs) (v :: vs) (incl_refl _)).
      now rewrite app_nil_r.
Qed.

Lemma merge_filtered_spec_witness :
  _merge_filtered capex_key
    [mk_capex "Frio" "Chiller" 18500 "Pendente"; mk_capex "Envase" "Envasadora" 3500 "Comprado"]
    [mk_capex "Frio" "Chiller" 17000 "Comprado"]
  = [mk_capex "Envase" "Envasadora" 3500 "Comprado"; mk_capex "Frio" "Chiller" 17000 "Comprado"].
Proof.
  destruct (merge_filtered_spec capex_key
              [mk_capex "Frio" "Chiller" 18500 "Pendente"; mk_capex "Envase" "Envasadora" 3500 "Comprado"]
              [mk_capex "Frio" "Chiller" 17000 "Comprado"]) as [_ [_ [H _]]].
  destruct H as [E _]; [discriminate|discriminate|].
  rewrite E. reflexivity.
Defined.

(** The mix tab keeps the three shares at 100 in total: for shares between
    0 and 100 the adjusted packaged share is between 0 and 100, the three
    sum to 100 whenever Taproom and draft together do not exceed 100, and
    the packaged share is 0 otherwise. *)
Theorem adjust_mix_varejo_emb_spec (mix_tap mix_varejo_chope mix_varejo_emb : Z) :
  (0 <= mix_tap <= 100)%Z -> (0 <= mix_varejo_chope <= 100)%Z ->
  (0 <= mix_varejo_emb <= 100)%Z ->
  let emb := adjust_mix_varejo_emb mix_tap mix_varejo_chope mix_varejo_emb in
  (0 <= emb <= 100)%Z
  /\ ((mix_tap + mix_varejo_chope <= 100)%Z -> (mix_tap + mix_varejo_chope + emb = 100)%Z)
  /\ ((100 < mix_tap + mix_varejo_chope)%Z -> emb = 0%Z).
Proof.
  intros Ht Hc He emb. subst emb. unfold adjust_mix_varejo_emb.
  rewrite PaybackFacts.py_max_int_spec.
  destruct (Z.eqb_spec (mix_tap + mix_varejo_chope + mix_varejo_emb) 100); cbn [negb]; lia.
Qed.

Lemma adjust_mix_varejo_emb_spec_witness :
  (30 + 25 + adjust_mix_varejo_emb 30 25 10 = 100)%Z.
Proof.
  destruct (adjust_mix_varejo_emb_spec 30 25 10) as [_ [H _]]; try lia.
Defined.

End TablesFacts.

(* ================================================================= *)
(** ** The scenario buttons *)

Module SessionFacts.

Import Session.

Lemma string_of_nat_inj (i j : nat) :
  Store.string_of_nat i = Store.string_of_nat j -> i = j.
Proof.
  unfold Store.string_of_nat. intro H.
  apply (f_equal NilEmpty.uint_of_string) in H.
  rewrite !NilEmpty.usu in H. inversion H as [E].
  apply (f_equal Nat.of_uint) in E. now rewrite !DecimalNat.Unsigned.of_to in E.
Qed.

Lemma append_cancel_l (s a b : string) : (s ++ a)%string = (s ++ b)%string -> a = b.
Proof.
  induction s as [|c s IH]; simpl; intro H; [exact H|].
  inversion H. now apply IH.
Qed.

Lemma append_length (a b : string) :
  String.length (a ++ b) = (String.length a + String.length b)%nat.
Proof. induction a as [|c a IH]; simpl; [reflexivity|now rewrite IH]. Qed.

(** The candidate names are pairwise different. *)
Lemma candidate_inj (base_name : string) (i j : nat) :
  (1 <= i)%nat -> (1 <= j)%nat ->
  candidate base_name i = candidate base_name j -> i = j.
Proof.
  intros Hi Hj H.
  assert (Hlen : forall k, (2 <= k)%nat ->
            candidate base_name k <> base_name).
  { intros k Hk E. destruct k as [|[|k]]; try lia.
    cbn [candidate] in E. apply (f_equal String.length) in E.
    rewrite append_length in E. simpl in E. lia. }
  destruct i as [|[|i]]; [lia| |]; destruct j as [|[|j]]; try lia.
  - exfalso. apply (Hlen (S (S j))); [lia|]. now symmetry.
  - exfalso. apply (Hlen (S (S i))); [lia|]. exact H.
  - cbn [candidate] in H. apply append_cancel_l in H.
    apply (append_cancel_l " ") in H. now apply string_of_nat_inj.
Qed.

Lemma candidate_next (base_name : string) (i : nat) :
  (1 <= i)%nat ->
  (base_name ++ " " ++ Store.string_of_nat (i + 1))%string = candidate base_name (i + 1).
Proof.
  intro Hi. destruct i as [|i]; [lia|].
  replace (S i + 1)%nat with (S (S i)) by lia. reflexivity.
Qed.

(** What the search returns from candidate [i] on. *)
Lemma search_name_spec (scenarios : dict json) (base_name : string) (fuel i : nat) :
  (1 <= i)%nat ->
  match search_name fuel scenarios base_name i (candidate base_name i) with
  | Some name =>
      exists j, (i <= j <= i + fuel)%nat /\ name = candidate base_name j
                /\ dict_mem scenarios name = false
                /\ forall k, (i <= k < j)%nat ->
                             dict_mem scenarios (candidate base_name k) = true
  | None =>
      forall k, (i <= k <= i + fuel)%nat ->
                dict_mem scenarios (candidate base_name k) = true
  end.
Proof.
  revert i. induction fuel as [|fuel IH]; intros i Hi; cbn [search_name].
  - destruct (dict_mem scenarios (candidate base_name i)) eqn:E.
    + intros k Hk. replace k with i by lia. exact E.
    + exists i. split; [lia|]. split; [reflexivity|]. split; [exact E|]. intros k Hk. lia.
  - destruct (dict_mem scenarios (candidate base_name i)) eqn:E.
    + rewrite (candidate_next base_name i Hi).
      specialize (IH (i + 1)%nat ltac:(lia)).
      destruct (search_name fuel scenarios base_name (i + 1)
                            (candidate base_name (i + 1))) as [name|].
      * destruct IH as [j [Hj [En [Hf Hk]]]].
        exists j. split; [lia|]. split; [exact En|]. split; [exact Hf|].
        intros k Hk'. destruct (Nat.eq_dec k i) as [->|Hne]; [exact E|].
        apply Hk. lia.
      * intros k Hk. destruct (Nat.eq_dec k i) as [->|Hne]; [exact E|].
        apply IH. lia.
    + exists i. split; [lia|]. split; [reflexivity|]. split; [exact E|]. intros k Hk. lia.
Qed.

(** The name search ends within one turn per scenario, on the first
    candidate that is no scenario name. *)
Lemma unique_name_found (scenarios : dict json) (base_name : string) :
  exists name j,
    unique_name scenarios base_name = Some name
    /\ (1 <= j <= List.length scenarios + 1)%nat
    /\ name = candidate base_name j
    /\ dict_mem scenarios name = false
    /\ forall k, (1 <= k < j)%nat -> dict_mem scenarios (candidate base_name k) = true.
Proof.
  unfold unique_name.
  pose proof (search_name_spec scenarios base_name (List.length scenarios) 1 (le_n 1)) as H.
  change (candidate base_name 1) with base_name in H.
  destruct (search_name (List.length scenarios) scenarios base_name 1 base_name) as [name|].
  - destruct H as [j [Hj [En [Hf Hk]]]]. exists name, j.
    split; [reflexivity|]. split; [lia|]. split; [exact En|]. split; [exact Hf|].
    intros k Hk'. apply Hk. lia.
  - exfalso.
    set (cands := map (candidate base_name) (seq 1 (List.length scenarios + 1))).
    assert (Hnd : NoDup cands).
    { subst cands. apply NoDup_map_NoDup_ForallPairs; [|apply seq_NoDup].
      intros a b Ha Hb E. apply in_seq in Ha, Hb.
      apply (candidate_inj base_name); try lia. exact E. }
    assert (Hincl : incl cands (dict_keys scenarios)).
    { intros c Hc. subst cands. apply in_map_iff in Hc.
      destruct Hc as [k [<- Hk]]. apply in_seq in Hk.
      specialize (H k ltac:(lia)). unfold dict_mem in H.
      destruct (dict_get scenarios (candidate base_name k)) as [v|] eqn:E; [|discriminate].
      exact (dict_get_some_keys _ _ _ E). }
    pose proof (NoDup_incl_length Hnd Hincl) as Hlen.
    subst cands. unfold dict_keys in Hlen. rewrite !length_map, length_seq in Hlen. lia.
Qed.

Lemma dict_mem_set {V : Type} (d : dict V) (k k' : string) (v : V) :
  dict_mem (dict_set d k v) k' = String.eqb k k' || dict_mem d k'.
Proof.
  unfold dict_mem. rewrite dict_get_set. now destruct (String.eqb k k').
Qed.

Lemma session_ok_intro (scenarios : dict json) (selected : string) :
  dict_mem scenarios selected = true ->
  session_ok {| db_scenarios := scenarios; db_selected := selected |} = true.
Proof.
  unfold session_ok. cbn. destruct scenarios; [discriminate|auto].
Qed.

(** Adding a scenario under a searched name and selecting it. *)
Lemma add_and_select (db : session) (name : string) (sc : json) :
  dict_mem (db_scenarios db) name = false ->
  set_selected name (put_scenario name sc db)
  = {| db_scenarios := db_scenarios db ++ [(name, sc)]; db_selected := name |}
  /\ session_ok (set_selected name (put_scenario name sc db)) = true.
Proof.
  intro Hf.
  assert (E : set_selected name (put_scenario name sc db)
              = {| db_scenarios := db_scenarios db ++ [(name, sc)]; db_selected := name |}).
  { unfold set_selected, put_scenario. cbn [db_scenarios db_selected].
    rewrite dict_mem_set, String.eqb_refl. cbn [orb].
    now rewrite (ExcelFacts.dict_set_fresh _ _ _ Hf). }
  split; [exact E|]. rewrite E. apply session_ok_intro.
  rewrite ExcelFacts.dict_mem_app, dict_mem_first. apply orb_true_r.
Qed.

(** "Novo": the search always finds a name that no scenario has, the first
    free one among [base], [base 2], [base 3], ...; the store gets one
    more scenario, the default one under that name, selected; the
    scenarios that were there are untouched and the store keeps its
    invariant. *)
Theorem new_scenario_spec (py_strip : string -> string) (new_name : string)
  (db : session) :
  exists name j db',
    new_scenario py_strip new_name db = Some db'
    /\ (1 <= j <= List.length (db_scenarios db) + 1)%nat
    /\ name = candidate (new_base_name py_strip new_name) j
    /\ (forall k, (1 <= k < j)%nat ->
          dict_mem (db_scenarios db) (candidate (new_base_name py_strip new_name) k) = true)
    /\ dict_mem (db_scenarios db) name = false
    /\ db_scenarios db'
       = db_scenarios db ++ [(name, JObj (scenario_json default_scenario))]
    /\ db_selected db' = name
    /\ session_ok db' = true.
Proof.
  destruct (unique_name_found (db_scenarios db) (new_base_name py_strip new_name))
    as [name [j [Hu [Hj [En [Hf Hk]]]]]].
  destruct (add_and_select db name (JObj (scenario_json default_scenario)) Hf) as [E Hok].
  exists name, j. eexists. unfold new_scenario. rewrite Hu.
  split; [reflexivity|]. split; [exact Hj|]. split; [exact En|]. split; [exact Hk|].
  split; [exact Hf|]. rewrite E. cbn [db_scenarios db_selected].
  split; [reflexivity|]. split; [reflexivity|]. rewrite <- E. exact Hok.
Qed.

(** "Duplicar": on a store whose selected name resolves, the copy of the
    selected scenario is added under the first free name among
    [cur (cópia)], [cur (cópia) 2], ..., and selected; nothing else
    changes and the store keeps its invariant. *)
Theorem duplicate_scenario_spec (db : session) :
  session_ok db = true ->
  exists name j sc db',
    duplicate_scenario db = Some db'
    /\ dict_get (db_scenarios db) (db_selected db) = Some sc
    /\ (1 <= j <= List.length (db_scenarios db) + 1)%nat
    /\ name = candidate (db_selected db ++ " (cópia)")%string j
    /\ (forall k, (1 <= k < j)%nat ->
          dict_mem (db_scenarios db)
                   (candidate (db_selected db ++ " (cópia)")%string k) = true)
    /\ dict_mem (db_scenarios db) name = false
    /\ db_scenarios db' = db_scenarios db ++ [(name, sc)]
    /\ db_selected db' = name
    /\ session_ok db' = true.
Proof.
  intro Hok. unfold session_ok in Hok.
  assert (Hsel : dict_mem (db_scenarios db) (db_selected db) = true)
    by (destruct (db_scenarios db); [discriminate|exact Hok]).
  unfold dict_mem in Hsel.
  destruct (dict_get (db_scenarios db) (db_selected db)) as [sc|] eqn:Esc; [|discriminate].
  destruct (unique_name_found (db_scenarios db) (db_selected db ++ " (cópia)")%string)
    as [name [j [Hu [Hj [En [Hf Hk]]]]]].
  destruct (add_and_select db name sc Hf) as [E Hok'].
  exists name, j, sc. eexists. unfold duplicate_scenario, get_scenario_name.
  rewrite Hu, Esc.
  split; [reflexivity|]. split; [reflexivity|]. split; [exact Hj|]. split; [exact En|].
  split; [exact Hk|].
  split; [exact Hf|]. rewrite E. cbn [db_scenarios db_selected].
  split; [reflexivity|]. split; [reflexivity|]. rewrite <- E. exact Hok'.
Qed.

Lemma duplicate_scenario_spec_witness :
  exists db',
    duplicate_scenario {| db_scenarios := [("Base", JObj [])]; db_selected := "Base" |}
    = Some db'
    /\ db_selected db' = "Base (cópia)"
    /\ session_ok db' = true.
Proof.
  destruct (duplicate_scenario_spec
              {| db_scenarios := [("Base", JObj [])]; db_selected := "Base" |} eq_refl)
    as [name [j [sc [db' [Hd [_ [_ [_ [_ [_ [_ [Hs Hok]]]]]]]]]]]].
  exists db'. split; [exact Hd|]. split; [|exact Hok].
  vm_compute in Hd. inversion Hd. reflexivity.
Defined.

Lemma dict_remove_absent {V : Type} (d : dict V) (k : string) :
  dict_mem d k = false -> dict_remove d k = d.
Proof.
  unfold dict_mem. induction d as [|[k0 v0] d IH]; simpl; [reflexivity|].
  destruct (String.eqb k0 k); [discriminate|]. intro H. now rewrite IH.
Qed.

Lemma dict_remove_length {V : Type} (d : dict V) (k : string) :
  RoundTrip.unique_keys d = true -> dict_mem d k = true ->
  S (List.length (dict_remove d k)) = List.length d.
Proof.
  induction d as [|[k0 v0] d IH]; simpl; intros Hu Hm; [discriminate|].
  apply andb_true_iff in Hu. destruct Hu as [Hk0 Hu]. apply negb_true_iff in Hk0.
  unfold dict_mem in Hm. simpl in Hm.
  destruct (String.eqb_spec k0 k) as [->|Hne].
  - now rewrite (dict_remove_absent d k Hk0).
  - simpl. f_equal. apply IH; [exact Hu|exact Hm].
Qed.

(** "Excluir": with one scenario left nothing is deleted; otherwise the
    selected scenario, and only it, is removed and the first remaining
    scenario becomes the selected one.  Either way the store still has a
    scenario and a selected name that resolves. *)
Theorem delete_scenario_spec (db : session) :
  session_ok db = true ->
  RoundTrip.unique_keys (db_scenarios db) = true ->
  exists db',
    delete_scenario db = Some db'
    /\ session_ok db' = true
    /\ ((List.length (db_scenarios db) <= 1)%nat -> db' = db)
    /\ ((2 <= List.length (db_scenarios db))%nat ->
          db_scenarios db' = dict_remove (db_scenarios db) (db_selected db)
          /\ S (List.length (db_scenarios db')) = List.length (db_scenarios db)
          /\ dict_mem (db_scenarios db') (db_selected db) = false
          /\ (forall k, k <> db_selected db ->
                dict_get (db_scenarios db') k = dict_get (db_scenarios db) k)
          /\ exists sc rest,
               db_scenarios db' = (db_selected db', sc) :: rest).
Proof.
  intros Hok Hu.
  assert (Hsel : dict_mem (db_scenarios db) (db_selected db) = true)
    by (unfold session_ok in Hok; destruct (db_scenarios db); [discriminate|exact Hok]).
  pose proof (dict_remove_length _ _ Hu Hsel) as Hlen.
  unfold delete_scenario, get_scenario_name.
  destruct (Nat.leb_spec (List.length (db_scenarios db)) 1) as [Hle|Hgt].
  - exists db. split; [reflexivity|]. split; [exact Hok|]. split; [reflexivity|]. lia.
  - cbn [db_scenarios db_selected].
    destruct (dict_remove (db_scenarios db) (db_selected db)) as [|[k1 v1] rest] eqn:Er.
    + simpl in Hlen. lia.
    + cbn [dict_keys map fst]. unfold set_selected. cbn [db_scenarios db_selected].
      rewrite dict_mem_first. eexists. split; [reflexivity|].
      cbn [db_scenarios db_selected].
      split; [apply session_ok_intro, dict_mem_first|]. split; [lia|]. intros _.
      split; [reflexivity|]. split; [exact Hlen|]. split; [|split].
      * rewrite <- Er. unfold dict_mem. rewrite dict_get_remove, String.eqb_refl. reflexivity.
      * intros k Hk. rewrite <- Er, dict_get_remove.
        destruct (String.eqb_spec (db_selected db) k); [congruence|reflexivity].
      * exists v1, rest. reflexivity.
Qed.

Lemma delete_scenario_spec_witness :
  exists db',
    delete_scenario {| db_scenarios := [("Base", JObj []); ("Otimista", JObj [])];
                       db_selected := "Base" |} = Some db'
    /\ session_ok db' = true
    /\ delete_scenario {| db_scenarios := [("Base", JObj [])]; db_selected := "Base" |}
       = Some {| db_scenarios := [("Base", JObj [])]; db_selected := "Base" |}.
Proof.
  destruct (delete_scenario_spec
              {| db_scenarios := [("Base", JObj []); ("Otimista", JObj [])];
                 db_selected := "Base" |} eq_refl eq_refl) as [db' [Hd [Hok _]]].
  destruct (delete_scenario_spec
              {| db_scenarios := [("Base", JObj [])]; db_selected := "Base" |}
              eq_refl eq_refl) as [db1 [Hd1 [_ [Hsame _]]]].
  exists db'. split; [exact Hd|]. split; [exact Hok|].
  rewrite Hd1. f_equal. apply Hsame. simpl. lia.
Defined.

(** Writing a scenario and reading it back: [put_scenario] under the
    selected name makes [get_scenario] return what was written, leaves
    every other scenario as it was and keeps the invariant;
    [set_selected] with a name that is no scenario changes nothing, and a
    selected name that does not resolve reads as the default scenario. *)
Theorem put_get_scenario (db : session) (name : string) (data : json) :
  get_scenario (put_scenario (get_scenario_name db) data db) = data
  /\ (forall k, k <> name ->
        dict_get (db_scenarios (put_scenario name data db)) k
        = dict_get (db_scenarios db) k)
  /\ (session_ok db = true -> session_ok (put_scenario name data db) = true)
  /\ (session_ok db = true -> session_ok (set_selected name db) = true)
  /\ (dict_mem (db_scenarios db) name = false -> set_selected name db = db)
  /\ (dict_mem (db_scenarios db) (db_selected db) = false ->
        get_scenario db = JObj (scenario_json default_scenario)).
Proof.
  split; [|split; [|split; [|split; [|split]]]].
  - unfold get_scenario, put_scenario, get_scenario_name. cbn [db_scenarios db_selected].
    now rewrite dict_get_set, String.eqb_refl.
  - intros k Hk. unfold put_scenario. cbn [db_scenarios].
    rewrite dict_get_set. destruct (String.eqb_spec name k); [congruence|reflexivity].
  - intro Hok. unfold session_ok in *. unfold put_scenario. cbn [db_scenarios db_selected].
    destruct (db_scenarios db) as [|e l] eqn:Ed; [discriminate|].
    rewrite <- Ed in *.
    assert (Hm : dict_mem (dict_set (db_scenarios db) name data) (db_selected db) = true)
      by (rewrite dict_mem_set, Hok; apply orb_true_r).
    destruct (dict_set (db_scenarios db) name data); [discriminate|exact Hm].
  - intro Hok. unfold set_selected.
    destruct (dict_mem (db_scenarios db) name) eqn:E; [|exact Hok].
    now apply session_ok_intro.
  - intro H. unfold set_selected. now rewrite H.
  - intro H. unfold get_scenario, get_scenario_name. unfold dict_mem in H.
    now destruct (dict_get (db_scenarios db) (db_selected db)).
Qed.

Lemma put_get_scenario_witness :
  session_ok (put_scenario "Otimista" (JObj [])
                {| db_scenarios := [("Base", JObj [])]; db_selected := "Base" |}) = true
  /\ set_selected "Pessimista" {| db_scenarios := [("Base", JObj [])]; db_selected := "Base" |}
     = {| db_scenarios := [("Base", JObj [])]; db_selected := "Base" |}.
Proof.
  destruct (put_get_scenario {| db_scenarios := [("Base", JObj [])]; db_selected := "Base" |}
              "Otimista" (JObj [])) as [_ [_ [Hput _]]].
  destruct (put_get_scenario {| db_scenarios := [("Base", JObj [])]; db_selected := "Base" |}
              "Pessimista" (JObj [])) as [_ [_ [_ [_ [Hset _]]]]].
  split; [apply Hput; reflexivity|apply Hset; reflexivity].
Defined.

End SessionFacts.

(* ================================================================= *)
(** ** Loading a store *)

Module LoaderFacts.

Import Store StoreFacts.

(** [load_raw] on a document whose "scenarios" is a non-empty dict: only
    the selected name is looked at. *)
Lemma load_raw_scenarios_dict (py_str : json -> string) (fields : dict json)
  (e : string * json) (rest : dict json) :
  dict_get fields "scenarios" = Some (JObj (e :: rest)) ->
  load_raw py_str (JObj fields)
  = bind (key_in (match dict_get fields "selected" with Some v => v | None => JNull end)
                 (e :: rest))
         (fun found =>
            if negb found then Ok (JObj (dict_set fields "selected" (JStr (fst e))))
            else Ok (JObj fields)).
Proof.
  intro Hs. unfold load_raw. cbn [py_in bind]. unfold dict_mem. rewrite Hs. cbn [negb].
  cbn [py_get bind]. rewrite Hs. cbn [bind py_get]. rewrite Hs. cbn [bind py_get].
  rewrite Hs.
  destruct (key_in (match dict_get fields "selected" with Some v => v | None => JNull end)
                   (e :: rest)) as [found|err]; [|reflexivity].
  cbn [bind]. destruct found; cbn [negb]; [reflexivity|].
  destruct e as [k1 v1]. reflexivity.
Qed.

(** A document that already is a store is loaded as it is; when its
    selected name is no scenario name only "selected" is rewritten, to the
    first scenario name; a selected value that is a list or a dict makes
    the load raise. *)
Theorem load_db_well_formed (py_str : json -> string)
  (json_load : list Byte.byte -> option json) (bytes : list Byte.byte)
  (fields : dict json) (e : string * json) (rest : dict json) :
  json_load bytes = Some (JObj fields) ->
  dict_get fields "scenarios" = Some (JObj (e :: rest)) ->
  (forall sel, dict_get fields "selected" = Some (JStr sel) ->
     dict_mem (e :: rest) sel = true ->
     load_db py_str json_load (Some bytes) = Ok (JObj fields))
  /\ (forall sel, dict_get fields "selected" = Some (JStr sel) ->
        dict_mem (e :: rest) sel = false ->
        load_db py_str json_load (Some bytes)
        = Ok (JObj (dict_set fields "selected" (JStr (fst e)))))
  /\ (dict_get fields "selected" = None ->
        load_db py_str json_load (Some bytes)
        = Ok (JObj (dict_set fields "selected" (JStr (fst e)))))
  /\ (forall items, dict_get fields "selected" = Some (JArr items) ->
        load_db py_str json_load (Some bytes) = Raise TypeError)
  /\ (forall inner, dict_get fields "selected" = Some (JObj inner) ->
        load_db py_str json_load (Some bytes) = Raise TypeError).
Proof.
  intros Hload Hs.
  assert (E : load_db py_str json_load (Some bytes) = load_raw py_str (JObj fields))
    by (unfold load_db; now rewrite Hload).
  rewrite E, (load_raw_scenarios_dict py_str fields e rest Hs).
  split; [|split; [|split; [|split]]].
  - intros sel Hsel Hm. rewrite Hsel. cbn [key_in bind]. now rewrite Hm.
  - intros sel Hsel Hm. rewrite Hsel. cbn [key_in bind]. now rewrite Hm.
  - intro Hsel. now rewrite Hsel.
  - intros items Hsel. now rewrite Hsel.
  - intros inner Hsel. now rewrite Hsel.
Qed.

Lemma load_db_well_formed_witness :
  load_db (fun _ => "")
    (fun _ => Some (JObj [("scenarios", JObj [("Base", JObj []); ("Otimista", JObj [])]);
                          ("selected", JStr "Otimista")]))
    (Some [])
  = Ok (JObj [("scenarios", JObj [("Base", JObj []); ("Otimista", JObj [])]);
              ("selected", JStr "Otimista")]).
Proof.
  destruct (load_db_well_formed (fun _ => "")
              (fun _ => Some (JObj [("scenarios", JObj [("Base", JObj []); ("Otimista", JObj [])]);
                                    ("selected", JStr "Otimista")]))
              []
              [("scenarios", JObj [("Base", JObj []); ("Otimista", JObj [])]);
               ("selected", JStr "Otimista")]
              ("Base", JObj []) [("Otimista", JObj [])] eq_refl eq_refl) as [H _].
  apply (H "Otimista"); reflexivity.
Defined.

(** Every file that is missing, unreadable, or holds a JSON object whose
    "selected" is not a list or a dict loads as a store that has a
    scenario and a selected name that resolves. *)
Theorem load_db_store_invariant (py_str : json -> string)
  (json_load : list Byte.byte -> option json) (file : option (list Byte.byte)) :
  match file with
  | None => True
  | Some bytes =>
      match json_load bytes with
      | None => True
      | Some (JObj fields) =>
          match dict_get fields "selected" with
          | Some (JArr _) | Some (JObj _) => False
          | _ => True
          end
      | Some _ => False
      end
  end ->
  exists db, load_db py_str json_load file = Ok db /\ store_ok db = true.
Proof.
  intro H. unfold load_db. destruct file as [bytes|].
  - destruct (json_load bytes) as [raw|].
    + destruct raw; try contradiction. now apply load_raw_object_ok.
    + exists _empty_db. split; reflexivity.
  - exists _empty_db. split; reflexivity.
Qed.

Lemma load_db_store_invariant_witness :
  exists db,
    load_db (fun _ => "")
      (fun _ => Some (JObj [("scenarios", JArr [JObj [("Nome", JStr "Piloto")]; JNum 3]);
                            ("selected", JStr "Base")]))
      (Some []) = Ok db
    /\ store_ok db = true.
Proof.
  apply (load_db_store_invariant (fun _ => "")
           (fun _ => Some (JObj [("scenarios", JArr [JObj [("Nome", JStr "Piloto")]; JNum 3]);
                                 ("selected", JStr "Base")]))
           (Some [])).
  exact I.
Defined.

(** Migration 2 on a list: the dicts that carry a non-empty "name" become
    the entries, in order; the other elements of the list are skipped. *)
Lemma migrate_list_fold (py_str : json -> string) (items : list json) :
  forall (s : nat) (acc entries : dict json),
  Forall2 (fun item kv => exists body,
             item = JObj body
             /\ dict_get body "name" = Some (JStr (fst kv)) /\ fst kv <> ""
             /\ snd kv = py_or_obj (match dict_get body "data" with
                                    | Some v => v | None => JNull end) item)
          (filter (fun item => match item with JObj _ => true | _ => false end) items)
          entries ->
  RoundTrip.unique_keys (acc ++ entries) = true ->
  fold_left (scenario_of_item py_str) (combine (seq s (List.length items)) items) acc
  = acc ++ entries.
Proof.
  induction items as [|item items IH]; intros s acc entries HF Hu.
  - cbn in HF. inversion HF. cbn. now rewrite app_nil_r.
  - cbn [List.length seq combine fold_left].
    destruct item as [| b | q | str0 | arr | body];
      try (cbn [scenario_of_item]; apply IH; [exact HF|exact Hu]).
    cbn [filter] in HF. inversion HF as [|it kv rest entries' HR HF' E1 E2]. subst.
    destruct HR as [body0 [Eb [Hname [Hne Hdata]]]]. injection Eb as <-.
    destruct kv as [k v]. cbn [fst snd] in *.
    assert (Hstep : scenario_of_item py_str acc (s, JObj body) = acc ++ [(k, v)]).
    { cbn [scenario_of_item]. rewrite Hname.
      unfold py_or_obj at 2. cbn [truthy].
      destruct (String.eqb_spec k "") as [->|_]; [congruence|]. cbn [negb].
      unfold py_or_obj at 1. cbn [truthy].
      destruct (String.eqb_spec k "") as [->|_]; [congruence|]. cbn [negb str].
      rewrite <- Hdata. apply ExcelFacts.dict_set_fresh.
      exact (ExcelFacts.unique_keys_mid _ _ _ _ Hu). }
    rewrite Hstep, (IH (S s) (acc ++ [(k, v)]) entries' HF').
    + now rewrite <- app_assoc.
    + now rewrite <- app_assoc.
Qed.

(** A document whose "scenarios" is a list of named scenario dicts is
    migrated to a store with one entry per dict, in the order of the list
    and under the dict's "name"; elements that are not dicts are dropped;
    the selected name is kept when it is one of the names and is the first
    name otherwise. *)
Theorem load_db_list_migration (py_str : json -> string)
  (json_load : list Byte.byte -> option json) (bytes : list Byte.byte)
  (fields : dict json) (items : list json) (e : string * json) (rest : dict json) :
  json_load bytes = Some (JObj fields) ->
  dict_get fields "scenarios" = Some (JArr items) ->
  Forall2 (fun item kv => exists body,
             item = JObj body
             /\ dict_get body "name" = Some (JStr (fst kv)) /\ fst kv <> ""
             /\ snd kv = py_or_obj (match dict_get body "data" with
                                    | Some v => v | None => JNull end) item)
          (filter (fun item => match item with JObj _ => true | _ => false end) items)
          (e :: rest) ->
  RoundTrip.unique_keys (e :: rest) = true ->
  load_db py_str json_load (Some bytes)
  = bind (key_in (match dict_get fields "selected" with Some v => v | None => JNull end)
                 (e :: rest))
         (fun found =>
            let migrated := dict_set fields "scenarios" (JObj (e :: rest)) in
            Ok (JObj (if found then migrated
                      else dict_set migrated "selected" (JStr (fst e))))).
Proof.
  intros Hload Hs HF Hu.
  unfold load_db. rewrite Hload. unfold load_raw.
  cbn [py_in bind]. unfold dict_mem at 1. rewrite Hs. cbn [negb].
  cbn [py_get bind]. rewrite Hs. cbn [set_item bind].
  unfold enumerate.
  rewrite (migrate_list_fold py_str items 0 [] (e :: rest) HF Hu). cbn [app].
  cbn [py_get bind]. rewrite !dict_get_set.
  change (String.eqb "scenarios" "scenarios") with true.
  change (String.eqb "scenarios" "selected") with false. cbv iota.
  cbn [py_get bind]. rewrite !dict_get_set.
  change (String.eqb "scenarios" "scenarios") with true.
  change (String.eqb "scenarios" "selected") with false. cbv iota.
  destruct (key_in (match dict_get fields "selected" with Some v => v | None => JNull end)
                   (e :: rest)) as [found|err]; [|reflexivity].
  cbn [bind]. destruct found; cbn [negb]; [reflexivity|].
  destruct e as [k1 v1]. reflexivity.
Qed.

Lemma load_db_list_migration_witness :
  load_db (fun _ => "")
    (fun _ => Some (JObj [("scenarios",
                           JArr [JObj [("name", JStr "Piloto"); ("data", JObj [("mix", JObj [])])];
                                 JNum 3;
                                 JObj [("name", JStr "Fábrica")]]);
                          ("selected", JStr "Fábrica")]))
    (Some [])
  = Ok (JObj [("scenarios", JObj [("Piloto", JObj [("mix", JObj [])]);
                                  ("Fábrica", JObj [("name", JStr "Fábrica")])]);
              ("selected", JStr "Fábrica")]).
Proof.
  apply (load_db_list_migration (fun _ => "")
    (fun _ => Some (JObj [("scenarios",
                           JArr [JObj [("name", JStr "Piloto"); ("data", JObj [("mix", JObj [])])];
                                 JNum 3;
                                 JObj [("name", JStr "Fábrica")]]);
                          ("selected", JStr "Fábrica")]))
    []
    [("scenarios",
      JArr [JObj [("name", JStr "Piloto"); ("data", JObj [("mix", JObj [])])];
            JNum 3;
            JObj [("name", JStr "Fábrica")]]);
     ("selected", JStr "Fábrica")]
    [JObj [("name", JStr "Piloto"); ("data", JObj [("mix", JObj [])])];
     JNum 3;
     JObj [("name", JStr "Fábrica")]]
    ("Piloto", JObj [("mix", JObj [])])
    [("Fábrica", JObj [("name", JStr "Fábrica")])]
    eq_refl eq_refl).
  - cbn [filter]. constructor.
    + exists [("name", JStr "Piloto"); ("data", JObj [("mix", JObj [])])].
      split; [reflexivity|]. split; [reflexivity|]. split; [discriminate|reflexivity].
    + constructor; [|constructor].
      exists [("name", JStr "Fábrica")].
      split; [reflexivity|]. split; [reflexivity|]. split; [discriminate|reflexivity].
  - reflexivity.
Defined.

End LoaderFacts.

(* ================================================================= *)
(** ** The Price instalment and the financed payback *)

Module FinanceFacts.

Import Payback PaybackFacts.

Lemma pow_gt_1 (r : Q) (n : Z) : 0 < r -> (0 < n)%Z -> 1 < (1 + r) ^ n.
Proof.
  intros Hr Hn. apply Qpower_1_lt; [lra|exact Hn].
Qed.

(** With a positive rate over a positive number of periods the divisor of
    the Price formula lies strictly between 0 and 1. *)
Lemma price_divisor (r : Q) (n : Z) :
  0 < r -> (0 < n)%Z ->
  0 < 1 - (1 + r) ^ (- n) /\ 1 - (1 + r) ^ (- n) < 1
  /\ (1 + r) ^ (- n) == / (1 + r) ^ n.
Proof.
  intros Hr Hn. pose proof (pow_gt_1 r n Hr Hn) as Hx.
  rewrite Qpower_opp.
  assert (H0 : 0 < (1 + r) ^ n) by lra.
  assert (Hi : 0 < / (1 + r) ^ n) by now apply Qinv_lt_0_compat.
  assert (H1 : / (1 + r) ^ n < 1).
  { assert (H1 : / (1 + r) ^ n < / 1)
      by (apply (proj1 (Qinv_lt_contravar 1 ((1 + r) ^ n) eq_refl H0)); exact Hx).
    exact H1. }
  split; [lra|]. split; [lra|reflexivity].
Qed.

Lemma pmt_price_rate (pv r : Q) (n : Z) :
  0 < r -> (0 < n)%Z ->
  pmt_price pv r n = Ok (pv * r / (1 - (1 + r) ^ (- n))).
Proof.
  intros Hr Hn. unfold pmt_price.
  destruct (Z.leb_spec n 0) as [Hle|_]; [lia|].
  destruct (Qle_bool r 0) eqn:Er.
  - apply Qle_bool_iff in Er. lra.
  - apply py_div_ok. destruct (price_divisor r n Hr Hn) as [Hd _]. lra.
Qed.

Lemma pmt_price_flat (pv r : Q) (n : Z) :
  r <= 0 -> (0 < n)%Z -> pmt_price pv r n = Ok (pv / inject_Z n).
Proof.
  intros Hr Hn. unfold pmt_price.
  destruct (Z.leb_spec n 0) as [Hle|_]; [lia|].
  apply Qle_bool_iff in Hr. rewrite Hr.
  apply py_div_ok. intro Hz. unfold Qeq in Hz. simpl in Hz. lia.
Qed.

(** The instalment of a loan that is not negative, at a rate that is not
    negative, is not negative. *)
Lemma parcela_ge0 (valor_fin i_m : Q) (prazo carencia : Z) :
  0 <= valor_fin -> 0 <= i_m ->
  exists p, parcela valor_fin i_m prazo carencia = Ok p /\ 0 <= p.
Proof.
  intros Hv Hi. unfold parcela. rewrite py_max_int_spec.
  assert (Hn : (0 < Z.max 1 (prazo - carencia))%Z) by lia.
  set (n := Z.max 1 (prazo - carencia)) in *.
  destruct (Qlt_le_dec 0 i_m) as [Hpos|Hle].
  - rewrite (pmt_price_rate valor_fin i_m n Hpos Hn).
    eexists. split; [reflexivity|].
    destruct (price_divisor i_m n Hpos Hn) as [Hd _].
    apply Qle_shift_div_l; [exact Hd|].
    setoid_replace (0 * (1 - (1 + i_m) ^ (- n))) with 0 by ring.
    apply Qmult_le_0_compat; assumption.
  - rewrite (pmt_price_flat valor_fin i_m n Hle Hn).
    eexists. split; [reflexivity|].
    assert (Hq : 0 < inject_Z n).
    { change 0 with (inject_Z 0). rewrite <- Zlt_Qlt. exact Hn. }
    apply Qle_shift_div_l; [exact Hq|]. lra.
Qed.

Lemma map_snd_combine {A B : Type} (l1 : list A) (l2 : list B) :
  List.length l1 = List.length l2 -> map snd (combine l1 l2) = l2.
Proof.
  revert l2. induction l1 as [|x l1 IH]; intros [|y l2] H; simpl in *;
    try reflexivity; try discriminate.
  f_equal. apply IH. lia.
Qed.

(** A smaller monthly cash from a smaller start gives smaller balances. *)
Lemma running_le (c1 c2 : nat -> Q) (ms : list nat) :
  (forall m, c1 m <= c2 m) ->
  forall (acc1 acc2 : Q) (i : nat), acc1 <= acc2 ->
  nth i (running c1 ms acc1) 0 <= nth i (running c2 ms acc2) 0.
Proof.
  intro Hc. induction ms as [|m ms IH]; intros acc1 acc2 i Hacc.
  - destruct i; apply Qle_refl.
  - assert (Hstep : acc1 + c1 m <= acc2 + c2 m)
      by (apply Qplus_le_compat; [exact Hacc|apply Hc]).
    destruct i as [|i]; cbn [running nth]; [exact Hstep|].
    apply IH. exact Hstep.
Qed.

(** The loop over the smaller cash flow never reports an earlier month. *)
Lemma loop_pay_le (c1 c2 : nat -> Q) (n s : nat) (acc : Q) (saldo1 saldo2 : list Q) :
  (forall m, c1 m <= c2 m) ->
  forall m, snd (payback_loop c1 (seq s n) acc None saldo1) = Some m ->
  exists m', snd (payback_loop c2 (seq s n) acc None saldo2) = Some m' /\ (m' <= m)%nat.
Proof.
  intros Hc m Hm.
  pose proof (loop_pay_first c1 n s acc saldo1) as H1.
  pose proof (loop_pay_first c2 n s acc saldo2) as H2.
  cbv zeta in H1, H2. rewrite Hm in H1. destruct H1 as [Hr [Hge _]].
  pose proof (running_le c1 c2 (seq s n) Hc acc acc (m - s) (Qle_refl acc)) as Hle.
  destruct (snd (payback_loop c2 (seq s n) acc None saldo2)) as [m'|].
  - exists m'. split; [reflexivity|].
    destruct H2 as [_ [_ Hlt]].
    destruct (Nat.le_gt_cases m' m) as [Hok|Hgt]; [exact Hok|].
    exfalso. specialize (Hlt m ltac:(lia)). lra.
  - exfalso. specialize (H2 m Hr). lra.
Qed.

Lemma loop_none_le (c1 c2 : nat -> Q) (n s : nat) (acc : Q) (saldo1 saldo2 : list Q) :
  (forall m, c1 m <= c2 m) ->
  snd (payback_loop c2 (seq s n) acc None saldo2) = None ->
  snd (payback_loop c1 (seq s n) acc None saldo1) = None.
Proof.
  intros Hc Hnone.
  destruct (snd (payback_loop c1 (seq s n) acc None saldo1)) as [m|] eqn:E; [|reflexivity].
  destruct (loop_pay_le c1 c2 n s acc saldo1 saldo2 Hc m E) as [m' [Hs _]].
  rewrite Hs in Hnone. discriminate.
Qed.

Lemma build_payback_series_rows (invest monthly_cash : Q) (months : nat) :
  fst (build_payback_series invest monthly_cash months)
  = combine (seq 0 (months + 1))
            (- invest :: running (fun _ => monthly_cash) (seq 1 months) (- invest)).
Proof.
  now rewrite build_payback_series_unfold.
Qed.

Lemma build_payback_series_pay (invest monthly_cash : Q) (months : nat) :
  snd (build_payback_series invest monthly_cash months)
  = snd (payback_loop (fun _ => monthly_cash) (seq 1 months) (- invest) None [- invest]).
Proof.
  now rewrite build_payback_series_unfold.
Qed.

(** Debt never helps the payback: for a financed amount and a rate that
    are not negative, the financed series is computed without error, the
    payment after the grace period is at least the interest-only payment
    of the grace period, every financed balance is at most the balance of
    the simple series of the same month, a financed payback month is never
    earlier than the simple one, and when the simple series reports no
    payback the financed one reports none either. *)
Theorem financed_payback_later
  (invest_inicial lucro_operacional valor_fin i_m : Q) (prazo carencia : Z) :
  0 <= valor_fin -> 0 <= i_m ->
  exists parc rows m_pay,
    parcela valor_fin i_m prazo carencia = Ok parc
    /\ 0 <= juros_only valor_fin i_m <= parc
    /\ financed_payback_series invest_inicial lucro_operacional valor_fin i_m
         prazo carencia = Ok (rows, m_pay)
    /\ (forall m,
          nth m (map snd rows) 0
          <= nth m (map snd (fst (build_payback_series invest_inicial
                                    lucro_operacional 84))) 0)
    /\ (forall m, m_pay = Some m ->
          exists m',
            snd (build_payback_series invest_inicial lucro_operacional 84) = Some m'
            /\ (m' <= m)%nat)
    /\ (snd (build_payback_series invest_inicial lucro_operacional 84) = None ->
          m_pay = None).
Proof.
  intros Hv Hi.
  destruct (parcela_ge0 valor_fin i_m prazo carencia Hv Hi) as [parc [Hp Hp0]].
  assert (Hj0 : 0 <= juros_only valor_fin i_m)
    by (unfold juros_only; apply Qmult_le_0_compat; assumption).
  assert (Hjp : juros_only valor_fin i_m <= parc).
  { destruct (Qlt_le_dec 0 i_m) as [Hpos|Hle].
    - assert (Hn : (0 < Z.max 1 (prazo - carencia))%Z) by lia.
      unfold parcela in Hp. rewrite py_max_int_spec in Hp.
      rewrite (pmt_price_rate valor_fin i_m _ Hpos Hn) in Hp.
      injection Hp as <-.
      destruct (price_divisor i_m _ Hpos Hn) as [Hd0 [Hd1 _]].
      set (d := 1 - (1 + i_m) ^ (- Z.max 1 (prazo - carencia))) in *.
      unfold juros_only in *. apply Qle_shift_div_l; [exact Hd0|].
      assert (Hm : 0 <= valor_fin * i_m * (1 - d)) by (apply Qmult_le_0_compat; lra).
      setoid_replace (valor_fin * i_m * d)
        with (valor_fin * i_m - valor_fin * i_m * (1 - d)) by ring.
      lra.
    - unfold juros_only. setoid_replace i_m with 0 by lra.
      setoid_replace (valor_fin * 0) with 0 by ring. exact Hp0. }
  set (cash := fun m => lucro_operacional - pay (juros_only valor_fin i_m) parc carencia m).
  assert (Hc : forall m, cash m <= (fun _ : nat => lucro_operacional) m).
  { intro m. subst cash. cbv beta. unfold pay.
    destruct (Z.of_nat m <=? carencia)%Z; lra. }
  exists parc. eexists. eexists.
  split; [exact Hp|]. split; [split; assumption|].
  split; [apply (financed_payback_series_unfold _ _ _ _ _ _ _ Hp)|].
  rewrite build_payback_series_rows, !build_payback_series_pay. fold cash.
  split; [|split].
  - intro m.
    rewrite !map_snd_combine
      by (cbn [List.length]; rewrite running_length, !length_seq; reflexivity).
    destruct m as [|m]; cbn [nth]; [apply Qle_refl|].
    apply running_le; [exact Hc|apply Qle_refl].
  - intros m Hm. exact (loop_pay_le cash _ 84 1 _ _ _ Hc m Hm).
  - exact (loop_none_le cash _ 84 1 _ _ _ Hc).
Qed.

Lemma financed_payback_later_witness :
  exists parc rows m_pay,
    parcela 6000 (15 # 1000) 12 2 = Ok parc
    /\ 0 <= juros_only 6000 (15 # 1000) <= parc
    /\ financed_payback_series 10000 2000 6000 (15 # 1000) 12 2 = Ok (rows, m_pay)
    /\ (forall m,
          nth m (map snd rows) 0
          <= nth m (map snd (fst (build_payback_series 10000 2000 84))) 0)
    /\ (forall m, m_pay = Some m ->
          exists m',
            snd (build_payback_series 10000 2000 84) = Some m' /\ (m' <= m)%nat)
    /\ (snd (build_payback_series 10000 2000 84) = None -> m_pay = None).
Proof.
  apply (financed_payback_later 10000 2000 6000 (15 # 1000) 12 2); discriminate.
Defined.

End FinanceFacts.

(* ================================================================= *)
(** ** [normalize_dist] in floating point *)

Module Mix64Facts.

Import F64 Mix64.

Lemma flt_fle (x y : float) : flt x y = true -> fle x y = true.
Proof.
  unfold flt, fle, SFltb, SFleb. destruct (SFcompare x y) as [[| |]|]; congruence.
Qed.

Lemma is_zero_fle (x : float) : is_zero x = true -> fle x fzero = true.
Proof. destruct x; cbn; congruence. Qed.

Lemma fdiv_ok (x y : float) :
  fle y fzero = false -> F64.py_div x y = Ok (fdiv x y).
Proof.
  intro H. unfold F64.py_div. destruct (is_zero y) eqn:E; [|reflexivity].
  rewrite (is_zero_fle y E) in H. discriminate.
Qed.

(** A cleaned value is [0.0] or the positive float that came in. *)
Lemma clean_value_float_cases (v : percent) :
  match v with
  | PNum x => if flt fzero x then clean_value v = x else clean_value v = fzero
  | PNone => clean_value v = fzero
  end.
Proof.
  destruct v as [|x]; [reflexivity|]. unfold clean_value, F64.py_or.
  destruct (is_zero x) eqn:Ez.
  - destruct x; try discriminate. reflexivity.
  - unfold py_max0. destruct (flt fzero x); reflexivity.
Qed.

Lemma clean_value_float_ge0 (v : percent) : fle fzero (clean_value v) = true.
Proof.
  pose proof (clean_value_float_cases v) as H. destruct v as [|x].
  - now rewrite H.
  - destruct (flt fzero x) eqn:E; rewrite H; [now apply flt_fle|reflexivity].
Qed.

Lemma clean_dist_float_zeros (dist : dict percent) :
  Forall (fun kv => match snd kv with
                    | PNum x => flt fzero x = false
                    | PNone => True
                    end) dist ->
  clean_dist dist = map (fun kv => (fst kv, fzero)) dist
  /\ dict_values (clean_dist dist) = repeat fzero (List.length dist).
Proof.
  unfold clean_dist, dict_values.
  induction 1 as [|[k v] dist Hv _ [IH1 IH2]]; cbn [map List.length repeat fst snd];
    [split; reflexivity|].
  assert (E : clean_value v = fzero).
  { pose proof (clean_value_float_cases v) as Hc. destruct v as [|x]; [exact Hc|].
    cbn [snd] in Hv. now rewrite Hv in Hc. }
  rewrite E, IH1. split; [reflexivity|].
  rewrite <- IH2, IH1. reflexivity.
Qed.




End Mix64Facts.

(* ================================================================= *)
(** ** [build_payback_series] in floating point *)

Module Payback64Facts.

Import F64 Payback64.

Lemma float_loop_saldo (c : float) (ms : list nat) (acc : float) (pay_m : option nat)
  (saldo : list float) :
  fst (payback_loop c ms acc pay_m saldo) = rev saldo ++ running c (List.length ms) acc.
Proof.
  revert acc pay_m saldo. induction ms as [|m ms IH]; intros acc pay_m saldo; simpl.
  - now rewrite app_nil_r.
  - rewrite IH. simpl. now rewrite <- app_assoc.
Qed.

Lemma float_loop_pay_some (c : float) (ms : list nat) (acc : float) (p : nat)
  (saldo : list float) :
  snd (payback_loop c ms acc (Some p) saldo) = Some p.
Proof.
  revert acc saldo. induction ms as [|m ms IH]; intros acc saldo; simpl.
  - reflexivity.
  - rewrite andb_false_r. apply IH.
Qed.

Lemma float_running_length (c : float) (n : nat) (acc : float) :
  List.length (running c n acc) = n.
Proof.
  revert acc. induction n as [|n IH]; intro acc; simpl; [reflexivity|].
  now rewrite IH.
Qed.

(** Each balance is the one before plus the monthly cash, rounded. *)
Lemma float_running_step (c : float) (n : nat) (acc : float) (i : nat) :
  (i < n)%nat ->
  exists prev cur,
    nth_error (acc :: running c n acc) i = Some prev
    /\ nth_error (acc :: running c n acc) (S i) = Some cur
    /\ cur = fadd prev c.
Proof.
  revert acc i. induction n as [|n IH]; intros acc i Hi; [lia|].
  destruct i as [|i].
  - simpl. eauto.
  - destruct (IH (fadd acc c) i ltac:(lia)) as [prev [cur [Hp [Hc E]]]].
    exists prev, cur. simpl in *. rewrite Hp, Hc. auto.
Qed.

(** The month the loop reports over [s, s+1, ...]: the first of those
    months whose balance passes the test [acc >= 0]. *)
Lemma float_loop_pay_first (c : float) (n s : nat) (acc : float) (saldo : list float) :
  let bal k := nth (k - s) (running c n acc) fzero in
  match snd (payback_loop c (seq s n) acc None saldo) with
  | Some m => (s <= m < s + n)%nat /\ fle fzero (bal m) = true
              /\ forall k, (s <= k < m)%nat -> fle fzero (bal k) = false
  | None => forall k, (s <= k < s + n)%nat -> fle fzero (bal k) = false
  end.
Proof.
  revert s acc saldo. induction n as [|n IH]; intros s acc saldo bal; simpl.
  - intros k Hk. lia.
  - destruct (fle fzero (fadd acc c)) eqn:E; simpl.
    + rewrite float_loop_pay_some. split; [lia|]. split.
      * subst bal. simpl. rewrite Nat.sub_diag. exact E.
      * intros k Hk. lia.
    + specialize (IH (S s) (fadd acc c) (fadd acc c :: saldo)). simpl in IH.
      assert (Hbal : forall k, (S s <= k)%nat ->
                 bal k = nth (k - S s) (running c n (fadd acc c)) fzero).
      { intros k Hk. subst bal. simpl.
        replace (k - s)%nat with (S (k - S s)) by lia. reflexivity. }
      assert (Hs : bal s = fadd acc c).
      { subst bal. simpl. rewrite Nat.sub_diag. reflexivity. }
      destruct (snd (payback_loop c (seq (S s) n) (fadd acc c) None
                       (fadd acc c :: saldo))) as [m|].
      * destruct IH as [Hm [Hge Hlt]]. split; [lia|]. split.
        -- rewrite Hbal by lia. exact Hge.
        -- intros k Hk. destruct (Nat.eq_dec k s) as [->|Hne].
           ++ rewrite Hs. exact E.
           ++ rewrite Hbal by lia. apply Hlt. lia.
      * intros k Hk. destruct (Nat.eq_dec k s) as [->|Hne].
        -- rewrite Hs. exact E.
        -- rewrite Hbal by lia. apply IH. lia.
Qed.

Lemma float_series_unfold (invest monthly_cash : float) (months : nat) :
  build_payback_series invest monthly_cash months
  = (combine (seq 0 (months + 1))
             (fopp invest :: running monthly_cash months (fopp invest)),
     snd (payback_loop monthly_cash (seq 1 months) (fopp invest) None [fopp invest])).
Proof.
  unfold build_payback_series.
  pose proof (float_loop_saldo monthly_cash (seq 1 months) (fopp invest) None
                [fopp invest]) as H.
  destruct (payback_loop monthly_cash (seq 1 months) (fopp invest) None [fopp invest])
    as [saldo pay_m].
  simpl in H. subst saldo. now rewrite length_seq.
Qed.

Lemma float_series_saldo (invest monthly_cash : float) (months : nat) :
  map snd (fst (build_payback_series invest monthly_cash months))
  = fopp invest :: running monthly_cash months (fopp invest).
Proof.
  rewrite float_series_unfold. cbn [fst].
  apply FinanceFacts.map_snd_combine.
  cbn [List.length]. rewrite float_running_length, length_seq. lia.
Qed.

Lemma float_series_pay (invest monthly_cash : float) (months : nat) :
  snd (build_payback_series invest monthly_cash months)
  = snd (payback_loop monthly_cash (seq 1 months) (fopp invest) None [fopp invest]).
Proof.
  now rewrite float_series_unfold.
Qed.

Lemma float_running_fixed (c : float) (n : nat) (acc : float) :
  fadd acc c = acc -> running c n acc = repeat acc n.
Proof.
  intro H. induction n as [|n IH]; cbn [running repeat]; [reflexivity|].
  now rewrite H, IH.
Qed.

Lemma nth_repeat_in {A : Type} (a d : A) (n i : nat) :
  (i < n)%nat -> nth i (repeat a n) d = a.
Proof.
  revert i. induction n as [|n IH]; intros i Hi; [lia|].
  destruct i as [|i]; cbn; [reflexivity|]. apply IH. lia.
Qed.

(** Adding a zero to the negation of a positive float changes nothing, and
    that negation does not pass the test [acc >= 0]. *)
Lemma fopp_positive (invest c : float) :
  flt fzero invest = true -> is_zero c = true ->
  fadd (fopp invest) c = fopp invest /\ fle fzero (fopp invest) = false.
Proof.
  intros Hpos Hz. destruct c as [sc| | |]; try discriminate.
  destruct invest as [s|s| |s m e]; try discriminate; destruct s; try discriminate;
    split; reflexivity.
Qed.

(** C4, as the code has it in floating point: the series has the months 0
    to the horizon; the balance of month 0 is the negated investment and
    the balance of every later month is the balance of the month before
    plus the monthly net cash, one rounded addition per month; the payback
    month reported is the first month from 1 on whose balance is not below
    zero, and none is reported exactly when no month from 1 to the horizon
    has such a balance.  With a monthly net cash of zero and a positive
    investment every balance is the negated investment and no payback is
    reported; with investment 10000 and monthly cash 2000 over the default
    84 months the payback month is 5. *)
Theorem build_payback_series_spec (invest monthly_cash : float) (months : nat) :
  let rows := fst (build_payback_series invest monthly_cash months) in
  let saldo := map snd rows in
  let pay_m := snd (build_payback_series invest monthly_cash months) in
  map fst rows = seq 0 (months + 1)
  /\ List.length saldo = (months + 1)%nat
  /\ nth_error saldo 0 = Some (fopp invest)
  /\ (forall m, (1 <= m <= months)%nat ->
        exists prev cur,
          nth_error saldo (m - 1) = Some prev /\ nth_error saldo m = Some cur
          /\ cur = fadd prev monthly_cash)
  /\ (forall m, pay_m = Some m ->
        (1 <= m <= months)%nat /\ fle fzero (nth m saldo fzero) = true
        /\ forall k, (1 <= k < m)%nat -> fle fzero (nth k saldo fzero) = false)
  /\ (pay_m = None <->
      forall k, (1 <= k <= months)%nat -> fle fzero (nth k saldo fzero) = false)
  /\ (is_zero monthly_cash = true -> flt fzero invest = true ->
        pay_m = None /\ Forall (fun b => b = fopp invest) saldo)
  /\ snd (build_payback_series (of_Z 10000) (of_Z 2000) default_months) = Some 5%nat
  /\ default_months = 84%nat.
Proof.
  intros rows saldo pay_m. subst rows saldo pay_m.
  rewrite float_series_saldo, float_series_pay.
  set (run := running monthly_cash months (fopp invest)).
  assert (Hlen : List.length run = months) by apply float_running_length.
  pose proof (float_loop_pay_first monthly_cash months 1 (fopp invest) [fopp invest])
    as Hfirst.
  cbv zeta in Hfirst. fold run in Hfirst.
  assert (Hnth : forall k, (1 <= k)%nat ->
             nth k (fopp invest :: run) fzero = nth (k - 1) run fzero).
  { intros k Hk. destruct k as [|k]; [lia|]. cbn [nth].
    now replace (S k - 1)%nat with k by lia. }
  split.
  { rewrite float_series_unfold. cbn [fst]. apply PaybackFacts.map_fst_combine.
    cbn [List.length]. fold run. rewrite Hlen, length_seq. lia. }
  split; [cbn [List.length]; rewrite Hlen; lia|].
  split; [reflexivity|].
  split.
  { intros m Hm.
    destruct (float_running_step monthly_cash months (fopp invest) (m - 1) ltac:(lia))
      as [prev [cur [Hp [Hc E]]]].
    fold run in Hp, Hc. replace (S (m - 1)) with m in Hc by lia.
    exists prev, cur. auto. }
  split.
  { intros m Hm. rewrite Hm in Hfirst. destruct Hfirst as [Hr [Hge Hlt]].
    split; [lia|]. split.
    - now rewrite Hnth by lia.
    - intros k Hk. rewrite Hnth by lia. apply Hlt. lia. }
  split.
  { split.
    - intros Hnone k Hk. rewrite Hnone in Hfirst. rewrite Hnth by lia.
      apply Hfirst. lia.
    - intro Hall.
      destruct (snd (payback_loop monthly_cash (seq 1 months) (fopp invest) None
                       [fopp invest])) as [m|]; [|reflexivity].
      destruct Hfirst as [Hr [Hge _]].
      specialize (Hall m ltac:(lia)). rewrite Hnth in Hall by lia. congruence. }
  split; [|split; reflexivity].
  intros Hz Hpos.
  destruct (fopp_positive invest monthly_cash Hpos Hz) as [Hfix Hneg].
  assert (Hrun : run = repeat (fopp invest) months)
    by (subst run; now apply float_running_fixed).
  split.
  - destruct (snd (payback_loop monthly_cash (seq 1 months) (fopp invest) None
                     [fopp invest])) as [m|]; [|reflexivity].
    destruct Hfirst as [Hr [Hge _]].
    rewrite Hrun, nth_repeat_in in Hge by lia. congruence.
  - constructor; [reflexivity|]. rewrite Hrun. apply Forall_forall.
    intros b Hb. now apply repeat_spec in Hb.
Qed.

Lemma build_payback_series_spec_witness :
  snd (build_payback_series (of_Z 10000) (fzero) 12) = None
  /\ Forall (fun b => b = fopp (of_Z 10000))
            (map snd (fst (build_payback_series (of_Z 10000) fzero 12)))
  /\ (1 <= 5 <= 84)%nat.
Proof.
  destruct (build_payback_series_spec (of_Z 10000) fzero 12)
    as [_ [_ [_ [_ [_ [_ [Hzero _]]]]]]].
  destruct (build_payback_series_spec (of_Z 10000) (of_Z 2000) 84)
    as [_ [_ [_ [_ [Hsome _]]]]].
  destruct (Hzero eq_refl eq_refl) as [Hn Hb].
  split; [exact Hn|]. split; [exact Hb|].
  exact (proj1 (Hsome 5%nat eq_refl)).
Defined.

(** C4 as stated fails.  With investment 1.0 and monthly cash 0.1 the
    closed form [-invest + 10 * cash] is not below zero, in floating point
    and exactly, yet the balance the loop has accumulated at month 10 is
    below zero and the payback month reported is 11.  And with nothing
    invested the balance of month 0 is already not below zero, yet the
    month reported is 1. *)
Lemma payback_month_counterexample :
  fle fzero (fadd (fopp (of_Z 1)) (fmul (of_Z 10) (lit 1 10))) = true
  /\ (0 <= - to_Q (of_Z 1) + 10 * to_Q (lit 1 10))%Q
  /\ nth_error (map snd (fst (build_payback_series (of_Z 1) (lit 1 10) 12))) 10
     = Some (S754_finite true 5629499534213120 (-105))
  /\ snd (build_payback_series (of_Z 1) (lit 1 10) 12) = Some 11%nat
  /\ nth_error (map snd (fst (build_payback_series fzero fzero 84))) 0
     = Some (fopp fzero)
  /\ fle fzero (fopp fzero) = true
  /\ snd (build_payback_series fzero fzero 84) = Some 1%nat.
Proof.
  split; [reflexivity|]. split; [vm_compute; discriminate|].
  repeat split; vm_compute; reflexivity.
Qed.

End Payback64Facts.

(* ================================================================= *)
(** ** [recipe_cost_per_liter] in floating point *)

Module Costing64Facts.

Import F64 Costing64.

Lemma find_none_key {A : Type} (key : A -> string) (s : string) (l : list A) :
  existsb (String.eqb s) (map key l) = false ->
  find (fun r => String.eqb (key r) s) l = None.
Proof.
  induction l as [|r l IH]; simpl; [reflexivity|].
  rewrite (String.eqb_sym (key r) s).
  destruct (String.eqb s (key r)); simpl; [discriminate|exact IH].
Qed.

Lemma find_some_key {A : Type} (key : A -> string) (s : string) (l : list A) :
  existsb (String.eqb s) (map key l) = true ->
  exists r, find (fun r => String.eqb (key r) s) l = Some r.
Proof.
  induction l as [|r l IH]; simpl; [discriminate|].
  rewrite (String.eqb_sym (key r) s).
  destruct (String.eqb s (key r)); simpl; [eauto|exact IH].
Qed.

(** The guard [vol <= 0] reads the batch volume itself, and past the guard
    [vol] is the batch volume. *)
Lemma batch_volume_guard (v : float) :
  fle (F64.py_or v fzero) fzero = fle v fzero
  /\ (fle v fzero = false -> F64.py_or v fzero = v).
Proof.
  unfold F64.py_or. destruct (is_zero v) eqn:E.
  - rewrite (Mix64Facts.is_zero_fle v E). split; [reflexivity|discriminate].
  - split; reflexivity.
Qed.

(** The recipe the function costs, and its result, as one equation. *)
Lemma recipe_cost_float_unfold (series_sum : list float -> float)
  (first : header_row) (rest : list header_row)
  (det : detail_frame) (prem : dict float) (recipe_name : option string) :
  let hdr := first :: rest in
  let row :=
    match recipe_name with
    | Some s =>
        if String.eqb s "" then first
        else match find (fun r => String.eqb (Nome r) s) hdr with
             | Some r => r
             | None => first
             end
    | None => first
    end in
  let lines := filter (fun l => Z.eqb (Receita_ID l) (ID row)) (det_rows det) in
  recipe_cost_per_liter series_sum hdr det prem recipe_name
  = if match lines with [] => true | _ => false end || fle (Volume_Batelada row) fzero
    then Ok (calc_gip_total prem)
    else Ok (fadd (fdiv (series_sum (line_totals (has_Custo_Total det) lines))
                        (Volume_Batelada row))
                  (calc_gip_total prem)).
Proof.
  intros hdr row lines. unfold recipe_cost_per_liter.
  unfold hdr at 1. cbv beta iota zeta. fold hdr.
  set (target := if name_falsy recipe_name || name_missing recipe_name (map Nome hdr)
                 then Nome first
                 else match recipe_name with Some s => s | None => Nome first end).
  assert (Hrow : filter (fun r => String.eqb (Nome r) target) hdr
                 = row :: tl (filter (fun r => String.eqb (Nome r) target) hdr)).
  { pose proof (CostingFacts.filter_head_find (fun r => String.eqb (Nome r) target) hdr)
      as Hf.
    assert (Hfind : find (fun r => String.eqb (Nome r) target) hdr = Some row).
    { subst target row. destruct recipe_name as [s|]; simpl.
      - destruct (String.eqb s "") eqn:Es; simpl.
        + now rewrite String.eqb_refl.
        + rewrite (String.eqb_sym s (Nome first)).
          destruct (String.eqb (Nome first) s) eqn:E1; simpl.
          * now rewrite E1.
          * destruct (existsb (String.eqb s) (map Nome rest)) eqn:Ex; simpl.
            -- rewrite E1. destruct (find_some_key Nome s rest Ex) as [r Hr].
               now rewrite Hr.
            -- rewrite String.eqb_refl. now rewrite (find_none_key Nome s rest Ex).
      - now rewrite String.eqb_refl. }
    rewrite Hfind in Hf.
    destruct (filter (fun r => String.eqb (Nome r) target) hdr) as [|r l];
      [discriminate|]. now inversion Hf. }
  rewrite Hrow. fold lines.
  destruct (batch_volume_guard (Volume_Batelada row)) as [Hg Hv]. rewrite Hg.
  destruct (match lines with [] => true | _ => false end
            || fle (Volume_Batelada row) fzero) eqn:Eg; [reflexivity|].
  apply orb_false_iff in Eg. destruct Eg as [_ Ev].
  rewrite (Hv Ev). now rewrite (Mix64Facts.fdiv_ok _ _ Ev).
Qed.




End Costing64Facts.
